(** * Facinet: gasless ERC-3009 settlement through facilitators

    A shallow embedding of the settlement core of the facinet repository
    (network registry, authorization codec and client payloads, facilitator
    storage and listing, funding check, the single, batch and default
    settlement routes, and the routes that create, delete and pick
    facilitators) together with the properties its specification states
    about it and further properties read off the code.

    Conventions of the embedding.
    - A JavaScript [bigint] is a [Z].  A JavaScript [number] that holds an
      integer (chain ids, counters, millisecond clocks) is a [Z] as well; all
      such values stay far below 2^53, where [+] and [-] on doubles are exact.
    - Strings are [string], holding the UTF-8 bytes of the text.  The strings
      the routes slice, match and compare (addresses, signatures, network
      names) are ASCII, where [String.length] is the JavaScript [.length];
      where a route tests the length of a string of the request (the name
      of a facilitator, a candidate token address) it is counted in UTF-16
      code units, by [JS.length].
    - [process.env] is a function from variable names to optional strings.
    - The tables of the repository are object literals, indexed with names
      that arrive in requests.  Under the name of a member of
      [Object.prototype] the index finds that member: there
      [Networks.getNetworkConfig] returns [Networks.Inherited], a value with
      none of the fields of an entry, and each route goes on as its code
      does with such a value.  The client helpers of lib/x402 and
      lib/erc3009 are embedded at the other names (see
      [Networks.getNetworkEntry]).
    - [Date.now()] reads the clock of the world.  A world carries the time
      of the call that runs in it: the milliseconds one call takes are not
      modelled, and the time that passes between two calls is a change of
      the world the second one is given.
    - Asynchronous route handlers run to completion; they are functions from
      a world (Redis, chain, audit log, clock) to a response and a new world.
      A thrown exception is the [Throw] result of the small state and error
      monad below.  Redis commands and the audit sink answer every call.
    - A request body is read against the TypeScript interface of its route;
      the fields a route tests with [typeof] are kept as JSON values. *)

From Stdlib Require Import ZArith String Ascii List Bool Lia.
From Stdlib Require Import DecimalString DecimalZ.
From stdpp Require Import base option gmap strings.
Import ListNotations.

Local Open Scope string_scope.
Local Open Scope Z_scope.

(** ** JavaScript values and idioms used by the routes *)

Module JS.

(** [process.env]. *)
Definition Env := string -> option string.

(** Truthiness of a string: every string but the empty one. *)
Definition truthy (s : string) : bool := negb (String.eqb s "").

(** [v || d] for an optional string [v] ([None] is [undefined]). *)
Definition or_else (v : option string) (d : string) : string :=
  match v with
  | Some s => if truthy s then s else d
  | None => d
  end.

(** [!v] for an optional string and for an optional number. *)
Definition falsy_str (v : option string) : bool :=
  match v with
  | Some s => negb (truthy s)
  | None => true
  end.

Definition falsy_num (v : option Z) : bool :=
  match v with
  | Some n => Z.eqb n 0
  | None => true
  end.

(** JSON values as request and response bodies carry them.  [JNum n] is a
    number with the integer value [n]; [JDouble m e] is any other finite
    number, the double [m * 2^e] (truthy, and equal to no chain id);
    objects are association lists in key order. *)
#[local] Unset Elimination Schemes.
Inductive JVal :=
| JUndefined
| JNull
| JBool (b : bool)
| JNum (n : Z)
| JDouble (m e : Z)
| JStr (s : string)
| JArr (xs : list JVal)
| JObj (fields : list (string * JVal)).
#[local] Set Elimination Schemes.

Definition truthy_val (v : JVal) : bool :=
  match v with
  | JUndefined | JNull => false
  | JBool b => b
  | JNum n => negb (Z.eqb n 0)
  | JDouble _ _ => true
  | JStr s => truthy s
  | JArr _ | JObj _ => true
  end.

Fixpoint assoc {A : Type} (k : string) (l : list (string * A)) : option A :=
  match l with
  | [] => None
  | (k', v) :: rest => if String.eqb k k' then Some v else assoc k rest
  end.

(** Property access [v.k]: own fields of an object literal; [undefined] on
    every other value the routes can meet here (numbers, strings, arrays
    have no such own property; the routes never read a property of
    [undefined] or [null] through this function). *)
Definition prop (v : JVal) (k : string) : JVal :=
  match v with
  | JObj fields =>
      match assoc k (rev fields) with
      | Some x => x
      | None => JUndefined
      end
  | _ => JUndefined
  end.

(** [s.slice(a)] and [s.slice(a, b)] for [0 <= a <= b]. *)
Definition slice_from (a : nat) (s : string) : string :=
  String.substring a (String.length s - a) s.

Definition slice (a b : nat) (s : string) : string :=
  let e := Nat.min b (String.length s) in
  String.substring a (e - a) s.

(** [BigInt.prototype.toString()]: the decimal digits, [-] first when
    negative, no leading zero. *)
Definition bigint_toString (n : Z) : string :=
  NilZero.string_of_int (Z.to_int n).

(** [parseInt(str, 16)]: leading white space is skipped, then an optional
    sign and an optional [0x]; the value is that of the longest run of
    hexadecimal digits that follows, [None] ([NaN]) when there is none. *)
Definition is_space (c : ascii) : bool :=
  let n := nat_of_ascii c in
  ((9 <=? n)%nat && (n <=? 13)%nat) || (n =? 32)%nat.

Fixpoint skip_spaces (s : string) : string :=
  match s with
  | String c rest => if is_space c then skip_spaces rest else s
  | EmptyString => s
  end.

Definition hex_value (c : ascii) : option Z :=
  let n := nat_of_ascii c in
  if (48 <=? n)%nat && (n <=? 57)%nat then Some (Z.of_nat n - 48)
  else if (97 <=? n)%nat && (n <=? 102)%nat then Some (Z.of_nat n - 87)
  else if (65 <=? n)%nat && (n <=? 70)%nat then Some (Z.of_nat n - 55)
  else None.

Fixpoint hex_run (s : string) (acc : option Z) : option Z :=
  match s with
  | String c rest =>
      match hex_value c with
      | Some d => hex_run rest (Some (16 * default 0 acc + d))
      | None => acc
      end
  | EmptyString => acc
  end.

Definition strip_0x (s : string) : string :=
  match s with
  | String "0" (String "x" rest) => rest
  | String "0" (String "X" rest) => rest
  | _ => s
  end.

Definition parseInt16 (str : string) : option Z :=
  match skip_spaces str with
  | String "-" rest => option_map Z.opp (hex_run (strip_0x rest) None)
  | String "+" rest => hex_run (strip_0x rest) None
  | rest => hex_run (strip_0x rest) None
  end.

(** The names of the members an object literal inherits from
    [Object.prototype].  For such a [name] and any object literal [table],
    [name in table] holds and [table[name]] is the inherited member: a
    function, and for [__proto__] the prototype itself.  The member is
    truthy and has none of the properties the tables of the repository give
    their entries. *)
Definition PROTOTYPE_MEMBERS : list string :=
  [ "constructor"; "hasOwnProperty"; "isPrototypeOf"; "propertyIsEnumerable";
    "toLocaleString"; "toString"; "valueOf"; "__proto__";
    "__defineGetter__"; "__defineSetter__";
    "__lookupGetter__"; "__lookupSetter__" ].

Definition inherited (name : string) : bool :=
  existsb (String.eqb name) PROTOTYPE_MEMBERS.

(** [s.length]: the number of UTF-16 code units of the text, where the
    [string] holds its UTF-8 bytes: one unit for a character of one, two or
    three bytes, two units for a character of four bytes, none for a
    continuation byte.  On ASCII text this is [String.length]. *)
Definition utf16_units (c : ascii) : nat :=
  let n := nat_of_ascii c in
  if (n <? 128)%nat then 1%nat
  else if (n <? 192)%nat then 0%nat
  else if (n <? 240)%nat then 1%nat
  else 2%nat.

Fixpoint length (s : string) : nat :=
  match s with
  | EmptyString => 0%nat
  | String c rest => (utf16_units c + length rest)%nat
  end.

End JS.

(** ** lib/networks.ts: the network registry *)

Module Networks.

(** The part of a wagmi [Chain] the core reads: its id. *)
Record Chain := { id : Z }.

Record NativeCurrency :=
  { currency_name : string; symbol : string; decimals : Z }.

Record ERC3009Domain :=
  { domain_name : string;
    version : string;
    chainId : Z;
    verifyingContract : string }.

Record NetworkConfig :=
  { chain : Chain;
    name : string;
    displayName : string;
    rpcUrl : string;
    blockExplorer : string;
    usdcAddress : string;
    usdcDecimals : Z;
    nativeCurrency : NativeCurrency;
    erc3009Domain : ERC3009Domain }.

(** The four chains imported from [wagmi/chains], a dependency of the
    repository.  Their ids are the public ids of these test networks; the
    repository repeats them in scripts/check-all-domains.ts and pairs
    avalanche-fuji with 43113 in the storage migration. *)
Definition avalancheFuji : Chain := {| id := 43113 |}.
Definition sepolia : Chain := {| id := 11155111 |}.
Definition baseSepolia : Chain := {| id := 84532 |}.
Definition polygonAmoy : Chain := {| id := 80002 |}.

(** The two chains the file declares itself. *)
Definition monadTestnet : Chain := {| id := 10143 |}.
Definition arbitrumSepoliaChain : Chain := {| id := 421614 |}.

Definition eth : NativeCurrency :=
  {| currency_name := "Ethereum"; symbol := "ETH"; decimals := 18 |}.

(** [NETWORK_CONFIGS], in declaration order.  The table is built once, when
    the module is loaded, from the environment of the process. *)
Definition NETWORK_CONFIGS (env : JS.Env) : list (string * NetworkConfig) :=
  [ ("avalanche-fuji",
     {| chain := avalancheFuji;
        name := "avalanche-fuji";
        displayName := "Avalanche Fuji";
        rpcUrl := JS.or_else (env "RPC_URL_AVALANCHE_FUJI")
                    "https://api.avax-test.network/ext/bc/C/rpc";
        blockExplorer := "https://testnet.snowtrace.io";
        usdcAddress := "0x5425890298aed601595a70AB815c96711a31Bc65";
        usdcDecimals := 6;
        nativeCurrency :=
          {| currency_name := "Avalanche"; symbol := "AVAX"; decimals := 18 |};
        erc3009Domain :=
          {| domain_name := "USD Coin";
             version := "2";
             chainId := 43113;
             verifyingContract := "0x5425890298aed601595a70AB815c96711a31Bc65" |} |});
    ("ethereum-sepolia",
     {| chain := sepolia;
        name := "ethereum-sepolia";
        displayName := "Ethereum Sepolia";
        rpcUrl := JS.or_else (env "RPC_URL_ETHEREUM_SEPOLIA")
                    "https://ethereum-sepolia-rpc.publicnode.com";
        blockExplorer := "https://sepolia.etherscan.io";
        usdcAddress := JS.or_else (env "NEXT_PUBLIC_USDC_ADDRESS_SEPOLIA")
                         "0x1c7D4B196Cb0C7B01d743Fbc6116a902379C7238";
        usdcDecimals := 6;
        nativeCurrency := eth;
        erc3009Domain :=
          {| domain_name := "USDC";
             version := "2";
             chainId := 11155111;
             verifyingContract :=
               JS.or_else (env "NEXT_PUBLIC_USDC_ADDRESS_SEPOLIA")
                 "0x1c7D4B196Cb0C7B01d743Fbc6116a902379C7238" |} |});
    ("base-sepolia",
     {| chain := baseSepolia;
        name := "base-sepolia";
        displayName := "Base Sepolia";
        rpcUrl := JS.or_else (env "RPC_URL_BASE_SEPOLIA") "https://sepolia.base.org";
        blockExplorer := "https://sepolia.basescan.org";
        usdcAddress := JS.or_else (env "NEXT_PUBLIC_USDC_ADDRESS_BASE_SEPOLIA")
                         "0x036CbD53842c5426634e7929541eC2318f3dCF7e";
        usdcDecimals := 6;
        nativeCurrency := eth;
        erc3009Domain :=
          {| domain_name := "USDC";
             version := "2";
             chainId := 84532;
             verifyingContract :=
               JS.or_else (env "NEXT_PUBLIC_USDC_ADDRESS_BASE_SEPOLIA")
                 "0x036CbD53842c5426634e7929541eC2318f3dCF7e" |} |});
    ("polygon-amoy",
     {| chain := polygonAmoy;
        name := "polygon-amoy";
        displayName := "Polygon Amoy";
        rpcUrl := JS.or_else (env "RPC_URL_POLYGON_AMOY")
                    "https://rpc-amoy.polygon.technology";
        blockExplorer := "https://amoy.polygonscan.com";
        usdcAddress := JS.or_else (env "NEXT_PUBLIC_USDC_ADDRESS_POLYGON_AMOY")
                         "0x41E94Eb019C0762f9Bfcf9Fb1E58725BfB0e7582";
        usdcDecimals := 6;
        nativeCurrency :=
          {| currency_name := "Polygon"; symbol := "MATIC"; decimals := 18 |};
        erc3009Domain :=
          {| domain_name := "USDC";
             version := "2";
             chainId := 80002;
             verifyingContract :=
               JS.or_else (env "NEXT_PUBLIC_USDC_ADDRESS_POLYGON_AMOY")
                 "0x41E94Eb019C0762f9Bfcf9Fb1E58725BfB0e7582" |} |});
    ("arbitrum-sepolia",
     {| chain := arbitrumSepoliaChain;
        name := "arbitrum-sepolia";
        displayName := "Arbitrum Sepolia";
        rpcUrl := JS.or_else (env "RPC_URL_ARBITRUM_SEPOLIA")
                    "https://sepolia-rollup.arbitrum.io/rpc";
        blockExplorer := "https://sepolia.arbiscan.io";
        usdcAddress := JS.or_else (env "NEXT_PUBLIC_USDC_ADDRESS_ARBITRUM_SEPOLIA")
                         "0x75faf114eafb1BDbe2F0316DF893fd58CE46AA4d";
        usdcDecimals := 6;
        nativeCurrency := eth;
        erc3009Domain :=
          {| domain_name := "USDC";
             version := "2";
             chainId := 421614;
             verifyingContract :=
               JS.or_else (env "NEXT_PUBLIC_USDC_ADDRESS_ARBITRUM_SEPOLIA")
                 "0x75faf114eafb1BDbe2F0316DF893fd58CE46AA4d" |} |});
    ("monad-testnet",
     {| chain := monadTestnet;
        name := "monad-testnet";
        displayName := "Monad Testnet";
        rpcUrl := JS.or_else (env "RPC_URL_MONAD_TESTNET")
                    "https://testnet-rpc.monad.xyz";
        blockExplorer := "https://testnet.monadvision.com";
        usdcAddress := JS.or_else (env "NEXT_PUBLIC_USDC_ADDRESS_MONAD_TESTNET")
                         "0x534b2f3A21130d7a60830c2Df862319e593943A3";
        usdcDecimals := 6;
        nativeCurrency :=
          {| currency_name := "Monad"; symbol := "MON"; decimals := 18 |};
        erc3009Domain :=
          {| domain_name := "USDC";
             version := "2";
             chainId := 10143;
             verifyingContract :=
               JS.or_else (env "NEXT_PUBLIC_USDC_ADDRESS_MONAD_TESTNET")
                 "0x534b2f3A21130d7a60830c2Df862319e593943A3" |} |}) ].

Definition SUPPORTED_NETWORKS (env : JS.Env) : list string :=
  map fst (NETWORK_CONFIGS env).

(** What [NETWORK_CONFIGS[networkName]] finds when it finds something: an
    entry of the table, or, under the name of a member of
    [Object.prototype], that member, which is truthy and has none of the
    fields of an entry. *)
Inductive Found :=
| Entry (config : NetworkConfig)
| Inherited.

(** The own entry of the table under a name. *)
Definition entry (env : JS.Env) (networkName : string) : option NetworkConfig :=
  JS.assoc networkName (NETWORK_CONFIGS env).

(** [NETWORK_CONFIGS[networkName]]; [None] is [undefined]. *)
Definition lookup (env : JS.Env) (networkName : string) : option Found :=
  match entry env networkName with
  | Some config => Some (Entry config)
  | None => if JS.inherited networkName then Some Inherited else None
  end.

(** [getNetworkConfig]: throws when the table finds nothing under the name,
    and returns what it finds otherwise. *)
Definition getNetworkConfig (env : JS.Env) (networkName : string)
  : string + Found :=
  match lookup env networkName with
  | Some config => inr config
  | None => inl ("Unsupported network: " ++ networkName)
  end.

(** The first read of a property of a property of what [getNetworkConfig]
    returned, as in [networkConfig.nativeCurrency.symbol]: on an inherited
    member the outer property is [undefined] and the read throws a
    [TypeError]; its wording is the engine's. *)
Definition entry_of (found : Found) (property : string)
  : string + NetworkConfig :=
  match found with
  | Entry config => inr config
  | Inherited =>
      inl ("Cannot read properties of undefined (reading '" ++ property ++ "')")
  end.

(** [networkConfig.displayName] as a JSON value: [undefined] on an
    inherited member. *)
Definition displayName_of (found : Found) : JS.JVal :=
  match found with
  | Entry config => JS.JStr (displayName config)
  | Inherited => JS.JUndefined
  end.

(** [getNetworkConfig] as the client helpers of lib/x402 and lib/erc3009
    use it.  They read [usdcAddress], [usdcDecimals] and [erc3009Domain] of
    what is returned; on an inherited member these are [undefined], and the
    helpers return objects that hold [undefined] in their place.  The
    records of the embedding hold no such value: the helpers are embedded at
    the other names, and at the name of an inherited member they answer
    [inl] here. *)
Definition getNetworkEntry (env : JS.Env) (networkName : string)
  : string + NetworkConfig :=
  match getNetworkConfig env networkName with
  | inl message => inl message
  | inr (Entry config) => inr config
  | inr Inherited => inl ("Unsupported network: " ++ networkName)
  end.

(** [getNetworkByChainId]: the first entry, in table order, of that chain. *)
Definition getNetworkByChainId (env : JS.Env) (chainId : Z) : option NetworkConfig :=
  List.find (fun config => Z.eqb (id (chain config)) chainId)
            (map snd (NETWORK_CONFIGS env)).

(** [isNetworkSupported]: [networkName in NETWORK_CONFIGS], which holds for
    the names of the table and for the names of inherited members. *)
Definition isNetworkSupported (env : JS.Env) (networkName : string) : bool :=
  match lookup env networkName with Some _ => true | None => false end.

Definition getSupportedChains (env : JS.Env) : list Chain :=
  map chain (map snd (NETWORK_CONFIGS env)).

End Networks.

(** An entry of the table is read as what the table finds, so that
    [getNetworkConfig env name = inr config] says that the call returns the
    entry [config]. *)
Coercion Networks.Entry : Networks.NetworkConfig >-> Networks.Found.
Arguments inr {A B} & _.

(** ** Doubles met by the funding check

    The funding check compares [parseFloat(formatEther(balance))] with the
    literal [0.0001].  Both are the binary64 value nearest to a positive
    rational (round to nearest, ties to even): [formatEther] prints the
    exact decimal expansion of [balance / 10^18], and [parseFloat] and the
    literal are correctly rounded.  A finite non-negative double is kept as
    the exact dyadic number [mant * 2^expo]. *)

Module Double.

Record t := { mant : Z; expo : Z }.

(** The integer nearest to [n / d] for [0 <= n], [0 < d]; ties go to the
    even one. *)
Definition round_half_even (n d : Z) : Z :=
  let q := n / d in
  let r := n mod d in
  match 2 * r ?= d with
  | Lt => q
  | Gt => q + 1
  | Eq => if Z.even q then q else q + 1
  end.

(** [n / d] divided by [2^e], as a fraction. *)
Definition scaled (n d e : Z) : Z * Z :=
  if 0 <=? e then (n, d * 2 ^ e) else (n * 2 ^ (- e), d).

(** The exponent [e] with [2^52 <= (n/d) / 2^e < 2^53], for [0 < n], [0 < d]. *)
Definition exponent (n d : Z) : Z :=
  let e0 := Z.log2 n - Z.log2 d - 52 in
  let '(n0, d0) := scaled n d e0 in
  if n0 <? d0 * 2 ^ 52 then e0 - 1 else e0.

(** The binary64 value nearest to [n / d], for [0 <= n] and [0 < d] with
    [n / d] in the range of normal doubles (every balance of at least one
    wei and below 2^256 wei is, and so are the thresholds). *)
Definition of_ratio (n d : Z) : t :=
  if n <=? 0 then {| mant := 0; expo := 0 |}
  else
    let e := exponent n d in
    let '(n1, d1) := scaled n d e in
    {| mant := round_half_even n1 d1; expo := e |}.

(** [x > y] and [x >= y] on the exact values. *)
Definition aligned (x y : t) : Z * Z :=
  let e := Z.min (expo x) (expo y) in
  (mant x * 2 ^ (expo x - e), mant y * 2 ^ (expo y - e)).

Definition gtb (x y : t) : bool :=
  let '(a, b) := aligned x y in b <? a.

Definition geb (x y : t) : bool :=
  let '(a, b) := aligned x y in b <=? a.

(** [formatEther]: wei to the token unit, then [parseFloat]. *)
Definition of_wei (balance : Z) : t := of_ratio balance (10 ^ 18).

(** [x.toFixed(4)] for [0 <= x < 10^21]: the integer [n] nearest to
    [x * 10^4] (the larger one on a tie), printed with four decimals.
    From [10^21] on [toFixed] answers in exponent notation, which is not
    embedded: a statement that pins the string bounds the balance. *)
Definition fixed4_units (x : t) : Z :=
  if 0 <=? expo x then mant x * 2 ^ expo x * 10000
  else (2 * mant x * 10000 + 2 ^ (- expo x)) / (2 * 2 ^ (- expo x)).

Fixpoint zeros (k : nat) : string :=
  match k with
  | O => EmptyString
  | S k' => String "0" (zeros k')
  end.

Definition toFixed4 (x : t) : string :=
  let digits := JS.bigint_toString (fixed4_units x) in
  let padded := (zeros (5 - String.length digits) ++ digits)%string in
  let k := (String.length padded - 4)%nat in
  (String.substring 0 k padded ++ "." ++ String.substring k 4 padded)%string.

End Double.

(** ** lib/contracts.ts: the token contracts of the settlement routes *)

Module Contracts.

Record USDCContract :=
  { address : string; decimals : Z; symbol : string; name : string }.

Definition USDC_CONTRACTS (env : JS.Env) : list (string * USDCContract) :=
  [ ("avalanche-fuji",
     {| address := "0x5425890298aed601595a70AB815c96711a31Bc65";
        decimals := 6; symbol := "USDC"; name := "USD Coin" |});
    ("ethereum-sepolia",
     {| address := JS.or_else (env "NEXT_PUBLIC_USDC_ADDRESS_SEPOLIA") "0x";
        decimals := 6; symbol := "USDC"; name := "USD Coin" |});
    ("base-sepolia",
     {| address := JS.or_else (env "NEXT_PUBLIC_USDC_ADDRESS_BASE_SEPOLIA") "0x";
        decimals := 6; symbol := "USDC"; name := "USD Coin" |});
    ("polygon-amoy",
     {| address := JS.or_else (env "NEXT_PUBLIC_USDC_ADDRESS_POLYGON_AMOY") "0x";
        decimals := 6; symbol := "USDC"; name := "USD Coin" |}) ].

(** [network.toUpperCase().replace(/-/g, '_')] on ASCII names. *)
Definition upper_snake_char (c : ascii) : ascii :=
  let n := nat_of_ascii c in
  if Ascii.eqb c "-" then "_"%char
  else if (97 <=? n)%nat && (n <=? 122)%nat then ascii_of_nat (n - 32)
  else c.

Fixpoint upper_snake (s : string) : string :=
  match s with
  | EmptyString => EmptyString
  | String c rest => String (upper_snake_char c) (upper_snake rest)
  end.

Definition address_not_set (network : string) : string :=
  "USDC contract address not set for " ++ network ++ ". "
  ++ "Please set NEXT_PUBLIC_USDC_ADDRESS_" ++ upper_snake network
  ++ " in .env.local".

(** [getUSDCContract]: throws when [USDC_CONTRACTS[network]] finds nothing
    and when what it finds has no configured address.  Under the name of an
    inherited member it finds the member, whose [address] is [undefined],
    and throws the second error. *)
Definition getUSDCContract (env : JS.Env) (network : string)
  : string + USDCContract :=
  match JS.assoc network (USDC_CONTRACTS env) with
  | None =>
      if JS.inherited network then inl (address_not_set network)
      else inl ("USDC contract not configured for network: " ++ network)
  | Some contract =>
      if negb (JS.truthy (address contract)) || String.eqb (address contract) "0x"
      then inl (address_not_set network)
      else inr contract
  end.

End Contracts.

(** ** lib/x402.ts: the per-network protocol configuration *)

Module X402.

Record Config :=
  { VERSION : Z;
    FACILITATOR_URL : string;
    NETWORK : string;
    USDC_ADDRESS : string;
    PAYMENT_RECIPIENT : option string;
    PAYMENT_AMOUNT : string;
    USDC_DECIMALS : Z;
    TIMEOUT_SECONDS : Z }.

(** [getX402Config(network?)]; throws when the table finds nothing under
    the resolved name. *)
Definition getX402Config (env : JS.Env) (network : option string)
  : string + Config :=
  let networkName :=
    JS.or_else network
      (JS.or_else (env "NEXT_PUBLIC_DEFAULT_NETWORK") "avalanche-fuji") in
  match Networks.getNetworkEntry env networkName with
  | inl message => inl message
  | inr networkConfig =>
      inr {| VERSION := 1;
             FACILITATOR_URL := "/api/x402";
             NETWORK := networkName;
             USDC_ADDRESS := Networks.usdcAddress networkConfig;
             PAYMENT_RECIPIENT := env "NEXT_PUBLIC_PAYMENT_RECIPIENT";
             PAYMENT_AMOUNT := JS.or_else (env "NEXT_PUBLIC_PAYMENT_AMOUNT") "1";
             USDC_DECIMALS := Networks.usdcDecimals networkConfig;
             TIMEOUT_SECONDS := 300 |}
  end.

End X402.

(** ** lib/erc3009.ts: the authorization codec *)

Module ERC3009.

(** [viem]'s [parseUnits] is a dependency of the repository; the codec is
    stated over any implementation of it.  [inl] is a thrown error. *)
Class Viem := { parseUnits : string -> Z -> string + Z }.

(** [TransferWithAuthorization] carries [bigint] numbers,
    [TransferAuthorizationJSON] carries decimal strings; the two interfaces
    have the same fields. *)
Record Authorization (N : Type) :=
  { from : string;
    to : string;
    value : N;
    validAfter : N;
    validBefore : N;
    nonce : string }.

Arguments from {N} _.
Arguments to {N} _.
Arguments value {N} _.
Arguments validAfter {N} _.
Arguments validBefore {N} _.
Arguments nonce {N} _.

Record Signed (N : Type) :=
  { signature : string;
    authorization : Authorization N }.

Arguments signature {N} _.
Arguments authorization {N} _.

Definition TransferWithAuthorization := Authorization Z.
Definition TransferAuthorizationJSON := Authorization string.
Definition SignedAuthorization := Signed Z.
Definition SignedAuthorizationJSON := Signed string.

Definition getERC3009Domain (env : JS.Env) (network : option string)
  : string + Networks.ERC3009Domain :=
  let networkName := JS.or_else network "avalanche-fuji" in
  match Networks.getNetworkEntry env networkName with
  | inl message => inl message
  | inr networkConfig => inr (Networks.erc3009Domain networkConfig)
  end.

Definition ERC3009_TYPES : list (string * string) :=
  [ ("from", "address"); ("to", "address"); ("value", "uint256");
    ("validAfter", "uint256"); ("validBefore", "uint256");
    ("nonce", "bytes32") ].

(** [bytesToHex] of viem: two lower-case digits per byte after [0x]. *)
Definition hex_digit (n : N) : ascii :=
  nth (N.to_nat n)
      (list_ascii_of_string "0123456789abcdef") "0"%char.

Definition byte_hex (b : Byte.byte) : string :=
  let n := Byte.to_N b in
  String (hex_digit (n / 16)%N) (String (hex_digit (n mod 16)%N) EmptyString).

Definition bytesToHex (bytes : list Byte.byte) : string :=
  "0x" ++ String.concat "" (map byte_hex bytes).

(** [generateNonce]: the 32 bytes come from [crypto.getRandomValues]. *)
Definition generateNonce (random32 : list Byte.byte) : string :=
  bytesToHex random32.

(** [createTransferAuthorization].  [now_ms] is what [Date.now()] returns
    and [random32] what the random source yields during the call. *)
Definition createTransferAuthorization `{Viem} (env : JS.Env)
    (now_ms : Z) (random32 : list Byte.byte)
    (from to amountUSDC : string) (network : option string)
  : string + TransferWithAuthorization :=
  match X402.getX402Config env network with
  | inl message => inl message
  | inr config =>
      match parseUnits amountUSDC (X402.USDC_DECIMALS config) with
      | inl message => inl message
      | inr value =>
          let now := now_ms / 1000 in
          let validAfter := now - 60 in
          let validBefore := now + X402.TIMEOUT_SECONDS config in
          let nonce := generateNonce random32 in
          inr {| from := from; to := to; value := value;
                 validAfter := validAfter; validBefore := validBefore;
                 nonce := nonce |}
      end
  end.

Record TypedData :=
  { domain : Networks.ERC3009Domain;
    types : list (string * string);
    primaryType : string;
    message : TransferWithAuthorization }.

Definition getTypedDataForSigning (env : JS.Env)
    (authorization : TransferWithAuthorization) (network : option string)
  : string + TypedData :=
  match getERC3009Domain env network with
  | inl message => inl message
  | inr domain =>
      inr {| domain := domain; types := ERC3009_TYPES;
             primaryType := "TransferWithAuthorization";
             message := authorization |}
  end.

Definition createSignedAuthorization
    (authorization : TransferWithAuthorization) (signature : string)
  : SignedAuthorization :=
  {| signature := signature; authorization := authorization |}.

(** The [.toString()] of the [bigint] fields. *)
Definition toString (n : Z) : string := JS.bigint_toString n.

(** [signedAuthorizationToJSON]. *)
Definition signedAuthorizationToJSON (signedAuth : SignedAuthorization)
  : SignedAuthorizationJSON :=
  {| signature := signature signedAuth;
     authorization :=
       {| from := from (authorization signedAuth);
          to := to (authorization signedAuth);
          value := toString (value (authorization signedAuth));
          validAfter := toString (validAfter (authorization signedAuth));
          validBefore := toString (validBefore (authorization signedAuth));
          nonce := nonce (authorization signedAuth) |} |}.

(** The reader of the wire form: each decimal string is read back as an
    integer ([BigInt(s)] on a string of digits with an optional sign); the
    other fields are taken as they are.  [None] when a string is no
    decimal number. *)
Definition parseDecimal (s : string) : option Z :=
  option_map Z.of_int (NilZero.int_of_string s).

Definition signedAuthorizationFromJSON (json : SignedAuthorizationJSON)
  : option SignedAuthorization :=
  match parseDecimal (value (authorization json)),
        parseDecimal (validAfter (authorization json)),
        parseDecimal (validBefore (authorization json)) with
  | Some value, Some validAfter, Some validBefore =>
      Some {| signature := signature json;
              authorization :=
                {| from := from (authorization json);
                   to := to (authorization json);
                   value := value;
                   validAfter := validAfter;
                   validBefore := validBefore;
                   nonce := nonce (authorization json) |} |}
  | _, _, _ => None
  end.

End ERC3009.

(** ** The world the routes run in *)

Module Runtime.

(** *** Facilitator records (lib/facilitator-storage.ts) *)

Inductive Status := needs_funding | active | inactive.

Definition Status_eqb (a b : Status) : bool :=
  match a, b with
  | needs_funding, needs_funding | active, active | inactive, inactive => true
  | _, _ => false
  end.

Definition Status_name (s : Status) : string :=
  match s with
  | needs_funding => "needs_funding"
  | active => "active"
  | inactive => "inactive"
  end.

(** A stored record.  [network] and [chainId] are absent ([None]) on records
    written before the storage became network-aware. *)
Record Facilitator :=
  { id : string;
    name : string;
    encryptedPrivateKey : string;
    systemEncryptedKey : string;
    facilitatorWallet : string;
    paymentRecipient : string;
    createdBy : string;
    createdAt : Z;
    lastUsed : Z;
    totalPayments : Z;
    status : Status;
    registrationTxHash : string;
    network : option string;
    chainId : option Z }.

Definition with_network (n : option string) (c : option Z) (f : Facilitator)
  : Facilitator :=
  {| id := id f; name := name f;
     encryptedPrivateKey := encryptedPrivateKey f;
     systemEncryptedKey := systemEncryptedKey f;
     facilitatorWallet := facilitatorWallet f;
     paymentRecipient := paymentRecipient f;
     createdBy := createdBy f; createdAt := createdAt f;
     lastUsed := lastUsed f; totalPayments := totalPayments f;
     status := status f; registrationTxHash := registrationTxHash f;
     network := n; chainId := c |}.

Definition with_status (s : Status) (f : Facilitator) : Facilitator :=
  {| id := id f; name := name f;
     encryptedPrivateKey := encryptedPrivateKey f;
     systemEncryptedKey := systemEncryptedKey f;
     facilitatorWallet := facilitatorWallet f;
     paymentRecipient := paymentRecipient f;
     createdBy := createdBy f; createdAt := createdAt f;
     lastUsed := lastUsed f; totalPayments := totalPayments f;
     status := s; registrationTxHash := registrationTxHash f;
     network := network f; chainId := chainId f |}.

Definition with_payment (total last : Z) (f : Facilitator) : Facilitator :=
  {| id := id f; name := name f;
     encryptedPrivateKey := encryptedPrivateKey f;
     systemEncryptedKey := systemEncryptedKey f;
     facilitatorWallet := facilitatorWallet f;
     paymentRecipient := paymentRecipient f;
     createdBy := createdBy f; createdAt := createdAt f;
     lastUsed := last; totalPayments := total;
     status := status f; registrationTxHash := registrationTxHash f;
     network := network f; chainId := chainId f |}.

(** *** The chain, as the settlement routes see it *)

(** One [contract.transferWithAuthorization(...)] call: the endpoint and
    signing key of the wallet, the token contract, and the nine arguments.
    [v] is [None] when [parseInt] yields [NaN]. *)
Record TxCall :=
  { rpcUrl : string;
    privateKey : string;
    contractAddress : string;
    from : string;
    to : string;
    value : string;
    validAfter : string;
    validBefore : string;
    nonce : string;
    v : option Z;
    r : string;
    s : string }.

Record Receipt := { gasUsed : Z; gasPrice : option Z }.

(** What one call comes to: the submission is rejected (the awaited call
    throws), or it yields a transaction hash and then [tx.wait()] either
    throws (revert, timeout) or resolves with a receipt or [null]. *)
Inductive TxOutcome :=
| SubmitThrows (message : string)
| WaitThrows (hash : string) (message : string)
| Mined (hash : string) (receipt : option Receipt).

Definition ChainLog := list (TxCall * TxOutcome).

(** The hashes of the transactions confirmed so far, oldest first. *)
Definition confirmed_hashes (log : ChainLog) : list string :=
  flat_map (fun entry =>
              match snd entry with
              | Mined hash _ => [hash]
              | _ => []
              end) log.

(** The calls handed to the chain client so far, oldest first. *)
Definition submitted_calls (log : ChainLog) : list TxCall := map fst log.

(** *** Collaborators the routes call

    [decryptPrivateKey] of lib/facilitator-crypto (not among the sources),
    the wallet and contract classes of ethers and the balance read of viem.
    [inl] is a thrown error message.  The answers of the chain may depend
    on everything submitted before. *)
Class Externals :=
  { decryptPrivateKey : string -> string -> string + string;
    walletAddress : string -> string + string;
    transferWithAuthorization : ChainLog -> TxCall -> TxOutcome;
    getBalance : ChainLog -> string -> string -> string + Z }.

(** *** Redis, audit log, clock *)

Inductive RedisWrite :=
| SET (key : string) (value : Facilitator)
| SADD (key : string) (member : string)
| DEL (key : string)
| SREM (key : string) (member : string).

Definition Event := list (string * JS.JVal).

Record World :=
  { kv : gmap string Facilitator;
    active_set : gset string;
    writes : list RedisWrite;
    chain : ChainLog;
    events : list Event;
    clock : Z }.

(** *** State and exceptions *)

Inductive Result (A : Type) :=
| Ok (a : A)
| Throw (message : string).

Arguments Ok {A} _.
Arguments Throw {A} _.

Definition M (A : Type) : Type := World -> Result A * World.

Definition ret {A} (a : A) : M A := fun w => (Ok a, w).

Definition throw {A} (message : string) : M A := fun w => (Throw message, w).

Definition bind {A B} (m : M A) (k : A -> M B) : M B :=
  fun w =>
    match m w with
    | (Ok a, w') => k a w'
    | (Throw message, w') => (Throw message, w')
    end.

(** [try { m } catch (error) { handler(error.message) }]: what [m] did to
    the world before it threw stays done. *)
Definition try_catch {A} (m : M A) (handler : string -> M A) : M A :=
  fun w =>
    match m w with
    | (Ok a, w') => (Ok a, w')
    | (Throw message, w') => handler message w'
    end.

Definition lift {A} (x : string + A) : M A :=
  match x with
  | inl message => throw message
  | inr a => ret a
  end.

(** Modelled from the spec: the key-value store behind [getRedis()]
    (lib/redis is not among the sources) answers [get], [set] and [sadd]
    as a finite map and a set do; the values are the parsed records. *)
Definition redis_get (key : string) : M (option Facilitator) :=
  fun w => (Ok (kv w !! key), w).

Definition redis_set (key : string) (value : Facilitator) : M unit :=
  fun w =>
    (Ok tt,
     {| kv := <[key := value]> (kv w);
        active_set := active_set w;
        writes := (writes w ++ [SET key value])%list;
        chain := chain w; events := events w; clock := clock w |}).

Definition ACTIVE_LIST_KEY : string := "facilitators:active".
Definition REDIS_KEY_PREFIX : string := "facilitator:".

(** [redis.sadd(ACTIVE_LIST_KEY, member)]. *)
Definition redis_sadd (member : string) : M unit :=
  fun w =>
    (Ok tt,
     {| kv := kv w;
        active_set := {[ member ]} ∪ active_set w;
        writes := (writes w ++ [SADD ACTIVE_LIST_KEY member])%list;
        chain := chain w; events := events w; clock := clock w |}).

(** [redis.del(key)] and [redis.srem(ACTIVE_LIST_KEY, member)]. *)
Definition redis_del (key : string) : M unit :=
  fun w =>
    (Ok tt,
     {| kv := delete key (kv w);
        active_set := active_set w;
        writes := (writes w ++ [DEL key])%list;
        chain := chain w; events := events w; clock := clock w |}).

Definition redis_srem (member : string) : M unit :=
  fun w =>
    (Ok tt,
     {| kv := kv w;
        active_set := active_set w ∖ {[ member ]};
        writes := (writes w ++ [SREM ACTIVE_LIST_KEY member])%list;
        chain := chain w; events := events w; clock := clock w |}).

(** Modelled from the spec: [logEvent] of lib/explorer-logging (not among
    the sources) appends the event to the audit sink and never blocks or
    fails the route. *)
Definition logEvent (event : Event) : M unit :=
  fun w =>
    (Ok tt,
     {| kv := kv w; active_set := active_set w; writes := writes w;
        chain := chain w; events := (events w ++ [event])%list; clock := clock w |}).

(** [Date.now()]: the clock of the world, which is the time of the call
    that runs in it.  No operation advances it; a call that is to run
    later is given a world with a later clock. *)
Definition date_now : M Z := fun w => (Ok (clock w), w).

(** One awaited [transferWithAuthorization] followed by [tx.wait()]: the
    call and its outcome are appended to the chain log; the result is the
    hash and the receipt, or the thrown error. *)
Definition send `{Externals} (call : TxCall) : M (string * option Receipt) :=
  fun w =>
    let outcome := transferWithAuthorization (chain w) call in
    let w' :=
      {| kv := kv w; active_set := active_set w; writes := writes w;
         chain := (chain w ++ [(call, outcome)])%list;
         events := events w; clock := clock w |} in
    match outcome with
    | SubmitThrows message => (Throw message, w')
    | WaitThrows _ message => (Throw message, w')
    | Mined hash receipt => (Ok (hash, receipt), w')
    end.

Definition read_balance `{Externals} (rpc address : string) : M Z :=
  fun w =>
    match getBalance (chain w) rpc address with
    | inl message => (Throw message, w)
    | inr balance => (Ok balance, w)
    end.

End Runtime.

Notation "x <- c1 ;; c2" := (Runtime.bind c1 (fun x => c2))
  (at level 100, c1 at next level, right associativity).
Notation "c1 ;; c2" := (Runtime.bind c1 (fun _ => c2))
  (at level 100, right associativity).

(** ** lib/facilitator-storage.ts *)

Module Storage.

Import Runtime.

(** [getFacilitator]: the stored record, migrated to the default network
    when it lacks a network or a chain id; the migrated record is saved. *)
Definition getFacilitator (id : string) : M (option Facilitator) :=
  let key := REDIS_KEY_PREFIX ++ id in
  data <- redis_get key ;;
  match data with
  | None => ret None
  | Some facilitator =>
      if JS.falsy_str (network facilitator) || JS.falsy_num (chainId facilitator)
      then
        let facilitator :=
          with_network (Some "avalanche-fuji") (Some 43113) facilitator in
        redis_set key facilitator ;;
        ret (Some facilitator)
      else ret (Some facilitator)
  end.

Definition storeFacilitator (facilitator : Facilitator) : M unit :=
  let key := REDIS_KEY_PREFIX ++ Runtime.id facilitator in
  redis_set key facilitator ;;
  redis_sadd (Runtime.id facilitator).

Definition updateFacilitatorStatus (id : string) (status : Status) : M unit :=
  facilitator <- getFacilitator id ;;
  match facilitator with
  | None => throw "Facilitator not found"
  | Some facilitator => storeFacilitator (with_status status facilitator)
  end.

(** [recordPayment]: one more payment, used now. *)
Definition recordPayment (id : string) : M unit :=
  facilitator <- getFacilitator id ;;
  match facilitator with
  | None => throw "Facilitator not found"
  | Some facilitator =>
      now <- date_now ;;
      storeFacilitator
        (with_payment (totalPayments facilitator + 1) now facilitator)
  end.

Definition deleteFacilitator (id : string) : M unit :=
  let key := REDIS_KEY_PREFIX ++ id in
  redis_del key ;;
  redis_srem id.

End Storage.

(** ** Responses of the route handlers: [NextResponse.json(body, {status})] *)

Module Http.

Record Response := { status : Z; body : JS.JVal }.

Definition json (status : Z) (fields : list (string * JS.JVal)) : Response :=
  {| status := status; body := JS.JObj fields |}.

(** [error.message || 'Unknown error']. *)
Definition message_of (message : string) : string :=
  if JS.truthy message then message else "Unknown error".

End Http.

(** ** app/api/facilitator/check-and-activate/route.ts (two thresholds) *)

Module CheckAndActivate.

Import Runtime.

Definition RECOMMENDED_BALANCES : list (string * Double.t) :=
  [ ("avalanche-fuji", Double.of_ratio 1 10);
    ("ethereum-sepolia", Double.of_ratio 5 100);
    ("base-sepolia", Double.of_ratio 5 100);
    ("polygon-amoy", Double.of_ratio 1 10);
    ("arbitrum-sepolia", Double.of_ratio 5 100);
    ("monad-testnet", Double.of_ratio 1 10);
    ("optimism-sepolia", Double.of_ratio 5 100) ].

(** The literal [0.0001]. *)
Definition DEACTIVATION_THRESHOLD : Double.t := Double.of_ratio 1 10000.

Definition jdouble (x : Double.t) : JS.JVal :=
  JS.JDouble (Double.mant x) (Double.expo x).

(** The status the route derives from a balance in wei. *)
Definition newStatus (balance : Z) : Status :=
  if Double.gtb (Double.of_wei balance) DEACTIVATION_THRESHOLD
  then active else needs_funding.

(** The handler, over the table of recommended balances it reads. *)
Definition POST_with `{Externals} (recommended : list (string * Double.t))
    (env : JS.Env) (facilitatorId : option string) : M Http.Response :=
  try_catch
    (match facilitatorId with
     | None => ret (Http.json 400 [("error", JS.JStr "Missing facilitator ID")])
     | Some facilitatorId =>
         if negb (JS.truthy facilitatorId)
         then ret (Http.json 400 [("error", JS.JStr "Missing facilitator ID")])
         else
           facilitator <- Storage.getFacilitator facilitatorId ;;
           match facilitator with
           | None => ret (Http.json 404 [("error", JS.JStr "Facilitator not found")])
           | Some facilitator =>
               let network := JS.or_else (network facilitator) "avalanche-fuji" in
               found <- lift (Networks.getNetworkConfig env network) ;;
               let recommendedBalance :=
                 default (Double.of_ratio 1 10) (JS.assoc network recommended) in
               networkConfig <- lift (Networks.entry_of found "symbol") ;;
               let currencySymbol :=
                 Networks.symbol (Networks.nativeCurrency networkConfig) in
               balance <- read_balance (Networks.rpcUrl networkConfig)
                                      (facilitatorWallet facilitator) ;;
               let balanceInToken := Double.of_wei balance in
               let newStatus := newStatus balance in
               (if negb (Status_eqb (status facilitator) newStatus)
                then
                  Storage.updateFacilitatorStatus facilitatorId newStatus ;;
                  match newStatus with
                  | active =>
                      logEvent
                        [ ("eventType", JS.JStr "facilitator_activated");
                          ("facilitatorId", JS.JStr (id facilitator));
                          ("facilitatorName", JS.JStr (name facilitator));
                          ("chainName", JS.JStr (Networks.displayName networkConfig));
                          ("chainId", JS.JNum (Networks.id (Networks.chain networkConfig)));
                          ("gasFundingAmount",
                           JS.JStr (Double.toFixed4 balanceInToken ++ " " ++ currencySymbol));
                          ("status", JS.JStr "success") ]
                  | _ => ret tt
                  end
                else ret tt) ;;
               ret (Http.json 200
                      [ ("success", JS.JBool true);
                        ("facilitator",
                         JS.JObj
                           [ ("id", JS.JStr (id facilitator));
                             ("name", JS.JStr (name facilitator));
                             ("wallet", JS.JStr (facilitatorWallet facilitator));
                             ("balance", JS.JStr (Double.toFixed4 balanceInToken));
                             ("currency", JS.JStr currencySymbol);
                             ("network", JS.JStr (Networks.displayName networkConfig));
                             ("status", JS.JStr (Status_name newStatus));
                             ("minimumRequired", jdouble DEACTIVATION_THRESHOLD);
                             ("isFunded",
                              JS.JBool (Double.gtb balanceInToken DEACTIVATION_THRESHOLD));
                             ("recommendedMinimum", jdouble recommendedBalance) ]) ])
           end
     end)
    (fun _ =>
       ret (Http.json 500
              [("error", JS.JStr "Failed to check and activate facilitator")])).

Definition POST `{Externals} (env : JS.Env) (facilitatorId : option string)
  : M Http.Response :=
  POST_with RECOMMENDED_BALANCES env facilitatorId.

(** The [status] field of the facilitator object of a response. *)
Definition response_status (resp : Http.Response) : JS.JVal :=
  JS.prop (JS.prop (Http.body resp) "facilitator") "status".

End CheckAndActivate.

(** ** Signature decomposition shared by the settlement routes *)

Module Signature.

(** [sig = signature.slice(2)], then [r], [s] and [v] cut out of it. *)
Definition split (signature : string) : option Z * string * string :=
  let sig := JS.slice_from 2 signature in
  let r := "0x" ++ JS.slice 0 64 sig in
  let s := "0x" ++ JS.slice 64 128 sig in
  let v := JS.parseInt16 (JS.slice 128 130 sig) in
  (v, r, s).

(** The contract call one signed authorization becomes. *)
Definition call_of (rpcUrl privateKey contractAddress : string)
    (signedAuth : ERC3009.SignedAuthorizationJSON) : Runtime.TxCall :=
  let authorization := ERC3009.authorization signedAuth in
  let '(v, r, s) := split (ERC3009.signature signedAuth) in
  {| Runtime.rpcUrl := rpcUrl;
     Runtime.privateKey := privateKey;
     Runtime.contractAddress := contractAddress;
     Runtime.from := ERC3009.from authorization;
     Runtime.to := ERC3009.to authorization;
     Runtime.value := ERC3009.value authorization;
     Runtime.validAfter := ERC3009.validAfter authorization;
     Runtime.validBefore := ERC3009.validBefore authorization;
     Runtime.nonce := ERC3009.nonce authorization;
     Runtime.v := v; Runtime.r := r; Runtime.s := s |}.

(** [BigInt(receipt.gasUsed) * BigInt(receipt.gasPrice || 0)]. *)
Definition gasSpent (receipt : Runtime.Receipt) : Z :=
  Runtime.gasUsed receipt * default 0 (Runtime.gasPrice receipt).

End Signature.

(** ** app/api/x402/settle-batch/route.ts *)

Module SettleBatch.

Import Runtime.

(** The request body, read against the interfaces of the route: a missing
    field, and an [authorizations] that is no array, is [None]. *)
Record Request :=
  { facilitatorId : option string;
    network : option string;
    authorizations : option (list ERC3009.SignedAuthorizationJSON) }.

(** The audit event of one confirmed transfer. *)
Definition transfer_event (facilitatorId : string) (facilitator : Facilitator)
    (networkConfig : Networks.NetworkConfig) (hash from to value : string)
    (gasSpent : Z) : Event :=
  [ ("eventType", JS.JStr "transaction");
    ("facilitatorId", JS.JStr facilitatorId);
    ("facilitatorName", JS.JStr (name facilitator));
    ("txHash", JS.JStr hash);
    ("chainId", JS.JNum (Networks.id (Networks.chain networkConfig)));
    ("chainName", JS.JStr (Networks.displayName networkConfig));
    ("fromAddress", JS.JStr from);
    ("toAddress", JS.JStr to);
    ("amount", JS.JStr value);
    ("gasSpent", JS.JStr (JS.bigint_toString gasSpent));
    ("status", JS.JStr "success") ].

(** The [for] loop over the authorizations, from index [i] on, with the
    hashes and the gas accumulated so far. *)
Fixpoint transfers `{Externals} (facilitatorId : string)
    (facilitator : Facilitator) (networkConfig : Networks.NetworkConfig)
    (privateKey : string) (rest : list ERC3009.SignedAuthorizationJSON)
    (txHashes : list string) (totalGasSpent : Z) : M (list string * Z) :=
  match rest with
  | [] => ret (txHashes, totalGasSpent)
  | signedAuth :: rest' =>
      let call :=
        Signature.call_of (Networks.rpcUrl networkConfig) privateKey
          (Networks.usdcAddress networkConfig) signedAuth in
      sent <- send call ;;
      let '(hash, receipt) := sent in
      let txHashes := (txHashes ++ [hash])%list in
      match receipt with
      | Some receipt =>
          let gasSpent := Signature.gasSpent receipt in
          logEvent
            (transfer_event facilitatorId facilitator networkConfig hash
               (Runtime.from call) (Runtime.to call) (Runtime.value call)
               gasSpent) ;;
          transfers facilitatorId facilitator networkConfig privateKey rest'
            txHashes (totalGasSpent + gasSpent)
      | None =>
          transfers facilitatorId facilitator networkConfig privateKey rest'
            txHashes totalGasSpent
      end
  end.

(** [new Contract(networkConfig.usdcAddress, ERC3009_ABI, wallet)]: on an
    inherited member the address is [undefined], and ethers refuses to
    build a contract without a target.  [contract_target_error] stands for
    the message of its error, whose wording is the library's. *)
Definition contract_target_error : string :=
  "invalid value for Contract target".

Definition contract_of (found : Networks.Found)
  : string + Networks.NetworkConfig :=
  match found with
  | Networks.Entry networkConfig => inr networkConfig
  | Networks.Inherited => inl contract_target_error
  end.

Definition failure (message : string) : Http.Response :=
  Http.json 500
    [ ("error", JS.JStr "Batch settlement failed");
      ("message", JS.JStr (Http.message_of message)) ].

Definition POST `{Externals} (env : JS.Env) (request : Request)
  : M Http.Response :=
  try_catch
    (match facilitatorId request, network request, authorizations request with
     | Some facilitatorId, Some network, Some authorizations =>
         if negb (JS.truthy facilitatorId) || negb (JS.truthy network)
         then ret (Http.json 400
                [("error",
                  JS.JStr "Missing required fields: facilitatorId, network, authorizations")])
         else if (length authorizations =? 0)%nat
         then ret (Http.json 400
                [("error", JS.JStr "At least one authorization required")])
         else
           facilitator <- Storage.getFacilitator facilitatorId ;;
           match facilitator with
           | None =>
               ret (Http.json 404 [("error", JS.JStr "Facilitator not found")])
           | Some facilitator =>
               let facilitatorNetwork :=
                 JS.or_else (Runtime.network facilitator) "avalanche-fuji" in
               if negb (String.eqb facilitatorNetwork network)
               then ret (Http.json 400
                      [("error",
                        JS.JStr ("Facilitator is on " ++ facilitatorNetwork
                                 ++ ", not " ++ network))])
               else
                 match env "SYSTEM_MASTER_KEY" with
                 | Some masterKey =>
                     if negb (JS.truthy masterKey)
                     then ret (Http.json 500
                            [("error", JS.JStr "System configuration error")])
                     else
                       privateKey <-
                         lift (decryptPrivateKey
                                 (systemEncryptedKey facilitator) masterKey) ;;
                       found <-
                         lift (Networks.getNetworkConfig env network) ;;
                       wallet <- lift (walletAddress privateKey) ;;
                       networkConfig <- lift (contract_of found) ;;
                       done <-
                         transfers facilitatorId facilitator networkConfig
                           privateKey authorizations [] 0 ;;
                       let '(txHashes, totalGasSpent) := done in
                       Storage.recordPayment facilitatorId ;;
                       ret (Http.json 200
                              [ ("success", JS.JBool true);
                                ("txHashes", JS.JArr (map JS.JStr txHashes));
                                ("txHash",
                                 match txHashes with
                                 | h :: _ => JS.JStr h
                                 | [] => JS.JUndefined
                                 end);
                                ("facilitatorWallet", JS.JStr wallet);
                                ("facilitatorName", JS.JStr (name facilitator));
                                ("transferCount",
                                 JS.JNum (Z.of_nat (length txHashes)));
                                ("totalGasSpent",
                                 JS.JStr (JS.bigint_toString totalGasSpent));
                                ("network",
                                 JS.JStr (Networks.displayName networkConfig)) ])
                 | None =>
                     ret (Http.json 500
                            [("error", JS.JStr "System configuration error")])
                 end
           end
     | _, _, _ =>
         ret (Http.json 400
                [("error",
                  JS.JStr "Missing required fields: facilitatorId, network, authorizations")])
     end)
    (fun message => ret (failure message)).

End SettleBatch.

(** ** app/api/x402/settle-custom/route.ts: single settlement *)

Module SettleCustom.

Import Runtime.

Record PaymentPayload :=
  { signature : string;
    authorization : ERC3009.TransferAuthorizationJSON;
    domain : JS.JVal }.

(** The request body.  The fields the route tests with [typeof] are kept as
    JSON values. *)
Record Request :=
  { facilitatorId : option string;
    paymentPayload : option PaymentPayload;
    network : JS.JVal;
    chainId : JS.JVal;
    usdcAddress : JS.JVal;
    contractAddress : JS.JVal;
    verifyingContract : JS.JVal }.

(** The three-tier network resolution. *)
Definition resolveNetwork (env : JS.Env) (request : Request)
    (facilitator : Facilitator) : string :=
  let bound := JS.or_else (Runtime.network facilitator) "avalanche-fuji" in
  let byChainId :=
    match chainId request with
    | JS.JNum requestChainId =>
        match Networks.getNetworkByChainId env requestChainId with
        | Some byChain => Networks.name byChain
        | None => bound
        end
    | JS.JDouble _ _ => bound
    | _ => bound
    end in
  match network request with
  | JS.JStr requestNetwork =>
      if JS.truthy requestNetwork && Networks.isNetworkSupported env requestNetwork
      then requestNetwork
      else byChainId
  | _ => byChainId
  end.

(** The filter on a candidate address:
    [typeof addr === 'string' && addr !== '0x' && addr.length >= 42]. *)
Definition usable (addr : JS.JVal) : option string :=
  match addr with
  | JS.JStr a =>
      if negb (String.eqb a "0x") && (42 <=? JS.length a)%nat
      then Some a else None
  | _ => None
  end.

(** [(paymentPayload as any).domain || {}]. *)
Definition payloadDomain (payload : PaymentPayload) : JS.JVal :=
  if JS.truthy_val (domain payload) then domain payload else JS.JObj [].

Definition candidateAddresses (request : Request) (payload : PaymentPayload)
    (registryAddress : string) : list string :=
  omap usable
    [ usdcAddress request;
      contractAddress request;
      verifyingContract request;
      JS.prop (payloadDomain payload) "verifyingContract";
      JS.JStr registryAddress ].

(** [candidateAddresses[0] || usdcContractConfig.address]. *)
Definition finalUsdcAddress (request : Request) (payload : PaymentPayload)
    (registryAddress : string) : string :=
  match candidateAddresses request payload registryAddress with
  | a :: _ => if JS.truthy a then a else registryAddress
  | [] => registryAddress
  end.

Definition failure (message : string) : Http.Response :=
  Http.json 500
    [ ("error", JS.JStr "Settlement failed");
      ("message", JS.JStr (Http.message_of message)) ].

Definition POST `{Externals} (env : JS.Env) (request : Request)
  : M Http.Response :=
  try_catch
    (match facilitatorId request, paymentPayload request with
     | Some facilitatorId, Some payload =>
         if negb (JS.truthy facilitatorId)
         then ret (Http.json 400
                [("error", JS.JStr "Missing facilitatorId or paymentPayload")])
         else
           facilitator <- Storage.getFacilitator facilitatorId ;;
           match facilitator with
           | None =>
               ret (Http.json 404 [("error", JS.JStr "Facilitator not found")])
           | Some facilitator =>
               let networkName := resolveNetwork env request facilitator in
               found <-
                 lift (Networks.getNetworkConfig env networkName) ;;
               usdcContractConfig <-
                 lift (Contracts.getUSDCContract env networkName) ;;
               (* An inherited member does not come this far:
                  [getUSDCContract] has thrown for its name. *)
               networkConfig <- lift (Networks.entry_of found "id") ;;
               match env "SYSTEM_MASTER_KEY" with
               | Some masterKey =>
                   if negb (JS.truthy masterKey)
                   then ret (Http.json 500
                          [("error", JS.JStr "System configuration error")])
                   else
                     privateKey <-
                       lift (decryptPrivateKey
                               (systemEncryptedKey facilitator) masterKey) ;;
                     wallet <- lift (walletAddress privateKey) ;;
                     let finalUsdcAddress :=
                       finalUsdcAddress request payload
                         (Contracts.address usdcContractConfig) in
                     let call :=
                       Signature.call_of (Networks.rpcUrl networkConfig)
                         privateKey finalUsdcAddress
                         {| ERC3009.signature := signature payload;
                            ERC3009.authorization := authorization payload |} in
                     sent <- send call ;;
                     let '(hash, receipt) := sent in
                     let gasSpent :=
                       match receipt with
                       | Some receipt =>
                           JS.bigint_toString (Signature.gasSpent receipt)
                       | None => "0"
                       end in
                     Storage.recordPayment facilitatorId ;;
                     logEvent
                       [ ("eventType", JS.JStr "transaction");
                         ("facilitatorId", JS.JStr facilitatorId);
                         ("facilitatorName", JS.JStr (name facilitator));
                         ("txHash", JS.JStr hash);
                         ("chainId",
                          JS.JNum (Networks.id (Networks.chain networkConfig)));
                         ("chainName",
                          JS.JStr (Networks.displayName networkConfig));
                         ("fromAddress", JS.JStr (Runtime.from call));
                         ("toAddress", JS.JStr (Runtime.to call));
                         ("amount", JS.JStr (Runtime.value call));
                         ("gasSpent", JS.JStr gasSpent);
                         ("status", JS.JStr "success") ] ;;
                     ret (Http.json 200
                            [ ("success", JS.JBool true);
                              ("txHash", JS.JStr hash);
                              ("facilitatorWallet", JS.JStr wallet);
                              ("facilitatorName", JS.JStr (name facilitator));
                              ("network", JS.JStr networkName);
                              ("networkId",
                               JS.JNum (Networks.id (Networks.chain networkConfig)));
                              ("usdcAddress", JS.JStr finalUsdcAddress) ])
               | None =>
                   ret (Http.json 500
                          [("error", JS.JStr "System configuration error")])
               end
           end
     | _, _ =>
         ret (Http.json 400
                [("error", JS.JStr "Missing facilitatorId or paymentPayload")])
     end)
    (fun message => ret (failure message)).

End SettleCustom.

(** ** Concrete collaborators and worlds, used to exercise the routes *)

Module Samples.

Import Runtime.

(** A reader of decimal amounts with at most [decimals] fractional digits,
    standing in for [parseUnits]; anything else is rejected. *)
Fixpoint split_dot (s : string) : string * option string :=
  match s with
  | EmptyString => (EmptyString, None)
  | String c rest =>
      if Ascii.eqb c "." then (EmptyString, Some rest)
      else let '(i, f) := split_dot rest in (String c i, f)
  end.

Definition parseUnits_plain (amount : string) (decimals : Z) : string + Z :=
  let '(integer, fraction) := split_dot amount in
  let fraction := default EmptyString fraction in
  let pad := (Z.to_nat decimals - String.length fraction)%nat in
  if (Z.to_nat decimals <? String.length fraction)%nat
  then inl "Too many fractional digits"
  else
    match ERC3009.parseDecimal (integer ++ fraction ++ Double.zeros pad) with
    | Some n => inr n
    | None => inl "Invalid decimal number"
    end.

#[export] Instance viem : ERC3009.Viem :=
  {| ERC3009.parseUnits := parseUnits_plain |}.

Definition env : JS.Env :=
  fun k => if String.eqb k "SYSTEM_MASTER_KEY" then Some "master-secret" else None.

Definition receipt : Receipt := {| gasUsed := 60000; gasPrice := Some 25 |}.

Definition nonce_used (log : ChainLog) (n : string) : bool :=
  existsb (fun entry =>
             match snd entry with
             | Mined _ _ => String.eqb (Runtime.nonce (fst entry)) n
             | _ => false
             end) log.

(** A chain that confirms every authorization once and rejects the replay
    of a nonce already consumed; every wallet holds one wei more than the
    deactivation threshold. *)
#[export] Instance externals : Externals :=
  {| decryptPrivateKey := fun encrypted _ => inr ("key-of-" ++ encrypted);
     walletAddress := fun _ => inr "0x00000000000000000000000000000000000000f1";
     transferWithAuthorization := fun log call =>
       if nonce_used log (Runtime.nonce call)
       then SubmitThrows "FiatTokenV2: authorization is used or canceled"
       else Mined ("0xhash-" ++ Runtime.nonce call) (Some receipt);
     getBalance := fun _ _ _ => inr (10 ^ 14 + 1) |}.

Definition fac : Facilitator :=
  {| id := "fac_1"; name := "demo";
     encryptedPrivateKey := "user-box"; systemEncryptedKey := "system-box";
     facilitatorWallet := "0x00000000000000000000000000000000000000f1";
     paymentRecipient := "0x00000000000000000000000000000000000000b2";
     createdBy := "0x00000000000000000000000000000000000000c3";
     createdAt := 1700000000000; lastUsed := 1700000005000;
     totalPayments := 7; status := active;
     registrationTxHash := "0xreg";
     network := Some "avalanche-fuji"; chainId := Some 43113 |}.

(** A record written before the storage knew about networks. *)
Definition legacy : Facilitator :=
  {| id := "fac_old"; name := "early";
     encryptedPrivateKey := "user-box"; systemEncryptedKey := "system-box";
     facilitatorWallet := "0x00000000000000000000000000000000000000f1";
     paymentRecipient := "0x00000000000000000000000000000000000000b2";
     createdBy := "0x00000000000000000000000000000000000000c3";
     createdAt := 1600000000000; lastUsed := 1600000005000;
     totalPayments := 2; status := active;
     registrationTxHash := "0xreg0";
     network := None; chainId := None |}.

Definition world : World :=
  {| kv := <["facilitator:fac_1" := fac]> (<["facilitator:fac_old" := legacy]> ∅);
     active_set := {[ "fac_1" ]} ∪ {[ "fac_old" ]};
     writes := [];
     chain := [];
     events := [];
     clock := 1700000009000 |}.

Definition auth (nonce : string) (value : string)
  : ERC3009.SignedAuthorizationJSON :=
  {| ERC3009.signature :=
       "0x" ++ Double.zeros 64 ++ Double.zeros 64 ++ "1b";
     ERC3009.authorization :=
       {| ERC3009.from := "0x00000000000000000000000000000000000000a1";
          ERC3009.to := "0x00000000000000000000000000000000000000b2";
          ERC3009.value := value;
          ERC3009.validAfter := "1700000000";
          ERC3009.validBefore := "1700000360";
          ERC3009.nonce := nonce |} |}.

(** Three legs; the second replays the nonce of the first. *)
Definition authA := auth "0xn1" "199000".
Definition authB := auth "0xn1" "1000".
Definition authC := auth "0xn3" "500".

Definition batch (legs : list ERC3009.SignedAuthorizationJSON)
  : SettleBatch.Request :=
  {| SettleBatch.facilitatorId := Some "fac_1";
     SettleBatch.network := Some "avalanche-fuji";
     SettleBatch.authorizations := Some legs |}.

Definition single (a : ERC3009.SignedAuthorizationJSON)
    (usdc alt verifying : JS.JVal) : SettleCustom.Request :=
  {| SettleCustom.facilitatorId := Some "fac_1";
     SettleCustom.paymentPayload :=
       Some {| SettleCustom.signature := ERC3009.signature a;
               SettleCustom.authorization := ERC3009.authorization a;
               SettleCustom.domain := JS.JUndefined |};
     SettleCustom.network := JS.JUndefined;
     SettleCustom.chainId := JS.JUndefined;
     SettleCustom.usdcAddress := usdc;
     SettleCustom.contractAddress := alt;
     SettleCustom.verifyingContract := verifying |}.

End Samples.

(** ** Strings: case folding and the address pattern of the routes *)

Module Text.

(** [c.toLowerCase()] on an ASCII character. *)
Definition lower_char (c : ascii) : ascii :=
  let n := nat_of_ascii c in
  if (65 <=? n)%nat && (n <=? 90)%nat then ascii_of_nat (n + 32) else c.

(** [s.toLowerCase()]. *)
Fixpoint toLowerCase (s : string) : string :=
  match s with
  | EmptyString => EmptyString
  | String c rest => String (lower_char c) (toLowerCase rest)
  end.

(** One character of the class [[a-fA-F0-9]]. *)
Definition is_hex (c : ascii) : bool :=
  match JS.hex_value c with
  | Some _ => true
  | None => false
  end.

Fixpoint all_hex (s : string) : bool :=
  match s with
  | EmptyString => true
  | String c rest => is_hex c && all_hex rest
  end.

(** [s.match(/^0x[a-fA-F0-9]{40}$/)] is not [null]. *)
Definition isAddress (s : string) : bool :=
  match s with
  | String "0" (String "x" digits) =>
      (String.length digits =? 40)%nat && all_hex digits
  | _ => false
  end.

End Text.

(** ** lib/facilitator-storage.ts: the public listing *)

Module Listing.

(** Modelled from the spec: [redis.smembers] of lib/redis (not among the
    sources) answers with the members of the set, each once, in an order
    of the server's choosing; [redis.mget] answers with the value of each
    key, in the order of the keys, [null] for a key that holds nothing. *)
Class Index :=
  { smembers : gset string -> list string;
    smembers_members : forall s : gset string, smembers s ≡ₚ elements s }.

Definition redis_smembers `{Index} : Runtime.M (list string) :=
  fun w => (Runtime.Ok (smembers (Runtime.active_set w)), w).

Definition redis_mget (keys : list string)
  : Runtime.M (list (option Runtime.Facilitator)) :=
  fun w => (Runtime.Ok (map (fun key => Runtime.kv w !! key) keys), w).

(** [PublicFacilitatorInfo].  The optional [gasBalance] is never set by the
    storage functions and is left out. *)
Record PublicFacilitatorInfo :=
  { id : string;
    name : string;
    facilitatorWallet : string;
    paymentRecipient : string;
    createdBy : string;
    status : Runtime.Status;
    totalPayments : Z;
    lastUsed : Z;
    network : string;
    chainId : Z }.

(** The entry pushed for a stored record: the public fields, with
    [facilitator.network || 'avalanche-fuji'] and
    [facilitator.chainId || 43113]. *)
Definition publicInfo (facilitator : Runtime.Facilitator) : PublicFacilitatorInfo :=
  {| id := Runtime.id facilitator;
     name := Runtime.name facilitator;
     facilitatorWallet := Runtime.facilitatorWallet facilitator;
     paymentRecipient := Runtime.paymentRecipient facilitator;
     createdBy := Runtime.createdBy facilitator;
     status := Runtime.status facilitator;
     totalPayments := Runtime.totalPayments facilitator;
     lastUsed := Runtime.lastUsed facilitator;
     network := JS.or_else (Runtime.network facilitator) "avalanche-fuji";
     chainId :=
       if JS.falsy_num (Runtime.chainId facilitator) then 43113
       else default 43113 (Runtime.chainId facilitator) |}.

(** [networkFilter && network !== networkFilter]. *)
Definition filtered_out (networkFilter : option string) (network : string) : bool :=
  match networkFilter with
  | Some wanted => JS.truthy wanted && negb (String.eqb network wanted)
  | None => false
  end.

(** One turn of the loop over the fetched values: nothing for a key
    without a value, nothing for a record of another network. *)
Definition entry (networkFilter : option string)
    (data : option Runtime.Facilitator) : option PublicFacilitatorInfo :=
  match data with
  | Some facilitator =>
      let info := publicInfo facilitator in
      if filtered_out networkFilter (network info) then None else Some info
  | None => None
  end.

(** [facilitators.sort((a, b) => b.lastUsed - a.lastUsed)].  The sort of
    an array is stable, and the comparator orders by [lastUsed] alone, so
    the result is the one a stable insertion sort gives: descending
    [lastUsed], entries of equal [lastUsed] in their former order. *)
Fixpoint insert_recent (x : PublicFacilitatorInfo)
    (sorted : list PublicFacilitatorInfo) : list PublicFacilitatorInfo :=
  match sorted with
  | [] => [x]
  | y :: rest =>
      if lastUsed x <? lastUsed y then y :: insert_recent x rest
      else x :: y :: rest
  end.

Definition sort_recent (facilitators : list PublicFacilitatorInfo)
  : list PublicFacilitatorInfo :=
  fold_right insert_recent [] facilitators.

Definition getActiveFacilitators `{Index} (networkFilter : option string)
  : Runtime.M (list PublicFacilitatorInfo) :=
  ids <- redis_smembers ;;
  if (length ids =? 0)%nat then Runtime.ret []
  else
    let keys := map (fun id => Runtime.REDIS_KEY_PREFIX ++ id) ids in
    values <- redis_mget keys ;;
    let facilitators := omap (entry networkFilter) values in
    Runtime.ret (sort_recent facilitators).

(** The [for ... of] loop of [getFacilitatorsByCreator] over the entries
    still to visit, with the entries kept so far. *)
Fixpoint byCreator (address : string) (rest : list PublicFacilitatorInfo)
    (userFacilitators : list PublicFacilitatorInfo)
  : Runtime.M (list PublicFacilitatorInfo) :=
  match rest with
  | [] => Runtime.ret userFacilitators
  | publicInfo :: rest' =>
      facilitator <- Storage.getFacilitator (id publicInfo) ;;
      match facilitator with
      | Some facilitator =>
          if String.eqb (Text.toLowerCase (Runtime.createdBy facilitator))
                        (Text.toLowerCase address)
          then byCreator address rest' (userFacilitators ++ [publicInfo])%list
          else byCreator address rest' userFacilitators
      | None => byCreator address rest' userFacilitators
      end
  end.

Definition getFacilitatorsByCreator `{Index} (address : string)
  : Runtime.M (list PublicFacilitatorInfo) :=
  allFacilitators <- getActiveFacilitators None ;;
  byCreator address allFacilitators [].

(** [generateFacilitatorId]; [random16] is what [nanoid(16)] yields. *)
Definition generateFacilitatorId (random16 : string) : string :=
  "fac_" ++ random16.

End Listing.

(** ** app/api/facilitator/delete/route.ts *)

Module DeleteRoute.

Import Runtime.

Record Request :=
  { facilitatorId : option string;
    userAddress : option string }.

Definition POST (request : Request) : M Http.Response :=
  try_catch
    (match facilitatorId request, userAddress request with
     | Some facilitatorId, Some userAddress =>
         if negb (JS.truthy facilitatorId) || negb (JS.truthy userAddress)
         then ret (Http.json 400 [("error", JS.JStr "Missing required fields")])
         else
           facilitator <- Storage.getFacilitator facilitatorId ;;
           match facilitator with
           | None =>
               ret (Http.json 404 [("error", JS.JStr "Facilitator not found")])
           | Some facilitator =>
               if negb (String.eqb (Text.toLowerCase (createdBy facilitator))
                                   (Text.toLowerCase userAddress))
               then ret (Http.json 403
                      [("error",
                        JS.JStr "Only the creator can delete this facilitator")])
               else
                 let key := "facilitator:" ++ facilitatorId in
                 redis_del key ;;
                 ret (Http.json 200
                        [ ("success", JS.JBool true);
                          ("message",
                           JS.JStr "Facilitator deleted successfully") ])
           end
     | _, _ =>
         ret (Http.json 400 [("error", JS.JStr "Missing required fields")])
     end)
    (fun _ =>
       ret (Http.json 500 [("error", JS.JStr "Failed to delete facilitator")])).

End DeleteRoute.

(** ** lib/erc3009.ts: the payload a client posts *)

Module ExactPayload.

Record X402ExactPayload :=
  { x402Version : Z;
    scheme : string;
    network : string;
    payload : ERC3009.SignedAuthorizationJSON }.

(** [createX402ExactPayload]; throws when [getX402Config] does. *)
Definition createX402ExactPayload (env : JS.Env)
    (signedAuth : ERC3009.SignedAuthorization) (network : option string)
  : string + X402ExactPayload :=
  match X402.getX402Config env network with
  | inl message => inl message
  | inr config =>
      let authJSON : ERC3009.TransferAuthorizationJSON :=
        {| ERC3009.from := ERC3009.from (ERC3009.authorization signedAuth);
           ERC3009.to := ERC3009.to (ERC3009.authorization signedAuth);
           ERC3009.value :=
             ERC3009.toString (ERC3009.value (ERC3009.authorization signedAuth));
           ERC3009.validAfter :=
             ERC3009.toString
               (ERC3009.validAfter (ERC3009.authorization signedAuth));
           ERC3009.validBefore :=
             ERC3009.toString
               (ERC3009.validBefore (ERC3009.authorization signedAuth));
           ERC3009.nonce := ERC3009.nonce (ERC3009.authorization signedAuth) |} in
      inr {| x402Version := 1;
             scheme := "exact";
             network := X402.NETWORK config;
             payload :=
               {| ERC3009.signature := ERC3009.signature signedAuth;
                  ERC3009.authorization := authJSON |} |}
  end.

End ExactPayload.

(** ** lib/x402.ts: payment requirements and the legacy payload *)

Module Payments.






End Payments.

(** ** app/api/x402/settle-default/route.ts *)

Module SettleDefault.

Import Runtime.

(** The [paymentPayload] of the body: the route reads its [payload] and
    nothing else of it. *)
Record PaymentPayload :=
  { payload : option ERC3009.SignedAuthorizationJSON }.

Record Request :=
  { paymentPayload : option PaymentPayload;
    network : option string }.

(** The message of the [TypeError] thrown when [paymentPayload.payload] is
    destructured and is [undefined]; its wording is the engine's. *)
Definition destructure_error : string :=
  "Cannot destructure property 'signature' of 'paymentPayload.payload' as it is undefined.".

Definition failure (message : string) : Http.Response :=
  Http.json 500
    [ ("error", JS.JStr "Settlement failed");
      ("message", JS.JStr (Http.message_of message)) ].

Definition POST `{Externals} (env : JS.Env) (request : Request)
  : M Http.Response :=
  try_catch
    (let network :=
       match network request with
       | Some network => network
       | None => "avalanche-fuji"
       end in
     match paymentPayload request with
     | None => ret (Http.json 400 [("error", JS.JStr "Missing paymentPayload")])
     | Some paymentPayload =>
         found <- lift (Networks.getNetworkConfig env network) ;;
         usdcContract <- lift (Contracts.getUSDCContract env network) ;;
         (* An inherited member does not come this far: [getUSDCContract]
            has thrown for its name. *)
         networkConfig <- lift (Networks.entry_of found "id") ;;
         let networkSpecificKey :=
           env ("DEFAULT_FACILITATOR_PRIVATE_KEY_"
                ++ Contracts.upper_snake network) in
         let privateKey :=
           if JS.falsy_str networkSpecificKey
           then env "DEFAULT_FACILITATOR_PRIVATE_KEY"
           else networkSpecificKey in
         match privateKey with
         | Some privateKey =>
             if negb (JS.truthy privateKey)
             then ret (Http.json 500
                    [("error",
                      JS.JStr "Default facilitator not configured for this network")])
             else
               wallet <- lift (walletAddress privateKey) ;;
               match payload paymentPayload with
               | None => throw destructure_error
               | Some signedAuth =>
                   let call :=
                     Signature.call_of (Networks.rpcUrl networkConfig)
                       privateKey (Contracts.address usdcContract) signedAuth in
                   sent <- send call ;;
                   let '(hash, _) := sent in
                   ret (Http.json 200
                          [ ("success", JS.JBool true);
                            ("txHash", JS.JStr hash);
                            ("tx", JS.JStr hash);
                            ("facilitatorWallet", JS.JStr wallet);
                            ("network", JS.JStr network);
                            ("networkId",
                             JS.JNum (Networks.id (Networks.chain networkConfig))) ])
               end
         | None =>
             ret (Http.json 500
                    [("error",
                      JS.JStr "Default facilitator not configured for this network")])
         end
     end)
    (fun message => ret (failure message)).

End SettleDefault.

(** ** app/api/facilitator/random/route.ts *)

Module RandomRoute.

Import Runtime.

(** [Math.floor(Math.random() * n)] for an array length [n > 0]:
    [Math.random()] is below one, and the product, rounded to a double,
    stays below [n], so the index is one of the array. *)
Class Random :=
  { random_index : World -> nat -> nat;
    random_index_lt :
      forall (w : World) (n : nat), (0 < n)%nat -> (random_index w n < n)%nat }.

Definition GET `{Listing.Index} `{Random} (network : option string)
  : M Http.Response :=
  try_catch
    (let network := JS.or_else network "avalanche-fuji" in
     allFacilitators <- Listing.getActiveFacilitators None ;;
     let networkFacilitators :=
       List.filter
              (fun f =>
                 String.eqb (JS.or_else (Some (Listing.network f)) "avalanche-fuji")
                            network
                 && Status_eqb (Listing.status f) active)
              allFacilitators in
     if (length networkFacilitators =? 0)%nat
     then ret (Http.json 404
            [ ("success", JS.JBool false);
              ("error",
               JS.JStr ("No active facilitators available on " ++ network
                        ++ ". Please try a different network or create a facilitator.")) ])
     else
       randomIndex <- (fun w => (Ok (random_index w (length networkFacilitators)), w)) ;;
       match nth_error networkFacilitators randomIndex with
       | None => throw "Cannot read properties of undefined (reading 'id')"
       | Some selectedPublicInfo =>
           facilitator <- Storage.getFacilitator (Listing.id selectedPublicInfo) ;;
           match facilitator with
           | None =>
               ret (Http.json 404
                      [ ("success", JS.JBool false);
                        ("error", JS.JStr "Selected facilitator not found") ])
           | Some facilitator =>
               ret (Http.json 200
                      [ ("success", JS.JBool true);
                        ("facilitator",
                         JS.JObj
                           [ ("id", JS.JStr (id facilitator));
                             ("name", JS.JStr (name facilitator));
                             ("facilitatorWallet",
                              JS.JStr (facilitatorWallet facilitator));
                             ("paymentRecipient",
                              JS.JStr (paymentRecipient facilitator));
                             ("network",
                              JS.JStr (JS.or_else (Runtime.network facilitator)
                                         "avalanche-fuji"));
                             ("status",
                              JS.JStr (Status_name (status facilitator))) ]) ])
           end
       end)
    (fun _ =>
       ret (Http.json 500
              [ ("success", JS.JBool false);
                ("error", JS.JStr "Failed to select facilitator") ])).

End RandomRoute.

(** ** app/api/facilitator/create-from-existing/route.ts *)

Module CreateFromExisting.

(** What [verifyRegistrationPayment] resolves with, as far as the route
    reads it. *)
Record Verification := { valid : bool; error : string }.

(** Collaborators of the route that are not among the sources:
    [verifyRegistrationPayment] of lib/verify-payment, which looks the
    registration transaction up on the chain and may throw, and [nanoid],
    which yields a random string of the given length. *)
Class Registration :=
  { verifyRegistrationPayment :
      Runtime.ChainLog -> string -> string -> string -> string + Verification;
    nanoid : Runtime.World -> nat -> string }.

Record Request :=
  { name : option string;
    password : option string;
    paymentRecipient : option string;
    createdBy : option string;
    registrationTxHash : option string;
    network : option string;
    chainId : option Z }.

Definition verify `{Registration} (registrationTxHash createdBy network : string)
  : Runtime.M Verification :=
  fun w =>
    match verifyRegistrationPayment (Runtime.chain w) registrationTxHash
            createdBy network with
    | inl message => (Runtime.Throw message, w)
    | inr verification => (Runtime.Ok verification, w)
    end.

Definition fresh_id `{Registration} : Runtime.M string :=
  fun w => (Runtime.Ok (Listing.generateFacilitatorId (nanoid w 16)), w).

Definition missing_fields : Http.Response :=
  Http.json 400 [("error", JS.JStr "Missing required fields")].

Definition POST `{Runtime.Externals} `{Listing.Index} `{Registration}
    (env : JS.Env) (request : Request) : Runtime.M Http.Response :=
  Runtime.try_catch
    (match name request, password request, paymentRecipient request,
           createdBy request, registrationTxHash request, network request,
           chainId request with
     | Some name, Some password, Some paymentRecipient, Some createdBy,
       Some registrationTxHash, Some network, Some chainId =>
         if negb (JS.truthy name) || negb (JS.truthy password)
            || negb (JS.truthy paymentRecipient) || negb (JS.truthy createdBy)
            || negb (JS.truthy registrationTxHash) || negb (JS.truthy network)
            || Z.eqb chainId 0
         then Runtime.ret missing_fields
         else if negb (Networks.isNetworkSupported env network)
         then Runtime.ret
                (Http.json 400
                   [("error", JS.JStr ("Unsupported network: " ++ network))])
         else if (JS.length name <? 3)%nat || (50 <? JS.length name)%nat
         then Runtime.ret
                (Http.json 400
                   [("error",
                     JS.JStr "Facilitator name must be between 3 and 50 characters")])
         else if negb (Text.isAddress paymentRecipient)
         then Runtime.ret
                (Http.json 400
                   [("error", JS.JStr "Invalid payment recipient address")])
         else if negb (Text.isAddress createdBy)
         then Runtime.ret
                (Http.json 400 [("error", JS.JStr "Invalid creator address")])
         else
           userFacilitators <- Listing.getFacilitatorsByCreator createdBy ;;
           match userFacilitators with
           | [] =>
               Runtime.ret
                 (Http.json 400
                    [("error",
                      JS.JStr "No existing facilitator account found. Please create your first facilitator before adding more networks.")])
           | baseFacilitatorPublic :: _ =>
               baseFacilitator <-
                 Storage.getFacilitator (Listing.id baseFacilitatorPublic) ;;
               match baseFacilitator with
               | None =>
                   Runtime.ret
                     (Http.json 500
                        [("error",
                          JS.JStr "Failed to load existing facilitator account")])
               | Some baseFacilitator =>
                   match Runtime.decryptPrivateKey
                           (Runtime.encryptedPrivateKey baseFacilitator)
                           password with
                   | inl _ =>
                       Runtime.ret
                         (Http.json 401
                            [("error",
                              JS.JStr "Invalid password for existing facilitator account")])
                   | inr _ =>
                       verification <-
                         verify registrationTxHash createdBy network ;;
                       if negb (valid verification)
                       then Runtime.ret
                              (Http.json 400
                                 [("error",
                                   JS.JStr ("Payment verification failed: "
                                            ++ error verification))])
                       else
                         id <- fresh_id ;;
                         createdAt <- Runtime.date_now ;;
                         lastUsed <- Runtime.date_now ;;
                         let facilitator :=
                           {| Runtime.id := id;
                              Runtime.name := name;
                              Runtime.encryptedPrivateKey :=
                                Runtime.encryptedPrivateKey baseFacilitator;
                              Runtime.systemEncryptedKey :=
                                Runtime.systemEncryptedKey baseFacilitator;
                              Runtime.facilitatorWallet :=
                                Runtime.facilitatorWallet baseFacilitator;
                              Runtime.paymentRecipient := paymentRecipient;
                              Runtime.createdBy := createdBy;
                              Runtime.createdAt := createdAt;
                              Runtime.lastUsed := lastUsed;
                              Runtime.totalPayments := 0;
                              Runtime.status := Runtime.needs_funding;
                              Runtime.registrationTxHash := registrationTxHash;
                              Runtime.network := Some network;
                              Runtime.chainId := Some chainId |} in
                         Storage.storeFacilitator facilitator ;;
                         found <-
                           Runtime.lift (Networks.getNetworkConfig env network) ;;
                         Runtime.logEvent
                           [ ("eventType", JS.JStr "facilitator_added");
                             ("facilitatorId", JS.JStr id);
                             ("facilitatorName", JS.JStr name);
                             ("chainName", Networks.displayName_of found);
                             ("chainId", JS.JNum chainId);
                             ("stakeAmount", JS.JStr "1 USDC");
                             ("stakeTxHash", JS.JStr registrationTxHash);
                             ("status", JS.JStr "success") ] ;;
                         Runtime.ret
                           (Http.json 200
                              [ ("success", JS.JBool true);
                                ("facilitator",
                                 JS.JObj
                                   [ ("id", JS.JStr (Runtime.id facilitator));
                                     ("facilitatorWallet",
                                      JS.JStr (Runtime.facilitatorWallet facilitator));
                                     ("paymentRecipient",
                                      JS.JStr (Runtime.paymentRecipient facilitator));
                                     ("status",
                                      JS.JStr
                                        (Runtime.Status_name
                                           (Runtime.status facilitator)));
                                     ("createdAt",
                                      JS.JNum (Runtime.createdAt facilitator)) ]) ])
                   end
               end
           end
     | _, _, _, _, _, _, _ => Runtime.ret missing_fields
     end)
    (fun _ =>
       Runtime.ret
         (Http.json 500
            [("error",
              JS.JStr "Failed to create facilitator from existing account")])).

End CreateFromExisting.

(** ** app/api/facilitator/balance/route.ts (deactivation threshold) *)

Module BalanceRoute.

Import Runtime.

(** [formatEther] of viem, a dependency of the repository: the decimal
    expansion of a balance in wei as tokens.  The route hands the string
    on as it is; the number it parses from it is [Double.of_wei]. *)
Class Format := { formatEther : Z -> string }.

(** [RECOMMENDED_BALANCES], each number as [toString()] prints it: the
    route only ever prints them. *)
Definition RECOMMENDED_BALANCES : list (string * string) :=
  [ ("avalanche-fuji", "0.1");
    ("ethereum-sepolia", "0.05");
    ("base-sepolia", "0.05");
    ("polygon-amoy", "0.1");
    ("arbitrum-sepolia", "0.05");
    ("monad-testnet", "0.1") ].

Definition GET `{Externals} `{Format} (env : JS.Env)
    (address network : option string) : M Http.Response :=
  try_catch
    (let network := JS.or_else network "avalanche-fuji" in
     match address with
     | None => ret (Http.json 400 [("error", JS.JStr "Missing address parameter")])
     | Some address =>
         if negb (JS.truthy address)
         then ret (Http.json 400 [("error", JS.JStr "Missing address parameter")])
         else if negb (Text.isAddress address)
         then ret (Http.json 400 [("error", JS.JStr "Invalid address format")])
         else
           found <- lift (Networks.getNetworkConfig env network) ;;
           let recommendedBalance :=
             match JS.assoc network RECOMMENDED_BALANCES with
             | Some recommended => recommended
             | None => "0.1"
             end in
           (* On an inherited member the route ends in the catch whatever
              the client answers: the response reads
              [networkConfig.nativeCurrency.symbol]. *)
           networkConfig <- lift (Networks.entry_of found "symbol") ;;
           balance <- read_balance (Networks.rpcUrl networkConfig) address ;;
           let balanceInToken := formatEther balance in
           let isFunded :=
             Double.gtb (Double.of_wei balance)
               CheckAndActivate.DEACTIVATION_THRESHOLD in
           ret (Http.json 200
                  [ ("success", JS.JBool true);
                    ("address", JS.JStr address);
                    ("network", JS.JStr network);
                    ("balance", JS.JStr balanceInToken);
                    ("balanceWei", JS.JStr (JS.bigint_toString balance));
                    ("isFunded", JS.JBool isFunded);
                    ("minimumRequired", JS.JStr "0.0001");
                    ("recommendedMinimum", JS.JStr recommendedBalance);
                    ("currency",
                     JS.JStr (Networks.symbol
                                (Networks.nativeCurrency networkConfig))) ])
     end)
    (fun _ => ret (Http.json 500 [("error", JS.JStr "Failed to check balance")])).

End BalanceRoute.

(** * The vocabulary of the statements *)

(** ** The registry *)

(** The signing domain of a registry entry agrees with the entry. *)
Definition domain_matches (config : Networks.NetworkConfig) : Prop :=
  Networks.chainId (Networks.erc3009Domain config)
    = Networks.id (Networks.chain config)
  /\ Networks.verifyingContract (Networks.erc3009Domain config)
     = Networks.usdcAddress config.

(** ** Reads, stores and payments on the world *)

Section WorldTerms.

Import Runtime.

(** The Redis key of a facilitator id. *)
Definition key_of (id : string) : string := REDIS_KEY_PREFIX ++ id.

(** A stored record is legacy when the read finds no network or no chain
    id on it. *)
Definition legacy_record (f : Facilitator) : bool :=
  JS.falsy_str (network f) || JS.falsy_num (chainId f).

(** The record the migration block of [getFacilitator] saves. *)
Definition migrated (f : Facilitator) : Facilitator :=
  with_network (Some "avalanche-fuji") (Some 43113) f.

(** What a read returns for the stored record [f], and the world it leaves. *)
Definition read_record (f : Facilitator) : Facilitator :=
  if legacy_record f then migrated f else f.

Definition read_world (id : string) (f : Facilitator) (w : World) : World :=
  if legacy_record f
  then {| kv := <[key_of id := migrated f]> (kv w);
          active_set := active_set w;
          writes := (writes w ++ [SET (key_of id) (migrated f)])%list;
          chain := chain w; events := events w; clock := clock w |}
  else w.

(** The world after [storeFacilitator f]. *)
Definition stored_world (f : Facilitator) (w : World) : World :=
  {| kv := <[key_of (Runtime.id f) := f]> (kv w);
     active_set := {[ Runtime.id f ]} ∪ active_set w;
     writes := (writes w ++ [SET (key_of (Runtime.id f)) f;
                             SADD ACTIVE_LIST_KEY (Runtime.id f)])%list;
     chain := chain w; events := events w; clock := clock w |}.

(** The record [recordPayment] stores for the stored record [f]. *)
Definition paid (now : Z) (f : Facilitator) : Facilitator :=
  with_payment (totalPayments (read_record f) + 1) now (read_record f).

(** The world as a call finds it when the clock reads [t].  The clock of a
    world is the time of the call that runs in it; the time that passes
    between two calls is a change of the world the second one is given. *)
Definition at_time (t : Z) (w : World) : World :=
  {| kv := kv w; active_set := active_set w; writes := writes w;
     chain := chain w; events := events w; clock := t |}.

(** The network the check runs on for the stored record [f]. *)
Definition check_network (f : Facilitator) : string :=
  JS.or_else (network (read_record f)) "avalanche-fuji".

(** The audit event of an activation. *)
Definition activation_event (f : Facilitator)
    (networkConfig : Networks.NetworkConfig) (balance : Z) : Event :=
  [ ("eventType", JS.JStr "facilitator_activated");
    ("facilitatorId", JS.JStr (Runtime.id f));
    ("facilitatorName", JS.JStr (name f));
    ("chainName", JS.JStr (Networks.displayName networkConfig));
    ("chainId", JS.JNum (Networks.id (Networks.chain networkConfig)));
    ("gasFundingAmount",
     JS.JStr (Double.toFixed4 (Double.of_wei balance) ++ " "
              ++ Networks.symbol (Networks.nativeCurrency networkConfig)));
    ("status", JS.JStr "success") ].

(** The world after [logEvent event]. *)
Definition log_world (event : Event) (w : World) : World :=
  {| kv := kv w; active_set := active_set w; writes := writes w;
     chain := chain w; events := (events w ++ [event])%list; clock := clock w |}.

(** The world a check leaves behind when it finds the stored record [f]
    and reads [balance]. *)
Definition check_world (id : string) (f : Facilitator)
    (networkConfig : Networks.NetworkConfig) (balance : Z) (w : World) : World :=
  let new := CheckAndActivate.newStatus balance in
  if Status_eqb (status f) new then read_world id f w
  else
    let w1 := stored_world (with_status new (read_record f)) (read_world id f w) in
    match new with
    | active => log_world (activation_event (read_record f) networkConfig balance) w1
    | _ => w1
    end.

(** No stored record changed its payment counter or its last-used time. *)
Definition counters_kept (w w' : World) : Prop :=
  forall key : string,
    totalPayments <$> kv w' !! key = totalPayments <$> kv w !! key
    /\ lastUsed <$> kv w' !! key = lastUsed <$> kv w !! key.

(** Every record sits under the key of its own id, as [storeFacilitator]
    puts it. *)
Definition consistent (w : World) : Prop :=
  forall (key : string) (f : Facilitator),
    kv w !! key = Some f -> key = key_of (Runtime.id f).

End WorldTerms.

(** ** The sources of the token contract address *)

(** First match wins: the first candidate that passes the route's filter,
    the fallback when none does. *)
Fixpoint first_usable (candidates : list JS.JVal) (fallback : string) : string :=
  match candidates with
  | [] => fallback
  | c :: rest =>
      match SettleCustom.usable c with
      | Some a => a
      | None => first_usable rest fallback
      end
  end.

(** The request-side sources of the address, in the order of the route. *)
Definition request_sources (request : SettleCustom.Request)
    (payload : SettleCustom.PaymentPayload) : list JS.JVal :=
  [ SettleCustom.usdcAddress request;
    SettleCustom.contractAddress request;
    SettleCustom.verifyingContract request;
    JS.prop (SettleCustom.payloadDomain payload) "verifyingContract" ].

(** ** The legs of a batch on the chain log *)

Section ChainTerms.

Import Runtime.
Context `{Externals}.
Local Open Scope list_scope.

(** An entry of the chain log whose transaction was confirmed. *)
Definition mined (entry : TxCall * TxOutcome) : bool :=
  match snd entry with
  | Mined _ _ => true
  | _ => false
  end.

(** The message of the error a failed call throws. *)
Definition failure_message (outcome : TxOutcome) : option string :=
  match outcome with
  | SubmitThrows message => Some message
  | WaitThrows _ message => Some message
  | Mined _ _ => None
  end.

(** The entries the chain log gains when [calls] are submitted one after
    the other on top of [log], whatever their outcomes. *)
Fixpoint legs (log : ChainLog) (calls : list TxCall) : ChainLog :=
  match calls with
  | [] => []
  | call :: rest =>
      let entry := (call, transferWithAuthorization log call) in
      entry :: legs (log ++ [entry])%list rest
  end.

(** The call the batch route makes for one authorization. *)
Definition batch_call (networkConfig : Networks.NetworkConfig)
    (privateKey : string) (signedAuth : ERC3009.SignedAuthorizationJSON)
  : TxCall :=
  Signature.call_of (Networks.rpcUrl networkConfig) privateKey
    (Networks.usdcAddress networkConfig) signedAuth.

(** The conditions under which a batch request gets as far as the loop:
    the request names a stored facilitator bound to the requested network,
    the master key is set and opens the facilitator's key, the network is
    registered and the wallet can be built. *)
Record ready (env : JS.Env) (request : SettleBatch.Request) (w : World)
    (id : string) (f : Facilitator) (networkConfig : Networks.NetworkConfig)
    (privateKey : string)
    (auths : list ERC3009.SignedAuthorizationJSON) : Prop :=
  { ready_id : SettleBatch.facilitatorId request = Some id;
    ready_id_truthy : JS.truthy id = true;
    ready_network :
      SettleBatch.network request = Some (check_network f);
    ready_auths : SettleBatch.authorizations request = Some auths;
    ready_nonempty : auths <> [];
    ready_stored : kv w !! key_of id = Some f;
    ready_key :
      exists masterKey,
        env "SYSTEM_MASTER_KEY" = Some masterKey
        /\ JS.truthy masterKey = true
        /\ decryptPrivateKey (systemEncryptedKey f) masterKey = inr privateKey;
    ready_config :
      Networks.getNetworkConfig env (check_network f) = inr networkConfig;
    ready_wallet : exists wallet, walletAddress privateKey = inr wallet }.

(** A settlement attempt: a request to the single route or to the batch
    route. *)
Inductive Attempt :=
| Single (request : SettleCustom.Request)
| Batch (request : SettleBatch.Request).

Definition settle (env : JS.Env) (attempt : Attempt) : M Http.Response :=
  match attempt with
  | Single request => SettleCustom.POST env request
  | Batch request => SettleBatch.POST env request
  end.

(** What a finished attempt says about the chain log and the counters. *)
Definition attempt_frame (w : World) (w' : World) : Prop :=
  exists added,
    chain w' = chain w ++ added
    /\ (forallb mined added = false -> counters_kept w w').

End ChainTerms.

(** ** Sample inputs *)

(** An environment that overrides the token address of Base Sepolia, and
    the registry entry it gives. *)
Definition base_override : JS.Env :=
  fun k =>
    if String.eqb k "NEXT_PUBLIC_USDC_ADDRESS_BASE_SEPOLIA"
    then Some "0x00000000000000000000000000000000000000aa" else None.

Definition base_overridden : Networks.NetworkConfig :=
  {| Networks.chain := Networks.baseSepolia;
     Networks.name := "base-sepolia";
     Networks.displayName := "Base Sepolia";
     Networks.rpcUrl := "https://sepolia.base.org";
     Networks.blockExplorer := "https://sepolia.basescan.org";
     Networks.usdcAddress := "0x00000000000000000000000000000000000000aa";
     Networks.usdcDecimals := 6;
     Networks.nativeCurrency := Networks.eth;
     Networks.erc3009Domain :=
       {| Networks.domain_name := "USDC";
          Networks.version := "2";
          Networks.chainId := 84532;
          Networks.verifyingContract :=
            "0x00000000000000000000000000000000000000aa" |} |}.

Definition fuji_config : X402.Config :=
  {| X402.VERSION := 1;
     X402.FACILITATOR_URL := "/api/x402";
     X402.NETWORK := "avalanche-fuji";
     X402.USDC_ADDRESS := "0x5425890298aed601595a70AB815c96711a31Bc65";
     X402.PAYMENT_RECIPIENT := None;
     X402.PAYMENT_AMOUNT := "1";
     X402.USDC_DECIMALS := 6;
     X402.TIMEOUT_SECONDS := 300 |}.

Definition fuji_usdc : Contracts.USDCContract :=
  {| Contracts.address := "0x5425890298aed601595a70AB815c96711a31Bc65";
     Contracts.decimals := 6;
     Contracts.symbol := "USDC";
     Contracts.name := "USD Coin" |}.

Definition fuji_network : Networks.NetworkConfig :=
  {| Networks.chain := Networks.avalancheFuji;
     Networks.name := "avalanche-fuji";
     Networks.displayName := "Avalanche Fuji";
     Networks.rpcUrl := "https://api.avax-test.network/ext/bc/C/rpc";
     Networks.blockExplorer := "https://testnet.snowtrace.io";
     Networks.usdcAddress := "0x5425890298aed601595a70AB815c96711a31Bc65";
     Networks.usdcDecimals := 6;
     Networks.nativeCurrency :=
       {| Networks.currency_name := "Avalanche";
          Networks.symbol := "AVAX";
          Networks.decimals := 18 |};
     Networks.erc3009Domain :=
       {| Networks.domain_name := "USD Coin";
          Networks.version := "2";
          Networks.chainId := 43113;
          Networks.verifyingContract :=
            "0x5425890298aed601595a70AB815c96711a31Bc65" |} |}.

(** A request that names the token contract only through its
    [verifyingContract] field. *)
Definition other_token : string := "0x1111111111111111111111111111111111111111".

Definition request_by_verifying : SettleCustom.Request :=
  Samples.single Samples.authA JS.JUndefined JS.JUndefined (JS.JStr other_token).

Definition payload_of (request : SettleCustom.Request)
  : SettleCustom.PaymentPayload :=
  default {| SettleCustom.signature := "";
             SettleCustom.authorization := ERC3009.authorization Samples.authA;
             SettleCustom.domain := JS.JUndefined |}
          (SettleCustom.paymentPayload request).

Definition replay_message : string :=
  "FiatTokenV2: authorization is used or canceled".

(** The three-leg batch whose second leg replays a nonce, as an attempt. *)
Definition replayed_batch : Attempt :=
  Batch (Samples.batch [Samples.authA; Samples.authB; Samples.authC]).

Definition after_replayed_batch : Runtime.Result Http.Response * Runtime.World :=
  settle (H := Samples.externals) Samples.env replayed_batch Samples.world.

(** ** Sequences of storage calls *)

(** A call of one of the storage functions that write. *)
Inductive StorageCall :=
| CallStore (facilitator : Runtime.Facilitator)
| CallGet (id : string)
| CallStatus (id : string) (status : Runtime.Status)
| CallPayment (id : string)
| CallDelete (id : string).

(** The world a storage call leaves, whether it returns or throws. *)
Definition after_call (call : StorageCall) (w : Runtime.World) : Runtime.World :=
  match call with
  | CallStore facilitator => snd (Storage.storeFacilitator facilitator w)
  | CallGet id => snd (Storage.getFacilitator id w)
  | CallStatus id status => snd (Storage.updateFacilitatorStatus id status w)
  | CallPayment id => snd (Storage.recordPayment id w)
  | CallDelete id => snd (Storage.deleteFacilitator id w)
  end.

Definition after_calls (calls : list StorageCall) (w : Runtime.World)
  : Runtime.World :=
  fold_left (fun w call => after_call call w) calls w.

(** A store nothing was written to yet. *)
Definition fresh_world (now : Z) : Runtime.World :=
  {| Runtime.kv := ∅; Runtime.active_set := ∅; Runtime.writes := [];
     Runtime.chain := []; Runtime.events := []; Runtime.clock := now |}.

(** The record a funding check leaves under the key of the stored
    record [f]. *)
Definition checked (balance : Z) (f : Runtime.Facilitator) : Runtime.Facilitator :=
  Runtime.with_status (CheckAndActivate.newStatus balance) (read_record f).

(** ** What confirmed legs add up to *)

Section LegTerms.

Import Runtime.

(** The gas paid for the confirmed entries that carry a receipt. *)
Definition receipts_gas (entries : ChainLog) : Z :=
  fold_right
    (fun entry total =>
       match snd entry with
       | Mined _ (Some receipt) => Signature.gasSpent receipt + total
       | _ => total
       end) 0 entries.

(** The gas of one confirmed transfer: that of its receipt, nothing
    without one. *)
Definition receipt_gas (receipt : option Receipt) : Z :=
  match receipt with
  | Some receipt => Signature.gasSpent receipt
  | None => 0
  end.

(** The audit events of the confirmed entries that carry a receipt. *)
Definition transfer_events (facilitatorId : string) (facilitator : Facilitator)
    (networkConfig : Networks.NetworkConfig) (entries : ChainLog) : list Event :=
  flat_map
    (fun entry =>
       match snd entry with
       | Mined hash (Some receipt) =>
           [SettleBatch.transfer_event facilitatorId facilitator networkConfig
              hash (Runtime.from (fst entry)) (Runtime.to (fst entry))
              (Runtime.value (fst entry)) (Signature.gasSpent receipt)]
       | _ => []
       end) entries.

(** The world after a call was handed to the chain and came to [outcome]. *)
Definition sent_world (call : TxCall) (outcome : TxOutcome) (w : World) : World :=
  {| kv := kv w; active_set := active_set w; writes := writes w;
     chain := (chain w ++ [(call, outcome)])%list;
     events := events w; clock := clock w |}.

(** The call the single route makes for a payload. *)
Definition single_call (networkConfig : Networks.NetworkConfig)
    (privateKey : string) (request : SettleCustom.Request)
    (payload : SettleCustom.PaymentPayload) (registryAddress : string) : TxCall :=
  Signature.call_of (Networks.rpcUrl networkConfig) privateKey
    (first_usable (request_sources request payload) registryAddress)
    {| ERC3009.signature := SettleCustom.signature payload;
       ERC3009.authorization := SettleCustom.authorization payload |}.

End LegTerms.

Section SingleTerms.

Import Runtime.
Context `{Externals}.

(** The conditions under which a single request gets as far as the call. *)
Record single_ready (env : JS.Env) (request : SettleCustom.Request) (w : World)
    (id : string) (payload : SettleCustom.PaymentPayload) (f : Facilitator)
    (networkConfig : Networks.NetworkConfig)
    (usdcContractConfig : Contracts.USDCContract) (privateKey : string) : Prop :=
  { single_id : SettleCustom.facilitatorId request = Some id;
    single_id_truthy : JS.truthy id = true;
    single_payload : SettleCustom.paymentPayload request = Some payload;
    single_stored : kv w !! key_of id = Some f;
    single_config :
      Networks.getNetworkConfig env
        (SettleCustom.resolveNetwork env request (read_record f))
      = inr networkConfig;
    single_contract :
      Contracts.getUSDCContract env
        (SettleCustom.resolveNetwork env request (read_record f))
      = inr usdcContractConfig;
    single_key :
      exists masterKey,
        env "SYSTEM_MASTER_KEY" = Some masterKey
        /\ JS.truthy masterKey = true
        /\ decryptPrivateKey (systemEncryptedKey f) masterKey = inr privateKey;
    single_wallet : exists wallet, walletAddress privateKey = inr wallet }.

End SingleTerms.

(** A facilitator bound to a network the registry does not know, although
    the funding check lists a recommended balance for it. *)
Definition optimism_fac : Runtime.Facilitator :=
  Runtime.with_network (Some "optimism-sepolia") (Some 11155420) Samples.fac.

Definition optimism_world : Runtime.World :=
  {| Runtime.kv := <["facilitator:fac_1" := optimism_fac]> ∅;
     Runtime.active_set := {[ "fac_1" ]};
     Runtime.writes := []; Runtime.chain := []; Runtime.events := [];
     Runtime.clock := 1700000009000 |}.

(** A request to the single route that names Base Sepolia although the
    facilitator is bound to Avalanche Fuji. *)
Definition request_on_base : SettleCustom.Request :=
  {| SettleCustom.facilitatorId := Some "fac_1";
     SettleCustom.paymentPayload :=
       Some {| SettleCustom.signature := ERC3009.signature Samples.authA;
               SettleCustom.authorization := ERC3009.authorization Samples.authA;
               SettleCustom.domain := JS.JUndefined |};
     SettleCustom.network := JS.JStr "base-sepolia";
     SettleCustom.chainId := JS.JNum 43113;
     SettleCustom.usdcAddress := JS.JUndefined;
     SettleCustom.contractAddress := JS.JUndefined;
     SettleCustom.verifyingContract := JS.JUndefined |}.

Definition base_usdc : Contracts.USDCContract :=
  {| Contracts.address := "0x00000000000000000000000000000000000000aa";
     Contracts.decimals := 6;
     Contracts.symbol := "USDC";
     Contracts.name := "USD Coin" |}.

(** The environment of the samples with the token address of Base Sepolia
    configured. *)
Definition base_env : JS.Env :=
  fun k =>
    if String.eqb k "NEXT_PUBLIC_USDC_ADDRESS_BASE_SEPOLIA"
    then Some "0x00000000000000000000000000000000000000aa"
    else Samples.env k.

(** A request to the single route for Arbitrum Sepolia, which the network
    registry knows and the contract registry does not, with the token
    address given in the request. *)
Definition request_on_arbitrum : SettleCustom.Request :=
  {| SettleCustom.facilitatorId := Some "fac_1";
     SettleCustom.paymentPayload :=
       Some {| SettleCustom.signature := ERC3009.signature Samples.authA;
               SettleCustom.authorization := ERC3009.authorization Samples.authA;
               SettleCustom.domain := JS.JUndefined |};
     SettleCustom.network := JS.JStr "arbitrum-sepolia";
     SettleCustom.chainId := JS.JNum 421614;
     SettleCustom.usdcAddress :=
       JS.JStr "0x75faf114eafb1BDbe2F0316DF893fd58CE46AA4d";
     SettleCustom.contractAddress := JS.JUndefined;
     SettleCustom.verifyingContract := JS.JUndefined |}.

(** A request to the single route that names [toString], a member of
    [Object.prototype], as its network, for a facilitator bound to
    Avalanche Fuji, with the token address given in the request. *)
Definition request_on_toString : SettleCustom.Request :=
  {| SettleCustom.facilitatorId := Some "fac_1";
     SettleCustom.paymentPayload :=
       Some {| SettleCustom.signature := ERC3009.signature Samples.authA;
               SettleCustom.authorization := ERC3009.authorization Samples.authA;
               SettleCustom.domain := JS.JUndefined |};
     SettleCustom.network := JS.JStr "toString";
     SettleCustom.chainId := JS.JUndefined;
     SettleCustom.usdcAddress :=
       JS.JStr "0x5425890298aed601595a70AB815c96711a31Bc65";
     SettleCustom.contractAddress := JS.JUndefined;
     SettleCustom.verifyingContract := JS.JUndefined |}.

(** ** The public listing *)

(** Most recently used first. *)
Fixpoint recent_first (infos : list Listing.PublicFacilitatorInfo) : Prop :=
  match infos with
  | [] => True
  | info :: rest =>
      Forall (fun later => Listing.lastUsed later <= Listing.lastUsed info) rest
      /\ recent_first rest
  end.

(** The creator test of [getFacilitatorsByCreator] and of the delete
    route: equality of addresses up to the case of the letters. *)
Definition same_address (a b : string) : bool :=
  String.eqb (Text.toLowerCase a) (Text.toLowerCase b).

(** An index that answers [smembers] in the order of [elements]. *)
#[export] Instance plain_index : Listing.Index :=
  {| Listing.smembers := elements;
     Listing.smembers_members := fun s => reflexivity (elements s) |}.

(** A random source that always picks the first entry. *)
#[export] Instance first_pick : RandomRoute.Random :=
  {| RandomRoute.random_index := fun _ _ => 0%nat;
     RandomRoute.random_index_lt := fun _ n Hn => Hn |}.

(** Between two worlds, nothing happened but the migration of legacy
    records that reads perform. *)
Definition migration_only (w w' : Runtime.World) : Prop :=
  Runtime.chain w' = Runtime.chain w
  /\ Runtime.events w' = Runtime.events w
  /\ Runtime.active_set w' = Runtime.active_set w
  /\ Runtime.clock w' = Runtime.clock w
  /\ forall key : string,
       read_record <$> Runtime.kv w' !! key = read_record <$> Runtime.kv w !! key.

(** The network a record is listed under. *)
Definition listed_network (f : Runtime.Facilitator) : string :=
  JS.or_else (Runtime.network f) "avalanche-fuji".

(** A request of the creator of the sample facilitator to delete it, the
    address written in capitals. *)
Definition delete_by_creator : DeleteRoute.Request :=
  {| DeleteRoute.facilitatorId := Some "fac_1";
     DeleteRoute.userAddress := Some "0x00000000000000000000000000000000000000C3" |}.

(** ** The default facilitator *)

(** The network a request to the default facilitator is settled on. *)
Definition default_network (request : SettleDefault.Request) : string :=
  match SettleDefault.network request with
  | Some network => network
  | None => "avalanche-fuji"
  end.

(** The key the default facilitator signs with on a network: the one
    configured for the network, else the generic one. *)
Definition default_key (env : JS.Env) (network : string) : option string :=
  if JS.falsy_str (env ("DEFAULT_FACILITATOR_PRIVATE_KEY_"
                        ++ Contracts.upper_snake network))
  then env "DEFAULT_FACILITATOR_PRIVATE_KEY"
  else env ("DEFAULT_FACILITATOR_PRIVATE_KEY_" ++ Contracts.upper_snake network).

(** The body a client posts to the default facilitator for an exact
    payload and a network. *)
Definition default_request (exact : ExactPayload.X402ExactPayload)
    (network : string) : SettleDefault.Request :=
  {| SettleDefault.paymentPayload :=
       Some {| SettleDefault.payload := Some (ExactPayload.payload exact) |};
     SettleDefault.network := Some network |}.

(** An environment with a generic key for the default facilitator and a
    key of its own for Base Sepolia, whose token address is configured. *)
Definition default_env : JS.Env :=
  fun k =>
    if String.eqb k "DEFAULT_FACILITATOR_PRIVATE_KEY" then Some "generic-key"
    else if String.eqb k "DEFAULT_FACILITATOR_PRIVATE_KEY_BASE_SEPOLIA"
    then Some "base-key"
    else base_env k.

Definition sample_authorization : ERC3009.TransferWithAuthorization :=
  {| ERC3009.from := "0x00000000000000000000000000000000000000a1";
     ERC3009.to := "0x00000000000000000000000000000000000000b2";
     ERC3009.value := 1000000;
     ERC3009.validAfter := 1699999940;
     ERC3009.validBefore := 1700000300;
     ERC3009.nonce := ERC3009.generateNonce (repeat Byte.x2a 32) |}.

Definition sample_signature : string :=
  "0x" ++ Double.zeros 64 ++ Double.zeros 64 ++ "1c".

Definition sample_exact : ExactPayload.X402ExactPayload :=
  {| ExactPayload.x402Version := 1;
     ExactPayload.scheme := "exact";
     ExactPayload.network := "avalanche-fuji";
     ExactPayload.payload :=
       ERC3009.signedAuthorizationToJSON
         (ERC3009.createSignedAuthorization sample_authorization
            sample_signature) |}.

(** ** Accounts: the record a new facilitator is derived from *)

(** The entry [info] of a listing stands, in the world [w], for a migrated
    record created by [address]. *)
Definition account_of (address : string) (w : Runtime.World)
    (info : Listing.PublicFacilitatorInfo) : Prop :=
  exists base,
    Runtime.kv w !! key_of (Listing.id info) = Some base
    /\ legacy_record base = false
    /\ same_address (Runtime.createdBy base) address = true.

(** A registration service that accepts every payment and always draws
    the same sixteen characters. *)
#[export] Instance open_registration : CreateFromExisting.Registration :=
  {| CreateFromExisting.verifyRegistrationPayment := fun _ _ _ _ =>
       inr {| CreateFromExisting.valid := true;
              CreateFromExisting.error := "" |};
     CreateFromExisting.nanoid := fun _ _ => "AbCdEfGhIjKlMnOp" |}.


(** The same request for the network name [toString]. *)
Definition inherited_network : CreateFromExisting.Request :=
  {| CreateFromExisting.name := Some "second";
     CreateFromExisting.password := Some "secret";
     CreateFromExisting.paymentRecipient :=
       Some "0x00000000000000000000000000000000000000b2";
     CreateFromExisting.createdBy :=
       Some "0x00000000000000000000000000000000000000C3";
     CreateFromExisting.registrationTxHash := Some "0xreg2";
     CreateFromExisting.network := Some "toString";
     CreateFromExisting.chainId := Some 1 |}.

(** A formatter that prints the balance in wei with its unit, standing in
    for [formatEther]. *)
#[export] Instance wei_format : BalanceRoute.Format :=
  {| BalanceRoute.formatEther := fun balance =>
       JS.bigint_toString balance ++ " wei" |}.

(** * Properties *)

(** ** Network registry *)

Lemma assoc_In {A : Type} (k : string) (l : list (string * A)) (x : A) :
  JS.assoc k l = Some x -> In (k, x) l.
Proof.
  induction l as [|[k' y] l IH]; simpl; [discriminate|].
  destruct (String.eqb_spec k k') as [->|Hne].
  - intros [= ->]. now left.
  - intros H. right. now apply IH.
Qed.

Lemma registry_entries_consistent (env : JS.Env) :
  Forall (fun entry : string * Networks.NetworkConfig =>
            domain_matches (snd entry))
         (Networks.NETWORK_CONFIGS env).
Proof.
  unfold Networks.NETWORK_CONFIGS.
  repeat (constructor; [split; reflexivity|]).
  constructor.
Qed.

(** C2.  Whatever the environment overrides, every registered network has a
    signing domain whose chain id is the id of its chain and whose verifying
    contract is its configured USDC address. *)
Theorem registry_self_consistent
    (env : JS.Env) (networkName : string) (config : Networks.NetworkConfig) :
  Networks.getNetworkConfig env networkName = inr config ->
  Networks.chainId (Networks.erc3009Domain config)
    = Networks.id (Networks.chain config)
  /\ Networks.verifyingContract (Networks.erc3009Domain config)
     = Networks.usdcAddress config.
Proof.
  unfold Networks.getNetworkConfig, Networks.lookup, Networks.entry.
  destruct (JS.assoc networkName (Networks.NETWORK_CONFIGS env)) as [c|] eqn:Hc;
    [|destruct (JS.inherited networkName); discriminate].
  intros [= <-]. apply assoc_In in Hc.
  exact (proj1 (List.Forall_forall _ _) (registry_entries_consistent env) _ Hc).
Qed.

Lemma registry_self_consistent_witness :
  Networks.getNetworkConfig base_override "base-sepolia" = inr base_overridden
  /\ Networks.chainId (Networks.erc3009Domain base_overridden)
     = Networks.id (Networks.chain base_overridden)
  /\ Networks.verifyingContract (Networks.erc3009Domain base_overridden)
     = Networks.usdcAddress base_overridden.
Proof.
  split; [reflexivity|].
  apply (registry_self_consistent base_override "base-sepolia").
  reflexivity.
Defined.

(** ** Authorization codec *)

Lemma parseDecimal_toString (n : Z) :
  ERC3009.parseDecimal (ERC3009.toString n) = Some n.
Proof.
  unfold ERC3009.parseDecimal, ERC3009.toString, JS.bigint_toString.
  rewrite NilZero.isi.
  - simpl. now rewrite DecimalZ.of_to.
  - destruct n as [|p|p]; simpl; try discriminate.
    intros [= Hp]. now apply (DecimalPos.Unsigned.to_uint_nonnil p).
  - destruct n as [|p|p]; simpl; try discriminate.
    intros [= Hp]. now apply (DecimalPos.Unsigned.to_uint_nonnil p).
Qed.

(** C8.  Reading the wire form of a signed authorization back gives the
    authorization it was made from: the three integers survive the decimal
    strings exactly, and addresses, nonce and signature are carried
    unchanged. *)
Theorem wire_form_round_trip (signedAuth : ERC3009.SignedAuthorization) :
  ERC3009.signedAuthorizationFromJSON
    (ERC3009.signedAuthorizationToJSON signedAuth) = Some signedAuth
  /\ ERC3009.signature (ERC3009.signedAuthorizationToJSON signedAuth)
     = ERC3009.signature signedAuth
  /\ ERC3009.from (ERC3009.authorization (ERC3009.signedAuthorizationToJSON signedAuth))
     = ERC3009.from (ERC3009.authorization signedAuth)
  /\ ERC3009.to (ERC3009.authorization (ERC3009.signedAuthorizationToJSON signedAuth))
     = ERC3009.to (ERC3009.authorization signedAuth)
  /\ ERC3009.nonce (ERC3009.authorization (ERC3009.signedAuthorizationToJSON signedAuth))
     = ERC3009.nonce (ERC3009.authorization signedAuth).
Proof.
  split; [|repeat split].
  destruct signedAuth as [sig [f t v va vb n]].
  unfold ERC3009.signedAuthorizationFromJSON, ERC3009.signedAuthorizationToJSON.
  cbn [ERC3009.authorization ERC3009.signature ERC3009.value
       ERC3009.validAfter ERC3009.validBefore ERC3009.from ERC3009.to
       ERC3009.nonce].
  now rewrite !parseDecimal_toString.
Qed.

(** C7.  When the network resolves and the amount parses,
    [createTransferAuthorization] returns an authorization whose validity
    window is the configured 300 seconds plus the 60 seconds of clock-skew
    allowance, and whose sender, recipient and value are fixed by the
    arguments alone: the clock and the random bytes only reach the two
    timestamps and the nonce. *)
Theorem createTransferAuthorization_window `{ERC3009.Viem}
    (env : JS.Env) (now_ms : Z) (random32 : list Byte.byte)
    (from to amountUSDC : string) (network : option string)
    (config : X402.Config) (value : Z) :
  X402.getX402Config env network = inr config ->
  ERC3009.parseUnits amountUSDC (X402.USDC_DECIMALS config) = inr value ->
  exists authorization,
    ERC3009.createTransferAuthorization env now_ms random32
      from to amountUSDC network = inr authorization
    /\ ERC3009.validBefore authorization - ERC3009.validAfter authorization
       = X402.TIMEOUT_SECONDS config + 60
    /\ X402.TIMEOUT_SECONDS config = 300
    /\ ERC3009.from authorization = from
    /\ ERC3009.to authorization = to
    /\ ERC3009.value authorization = value
    /\ ERC3009.validAfter authorization = now_ms / 1000 - 60
    /\ ERC3009.nonce authorization = ERC3009.generateNonce random32.
Proof.
  intros Hconfig Hvalue.
  unfold ERC3009.createTransferAuthorization.
  rewrite Hconfig, Hvalue.
  eexists. split; [reflexivity|]. cbn.
  assert (Htimeout : X402.TIMEOUT_SECONDS config = 300).
  { unfold X402.getX402Config in Hconfig.
    destruct (Networks.getNetworkEntry env _); [discriminate|].
    injection Hconfig as <-. reflexivity. }
  repeat split; try assumption; lia.
Qed.

Lemma createTransferAuthorization_window_witness :
  X402.getX402Config Samples.env None = inr fuji_config
  /\ ERC3009.parseUnits (Viem := Samples.viem)
       "2.50" (X402.USDC_DECIMALS fuji_config) = inr 2500000
  /\ exists authorization,
       ERC3009.createTransferAuthorization (H := Samples.viem)
         Samples.env 1700000000123 []
         "0x00000000000000000000000000000000000000a1"
         "0x00000000000000000000000000000000000000b2" "2.50" None
       = inr authorization
       /\ ERC3009.validBefore authorization - ERC3009.validAfter authorization
          = X402.TIMEOUT_SECONDS fuji_config + 60
       /\ X402.TIMEOUT_SECONDS fuji_config = 300
       /\ ERC3009.from authorization = "0x00000000000000000000000000000000000000a1"
       /\ ERC3009.to authorization = "0x00000000000000000000000000000000000000b2"
       /\ ERC3009.value authorization = 2500000
       /\ ERC3009.validAfter authorization = 1700000000123 / 1000 - 60
       /\ ERC3009.nonce authorization = ERC3009.generateNonce [].
Proof.
  split; [reflexivity|]. split; [reflexivity|].
  apply (createTransferAuthorization_window (H := Samples.viem)
           Samples.env 1700000000123 [] _ _ "2.50" None fuji_config 2500000);
    reflexivity.
Defined.

(** ** Facilitator storage *)

Section StorageFacts.

Import Runtime.

Lemma getFacilitator_found (id : string) (f : Facilitator) (w : World) :
  kv w !! key_of id = Some f ->
  Storage.getFacilitator id w = (Ok (Some (read_record f)), read_world id f w).
Proof.
  intros Hf. unfold Storage.getFacilitator, bind, redis_get.
  fold (key_of id). rewrite Hf.
  unfold read_record, read_world, legacy_record.
  destruct (JS.falsy_str (network f) || JS.falsy_num (chainId f)); reflexivity.
Qed.

Lemma getFacilitator_missing (id : string) (w : World) :
  kv w !! key_of id = None ->
  Storage.getFacilitator id w = (Ok None, w).
Proof.
  intros Hf. unfold Storage.getFacilitator, bind, redis_get.
  fold (key_of id). now rewrite Hf.
Qed.

Lemma migrated_not_legacy (f : Facilitator) : legacy_record (migrated f) = false.
Proof. reflexivity. Qed.

Lemma read_record_not_legacy (f : Facilitator) :
  legacy_record (read_record f) = false.
Proof.
  unfold read_record. destruct (legacy_record f) eqn:Hf; [reflexivity | exact Hf].
Qed.

Lemma read_world_lookup (id : string) (f : Facilitator) (w : World) :
  kv w !! key_of id = Some f ->
  kv (read_world id f w) !! key_of id = Some (read_record f).
Proof.
  intros Hf. unfold read_world, read_record.
  destruct (legacy_record f); [apply lookup_insert_eq | exact Hf].
Qed.

Lemma read_world_chain (id : string) (f : Facilitator) (w : World) :
  chain (read_world id f w) = chain w.
Proof. unfold read_world. now destruct (legacy_record f). Qed.

Lemma read_world_clock (id : string) (f : Facilitator) (w : World) :
  clock (read_world id f w) = clock w.
Proof. unfold read_world. now destruct (legacy_record f). Qed.

Lemma read_world_events (id : string) (f : Facilitator) (w : World) :
  events (read_world id f w) = events w.
Proof. unfold read_world. now destruct (legacy_record f). Qed.

(** C6.  The first read of a record without network or chain id returns it
    bound to avalanche-fuji (43113) and stores that record with one [SET];
    reading again returns the same record and leaves the world, and so the
    list of writes, as it is. *)
Theorem getFacilitator_migrates_once
    (w : World) (id : string) (f : Facilitator) :
  kv w !! (REDIS_KEY_PREFIX ++ id) = Some f ->
  JS.falsy_str (network f) || JS.falsy_num (chainId f) = true ->
  exists f' w',
    Storage.getFacilitator id w = (Ok (Some f'), w')
    /\ f' = with_network (Some "avalanche-fuji") (Some 43113) f
    /\ network f' = Some "avalanche-fuji"
    /\ chainId f' = Some 43113
    /\ kv w' !! (REDIS_KEY_PREFIX ++ id) = Some f'
    /\ writes w' = (writes w ++ [SET (REDIS_KEY_PREFIX ++ id) f'])%list
    /\ Storage.getFacilitator id w' = (Ok (Some f'), w').
Proof.
  intros Hf Hlegacy. fold (key_of id) in *.
  exists (migrated f), (read_world id f w).
  assert (Hw : kv (read_world id f w) !! key_of id = Some (migrated f)).
  { rewrite (read_world_lookup _ _ _ Hf). unfold read_record, legacy_record.
    now rewrite Hlegacy. }
  split.
  { rewrite (getFacilitator_found _ _ _ Hf). unfold read_record, legacy_record.
    now rewrite Hlegacy. }
  repeat split; try assumption.
  - unfold read_world, legacy_record. now rewrite Hlegacy.
  - rewrite (getFacilitator_found _ _ _ Hw).
    unfold read_record, read_world. now rewrite migrated_not_legacy.
Qed.

End StorageFacts.

Lemma getFacilitator_migrates_once_witness :
  Runtime.kv Samples.world !! (Runtime.REDIS_KEY_PREFIX ++ "fac_old")
    = Some Samples.legacy
  /\ JS.falsy_str (Runtime.network Samples.legacy)
     || JS.falsy_num (Runtime.chainId Samples.legacy) = true
  /\ exists f' w',
       Storage.getFacilitator "fac_old" Samples.world = (Runtime.Ok (Some f'), w')
       /\ f' = Runtime.with_network (Some "avalanche-fuji") (Some 43113)
                 Samples.legacy
       /\ Runtime.network f' = Some "avalanche-fuji"
       /\ Runtime.chainId f' = Some 43113
       /\ Runtime.kv w' !! (Runtime.REDIS_KEY_PREFIX ++ "fac_old") = Some f'
       /\ Runtime.writes w'
          = (Runtime.writes Samples.world
             ++ [Runtime.SET (Runtime.REDIS_KEY_PREFIX ++ "fac_old") f'])%list
       /\ Storage.getFacilitator "fac_old" w' = (Runtime.Ok (Some f'), w').
Proof.
  assert (Hstored :
            Runtime.kv Samples.world !! (Runtime.REDIS_KEY_PREFIX ++ "fac_old")
            = Some Samples.legacy) by (vm_compute; reflexivity).
  split; [exact Hstored|]. split; [reflexivity|].
  apply (getFacilitator_migrates_once Samples.world "fac_old" Samples.legacy
           Hstored).
  reflexivity.
Defined.

Section PaymentFacts.

Import Runtime.

Lemma storeFacilitator_run (f : Facilitator) (w : World) :
  Storage.storeFacilitator f w = (Ok tt, stored_world f w).
Proof.
  unfold Storage.storeFacilitator, bind, redis_set, redis_sadd, stored_world, key_of.
  cbn. now rewrite <- app_assoc.
Qed.

Lemma recordPayment_found (id : string) (f : Facilitator) (w : World) :
  kv w !! key_of id = Some f ->
  Storage.recordPayment id w
  = (Ok tt, stored_world (paid (clock w) f) (read_world id f w)).
Proof.
  intros Hf. unfold Storage.recordPayment.
  unfold bind at 1. rewrite (getFacilitator_found _ _ _ Hf).
  unfold bind, date_now. rewrite storeFacilitator_run.
  now rewrite read_world_clock.
Qed.

Lemma updateFacilitatorStatus_found
    (id : string) (s : Status) (f : Facilitator) (w : World) :
  kv w !! key_of id = Some f ->
  Storage.updateFacilitatorStatus id s w
  = (Ok tt, stored_world (with_status s (read_record f)) (read_world id f w)).
Proof.
  intros Hf. unfold Storage.updateFacilitatorStatus.
  unfold bind at 1. rewrite (getFacilitator_found _ _ _ Hf).
  apply storeFacilitator_run.
Qed.

Lemma key_of_inj (a b : string) : key_of a = key_of b -> a = b.
Proof.
  unfold key_of, REDIS_KEY_PREFIX. cbv [String.append].
  intros Heq. now injection Heq.
Qed.

Lemma consistent_id (w : World) (id : string) (f : Facilitator) :
  consistent w -> kv w !! key_of id = Some f -> Runtime.id f = id.
Proof. intros Hw Hf. symmetry. exact (key_of_inj _ _ (Hw _ _ Hf)). Qed.

(** The storage functions keep the store consistent. *)
Lemma stored_world_consistent (f : Facilitator) (w : World) :
  consistent w -> consistent (stored_world f w).
Proof.
  intros Hw key g. unfold stored_world. cbn [kv].
  destruct (decide (key_of (Runtime.id f) = key)) as [<-|Hne].
  - rewrite lookup_insert_eq. now intros [= <-].
  - rewrite lookup_insert_ne by exact Hne. apply Hw.
Qed.

Lemma read_world_consistent (id : string) (f : Facilitator) (w : World) :
  consistent w -> kv w !! key_of id = Some f -> consistent (read_world id f w).
Proof.
  intros Hw Hf key g. unfold read_world.
  destruct (legacy_record f); [|apply Hw]. cbn [kv].
  destruct (decide (key_of id = key)) as [<-|Hne].
  - rewrite lookup_insert_eq. intros [= <-]. exact (Hw _ _ Hf).
  - rewrite lookup_insert_ne by exact Hne. apply Hw.
Qed.

Lemma recordPayment_consistent (id : string) (w : World)
    (r : Result unit) (w' : World) :
  consistent w -> Storage.recordPayment id w = (r, w') -> consistent w'.
Proof.
  intros Hw. destruct (kv w !! key_of id) as [f|] eqn:Hf.
  - rewrite (recordPayment_found _ _ _ Hf). intros [= <- <-].
    apply stored_world_consistent. now apply read_world_consistent.
  - unfold Storage.recordPayment, bind.
    rewrite (getFacilitator_missing _ _ Hf). now intros [= <- <-].
Qed.

End PaymentFacts.

(** ** Single settlement: the token contract address *)

Section TokenAddress.

Import Runtime.
Context `{Externals}.

Lemma usable_truthy (v : JS.JVal) (a : string) :
  SettleCustom.usable v = Some a -> JS.truthy a = true.
Proof.
  destruct v as [| |b|n|m e|str|xs|fields]; try discriminate.
  unfold SettleCustom.usable.
  destruct (negb (String.eqb str "0x")) eqn:Hx; [|discriminate].
  destruct (42 <=? JS.length str)%nat eqn:Hlen; [|discriminate].
  intros [= <-].
  destruct str; [discriminate Hlen | reflexivity].
Qed.

Lemma finalUsdcAddress_first_usable (request : SettleCustom.Request)
    (payload : SettleCustom.PaymentPayload) (registryAddress : string) :
  SettleCustom.finalUsdcAddress request payload registryAddress
  = first_usable (request_sources request payload) registryAddress.
Proof.
  unfold SettleCustom.finalUsdcAddress, SettleCustom.candidateAddresses,
    request_sources.
  cbn [omap list_omap first_usable].
  repeat match goal with
         | |- context [SettleCustom.usable ?v] =>
             lazymatch v with
             | JS.JStr registryAddress => fail
             | _ =>
                 let Hu := fresh "Hu" in
                 destruct (SettleCustom.usable v) eqn:Hu;
                 [cbn; now rewrite (usable_truthy _ _ Hu)|]
             end
         end.
  destruct (SettleCustom.usable (JS.JStr registryAddress)) as [a|] eqn:Hr;
    [|reflexivity].
  assert (Ha : a = registryAddress).
  { unfold SettleCustom.usable in Hr.
    destruct (negb (String.eqb registryAddress "0x")
              && (42 <=? JS.length registryAddress)%nat);
      [now injection Hr | discriminate]. }
  subst a. cbn. now destruct (JS.truthy registryAddress).
Qed.

Lemma send_run (call : TxCall) (w : World) :
  exists r,
    send call w
    = (r, {| kv := kv w; active_set := active_set w; writes := writes w;
             chain := (chain w
                       ++ [(call, transferWithAuthorization (chain w) call)])%list;
             events := events w; clock := clock w |})
    /\ match transferWithAuthorization (chain w) call with
       | SubmitThrows message => r = Throw message
       | WaitThrows _ message => r = Throw message
       | Mined hash receipt => r = Ok (hash, receipt)
       end.
Proof.
  unfold send. destruct (transferWithAuthorization (chain w) call);
    eexists; split; reflexivity.
Qed.

(** C5, as the route has it.  A single settlement that reaches the chain
    sends its call to the first usable address among five sources, in this
    order: the request's [usdcAddress], its [contractAddress], its
    [verifyingContract], the [verifyingContract] of the payload's signing
    domain, and last the default of the contract registry.  A settlement
    reaches the chain when both registries hold the resolved network; a
    request that names a member of [Object.prototype] resolves to that
    name, for which the contract registry throws. *)
Theorem settle_custom_token_address
    (env : JS.Env) (request : SettleCustom.Request) (w : World)
    (id : string) (payload : SettleCustom.PaymentPayload) (f : Facilitator)
    (networkConfig : Networks.NetworkConfig)
    (usdcContractConfig : Contracts.USDCContract)
    (masterKey privateKey wallet : string) :
  SettleCustom.facilitatorId request = Some id ->
  JS.truthy id = true ->
  SettleCustom.paymentPayload request = Some payload ->
  kv w !! key_of id = Some f ->
  Networks.getNetworkConfig env
    (SettleCustom.resolveNetwork env request (read_record f))
    = inr networkConfig ->
  Contracts.getUSDCContract env
    (SettleCustom.resolveNetwork env request (read_record f))
    = inr usdcContractConfig ->
  env "SYSTEM_MASTER_KEY" = Some masterKey ->
  JS.truthy masterKey = true ->
  decryptPrivateKey (systemEncryptedKey f) masterKey = inr privateKey ->
  walletAddress privateKey = inr wallet ->
  exists response w' call outcome,
    SettleCustom.POST env request w = (Ok response, w')
    /\ chain w' = (chain w ++ [(call, outcome)])%list
    /\ contractAddress call
       = first_usable (request_sources request payload)
           (Contracts.address usdcContractConfig).
Proof.
  intros Hid Htruthy Hpayload Hf Hnet Husdc Hkey Hkeyt Hdec Hwallet.
  unfold SettleCustom.POST, try_catch.
  rewrite Hid, Hpayload, Htruthy. cbn [negb].
  unfold bind at 1. rewrite (getFacilitator_found _ _ _ Hf).
  unfold bind at 1. rewrite Hnet. cbn [lift ret].
  unfold bind at 1. rewrite Husdc. cbn [lift ret].
  unfold bind at 1. cbn [Networks.entry_of lift ret].
  rewrite Hkey, Hkeyt. cbn [negb].
  assert (Hsys : systemEncryptedKey (read_record f) = systemEncryptedKey f).
  { unfold read_record. now destruct (legacy_record f). }
  rewrite Hsys.
  unfold bind at 1. rewrite Hdec. cbn [lift ret].
  unfold bind at 1. rewrite Hwallet. cbn [lift ret].
  rewrite finalUsdcAddress_first_usable.
  set (call := Signature.call_of _ _ _ _).
  assert (Hcall : contractAddress call
                  = first_usable (request_sources request payload)
                      (Contracts.address usdcContractConfig)).
  { unfold call, Signature.call_of.
    destruct (Signature.split _) as [[v0 r0] s0]. reflexivity. }
  destruct (send_run call (read_world id f w)) as (r & Hsend & Hr).
  rewrite read_world_chain in Hsend.
  unfold bind at 1. rewrite Hsend.
  destruct (transferWithAuthorization (chain (read_world id f w)) call)
    as [message|hash message|hash receipt] eqn:Hout; subst r.
  - eexists _, _, call, _. split; [reflexivity|]. split; [|exact Hcall].
    cbn. reflexivity.
  - eexists _, _, call, _. split; [reflexivity|]. split; [|exact Hcall].
    cbn. reflexivity.
  - unfold bind at 1.
    match goal with
    | |- context [Storage.recordPayment id ?w1] =>
        assert (Hpaid : kv w1 !! key_of id = Some (read_record f))
          by (cbn; now apply read_world_lookup);
        rewrite (recordPayment_found id _ w1 Hpaid)
    end.
    unfold bind, logEvent, ret.
    eexists _, _, call, _. split; [reflexivity|]. split; [|exact Hcall].
    cbn. unfold read_world at 1.
    destruct (legacy_record (read_record f)); cbn; reflexivity.
Qed.

End TokenAddress.

Lemma sample_fac_stored :
  Runtime.kv Samples.world !! key_of "fac_1" = Some Samples.fac.
Proof. vm_compute. reflexivity. Defined.

Lemma settle_custom_token_address_witness :
  exists response w' call outcome,
    SettleCustom.POST (H := Samples.externals) Samples.env
      request_by_verifying Samples.world = (Runtime.Ok response, w')
    /\ Runtime.chain w' = (Runtime.chain Samples.world ++ [(call, outcome)])%list
    /\ Runtime.contractAddress call
       = first_usable
           (request_sources request_by_verifying
              (payload_of request_by_verifying))
           (Contracts.address fuji_usdc).
Proof.
  apply (settle_custom_token_address (H := Samples.externals)
           Samples.env request_by_verifying Samples.world "fac_1"
           (payload_of request_by_verifying) Samples.fac
           fuji_network fuji_usdc "master-secret" "key-of-system-box"
           "0x00000000000000000000000000000000000000f1");
    solve [reflexivity | exact sample_fac_stored].
Defined.

(** C5 as stated fails: with neither [usdcAddress] nor [contractAddress] in
    the request, the call does not go to the registry default but to the
    address found in a fourth place, the request's [verifyingContract]. *)
Lemma token_address_three_sources_counterexample :
  exists response w' call outcome,
    SettleCustom.POST (H := Samples.externals) Samples.env
      request_by_verifying Samples.world = (Runtime.Ok response, w')
    /\ Runtime.chain w' = [(call, outcome)]
    /\ SettleCustom.usdcAddress request_by_verifying = JS.JUndefined
    /\ SettleCustom.contractAddress request_by_verifying = JS.JUndefined
    /\ Contracts.getUSDCContract Samples.env "avalanche-fuji" = inr fuji_usdc
    /\ Runtime.contractAddress call = other_token
    /\ Runtime.contractAddress call <> Contracts.address fuji_usdc.
Proof.
  destruct (SettleCustom.POST (H := Samples.externals) Samples.env
              request_by_verifying Samples.world) as [r w'] eqn:Hrun.
  vm_compute in Hrun. injection Hrun as <- <-.
  eexists _, _, _, _. split; [reflexivity|]. cbn [Runtime.chain].
  split; [reflexivity|]. repeat split. discriminate.
Qed.

(** ** Rounding to doubles and the deactivation threshold *)

Section DoubleFacts.

(** [round_half_even] rounds to a nearest integer: the result is within
    half a unit of [n / d]. *)
Lemma round_half_even_nearest (n d : Z) :
  0 < d -> 2 * Z.abs (n - Double.round_half_even n d * d) <= d.
Proof.
  intros Hd. unfold Double.round_half_even.
  pose proof (Z.div_mod n d ltac:(lia)) as Hdm.
  pose proof (Z.mod_pos_bound n d Hd) as Hr.
  destruct (Z.compare_spec (2 * (n mod d)) d) as [He|Hl|Hg];
    [destruct (Z.even (n / d))|..]; nia.
Qed.

Lemma round_half_even_lower (n d k : Z) :
  0 < d -> k * d <= n -> k <= Double.round_half_even n d.
Proof.
  intros Hd Hk. unfold Double.round_half_even.
  assert (Hq : k <= n / d) by (apply Z.div_le_lower_bound; lia).
  destruct (2 * (n mod d) ?= d); [destruct (Z.even (n / d))|..]; lia.
Qed.

Lemma round_half_even_upper (n d k : Z) :
  0 < d -> n <= k * d -> Double.round_half_even n d <= k.
Proof.
  intros Hd Hk. unfold Double.round_half_even.
  pose proof (Z.div_mod n d ltac:(lia)) as Hdm.
  pose proof (Z.mod_pos_bound n d Hd) as Hr.
  assert (Hq : n / d <= k) by (apply Z.div_le_upper_bound; lia).
  destruct (Z.compare_spec (2 * (n mod d)) d) as [He|Hl|Hg];
    [destruct (Z.even (n / d))|..]; try lia.
  - assert (n / d < k) by nia. lia.
  - assert (n / d < k) by nia. lia.
Qed.

Lemma round_half_even_mono (n1 n2 d : Z) :
  0 < d -> n1 <= n2 ->
  Double.round_half_even n1 d <= Double.round_half_even n2 d.
Proof.
  intros Hd Hn.
  pose proof (Z.div_le_mono n1 n2 d Hd Hn) as Hq.
  pose proof (Z.div_mod n1 d ltac:(lia)) as Hdm1.
  pose proof (Z.div_mod n2 d ltac:(lia)) as Hdm2.
  pose proof (Z.mod_pos_bound n1 d Hd) as Hr1.
  pose proof (Z.mod_pos_bound n2 d Hd) as Hr2.
  unfold Double.round_half_even.
  destruct (Z.eq_dec (n1 / d) (n2 / d)) as [Heq|Hne].
  - rewrite Heq in *.
    assert (Hr : n1 mod d <= n2 mod d) by nia.
    destruct (Z.compare_spec (2 * (n1 mod d)) d);
      destruct (Z.compare_spec (2 * (n2 mod d)) d);
      destruct (Z.even (n2 / d)); lia.
  - destruct (Z.compare_spec (2 * (n1 mod d)) d);
      destruct (Z.compare_spec (2 * (n2 mod d)) d);
      destruct (Z.even (n1 / d)); destruct (Z.even (n2 / d)); lia.
Qed.

Lemma scaled_nonneg (n d e : Z) :
  0 <= e -> Double.scaled n d e = (n, d * 2 ^ e).
Proof.
  intros He. unfold Double.scaled.
  destruct (Z.leb_spec 0 e); [reflexivity | lia].
Qed.

Lemma scaled_neg (n d e : Z) :
  e < 0 -> Double.scaled n d e = (n * 2 ^ (- e), d).
Proof.
  intros He. unfold Double.scaled.
  destruct (Z.leb_spec 0 e); [lia | reflexivity].
Qed.

(** The exponent chosen for [n / d] puts the scaled fraction in
    [[2^52, 2^53)]. *)
Lemma exponent_spec (n d : Z) :
  0 < n -> 0 < d ->
  0 < snd (Double.scaled n d (Double.exponent n d))
  /\ 2 ^ 52 * snd (Double.scaled n d (Double.exponent n d))
     <= fst (Double.scaled n d (Double.exponent n d))
  /\ fst (Double.scaled n d (Double.exponent n d))
     < 2 ^ 53 * snd (Double.scaled n d (Double.exponent n d)).
Proof.
  intros Hn Hd.
  pose proof (Z.log2_spec n Hn) as [Hn1 Hn2].
  pose proof (Z.log2_spec d Hd) as [Hd1 Hd2].
  pose proof (Z.log2_nonneg n) as Ha.
  pose proof (Z.log2_nonneg d) as Hb.
  rewrite Z.pow_succ_r in Hn2, Hd2 by assumption.
  unfold Double.exponent.
  set (a := Z.log2 n) in *. set (b := Z.log2 d) in *.
  set (e0 := a - b - 52).
  assert (Hq : 0 < 2 ^ b) by (apply Z.pow_pos_nonneg; lia).
  destruct (Z.lt_trichotomy e0 0) as [Hneg|[Hzero|Hpos]].
  - (* e0 < 0 *)
    rewrite (scaled_neg n d e0 Hneg).
    assert (Hp : 0 < 2 ^ (- e0)) by (apply Z.pow_pos_nonneg; lia).
    assert (Hap : 2 ^ a * 2 ^ (- e0) = 2 ^ b * 2 ^ 52).
    { rewrite <- !Z.pow_add_r by lia. f_equal. unfold e0. lia. }
    assert (Hp2 : 2 ^ (- (e0 - 1)) = 2 * 2 ^ (- e0)).
    { replace (- (e0 - 1)) with (Z.succ (- e0)) by lia.
      apply Z.pow_succ_r. lia. }
    assert (Hlo : 2 ^ b * 2 ^ 52 <= n * 2 ^ (- e0)) by nia.
    assert (Hhi : n * 2 ^ (- e0) < 2 * (2 ^ b * 2 ^ 52)) by nia.
    destruct (Z.ltb_spec (n * 2 ^ (- e0)) (d * 2 ^ 52)) as [Hlt|Hge].
    + rewrite (scaled_neg n d (e0 - 1)) by lia. cbn [fst snd].
      rewrite Hp2. lia.
    + rewrite (scaled_neg n d e0 Hneg). cbn [fst snd]. lia.
  - (* e0 = 0 *)
    rewrite (scaled_nonneg n d e0) by lia.
    assert (Hab : 2 ^ a = 2 ^ b * 2 ^ 52).
    { rewrite <- Z.pow_add_r by lia. f_equal. unfold e0 in Hzero. lia. }
    rewrite Hzero. change (2 ^ 0) with 1. rewrite Z.mul_1_r.
    destruct (Z.ltb_spec n (d * 2 ^ 52)) as [Hlt|Hge].
    + rewrite (scaled_neg n d (0 - 1)) by lia. cbn [fst snd].
      change (2 ^ (- (0 - 1))) with 2. lia.
    + rewrite (scaled_nonneg n d 0) by lia. cbn [fst snd].
      change (2 ^ 0) with 1. lia.
  - (* 0 < e0 *)
    rewrite (scaled_nonneg n d e0) by lia.
    assert (Hp : 0 < 2 ^ (e0 - 1)) by (apply Z.pow_pos_nonneg; lia).
    assert (Hp2 : 2 ^ e0 = 2 * 2 ^ (e0 - 1)).
    { replace e0 with (Z.succ (e0 - 1)) at 1 by lia.
      apply Z.pow_succ_r. lia. }
    assert (Hab : 2 ^ a = 2 ^ b * 2 ^ 52 * 2 ^ e0).
    { rewrite <- !Z.pow_add_r by lia. f_equal. unfold e0. lia. }
    rewrite Hp2 in *.
    assert (Hdp : 2 ^ b * 2 ^ (e0 - 1) <= d * 2 ^ (e0 - 1)) by nia.
    assert (Hdp2 : d * 2 ^ (e0 - 1) < 2 * (2 ^ b * 2 ^ (e0 - 1))) by nia.
    destruct (Z.ltb_spec n (d * (2 * 2 ^ (e0 - 1)) * 2 ^ 52)) as [Hlt|Hge].
    + rewrite (scaled_nonneg n d (e0 - 1)) by lia. cbn [fst snd]. nia.
    + rewrite (scaled_nonneg n d e0) by lia. cbn [fst snd].
      rewrite Hp2. nia.
Qed.

(** The mantissa of a rounded positive fraction has 53 bits (or is 2^53,
    the first value of the next binade). *)
Lemma of_ratio_normal (n d : Z) :
  0 < n -> 0 < d ->
  2 ^ 52 <= Double.mant (Double.of_ratio n d) <= 2 ^ 53.
Proof.
  intros Hn Hd. unfold Double.of_ratio.
  destruct (Z.leb_spec n 0) as [|_]; [lia|].
  pose proof (exponent_spec n d Hn Hd) as (Hd1 & Hlo & Hhi).
  destruct (Double.scaled n d (Double.exponent n d)) as [n1 d1].
  cbn [fst snd Double.mant] in *. split.
  - now apply round_half_even_lower.
  - apply round_half_even_upper; lia.
Qed.

Lemma threshold_value :
  CheckAndActivate.DEACTIVATION_THRESHOLD
  = {| Double.mant := 7378697629483821; Double.expo := -66 |}.
Proof. vm_compute. reflexivity. Qed.

(** The status is decided by comparing the balance in wei with 10^14,
    the deactivation threshold of 0.0001 token: the rounding to doubles on
    both sides of the comparison never changes its outcome. *)
Lemma newStatus_threshold (balance : Z) :
  CheckAndActivate.newStatus balance
  = if 10 ^ 14 <? balance then Runtime.active else Runtime.needs_funding.
Proof.
  unfold CheckAndActivate.newStatus, Double.of_wei.
  rewrite threshold_value.
  destruct (Z.leb_spec balance 0) as [Hnonpos|Hpos].
  { unfold Double.of_ratio.
    destruct (Z.leb_spec balance 0) as [_|]; [|lia].
    destruct (Z.ltb_spec (10 ^ 14) balance); [lia | reflexivity]. }
  unfold Double.of_ratio.
  destruct (Z.leb_spec balance 0) as [|_]; [lia|].
  pose proof (exponent_spec balance (10 ^ 18) Hpos eq_refl) as (Hd1 & Hlo & Hhi).
  set (e := Double.exponent balance (10 ^ 18)) in *.
  destruct (Double.scaled balance (10 ^ 18) e) as [n1 d1] eqn:Hs.
  cbn [fst snd] in Hd1, Hlo, Hhi.
  unfold Double.gtb, Double.aligned. cbn [Double.mant Double.expo].
  destruct (Z.ltb_spec (10 ^ 14) balance) as [Hgt|Hle].
  - (* above the threshold *)
    assert (He : -66 <= e).
    { destruct (Z.le_gt_cases (-66) e) as [|Hlow]; [assumption|exfalso].
      rewrite scaled_neg in Hs by lia. injection Hs as <- <-.
      assert (Hp : 2 ^ 67 <= 2 ^ (- e)) by (apply Z.pow_le_mono_r; lia).
      nia. }
    rewrite Z.min_r by lia.
    change (-66 - -66) with 0. change (2 ^ 0) with 1. rewrite Z.mul_1_r.
    destruct (Z.eq_dec e (-66)) as [Heq|Hne].
    + rewrite Heq in *. rewrite scaled_neg in Hs by lia. injection Hs as <- <-.
      change (-66 - -66) with 0. change (2 ^ 0) with 1. rewrite Z.mul_1_r.
      pose proof (round_half_even_mono ((10 ^ 14 + 1) * 2 ^ (- -66))
                    (balance * 2 ^ (- -66)) (10 ^ 18) eq_refl) as Hmono.
      assert (Hat : Double.round_half_even ((10 ^ 14 + 1) * 2 ^ (- -66)) (10 ^ 18)
                    = 7378697629483894) by (vm_compute; reflexivity).
      rewrite Hat in Hmono.
      assert (Hm : 7378697629483894 <= Double.round_half_even
                                         (balance * 2 ^ (- -66)) (10 ^ 18)).
      { apply Hmono. apply Z.mul_le_mono_nonneg_r; [|lia].
        apply Z.pow_nonneg. lia. }
      destruct (Z.ltb_spec 7378697629483821
                  (Double.round_half_even (balance * 2 ^ (- -66)) (10 ^ 18)));
        [reflexivity | lia].
    + pose proof (round_half_even_lower n1 d1 (2 ^ 52) Hd1 Hlo) as Hm.
      assert (Hp : 2 ^ 1 <= 2 ^ (e - -66)) by (apply Z.pow_le_mono_r; lia).
      change (2 ^ 1) with 2 in Hp.
      destruct (Z.ltb_spec 7378697629483821
                  (Double.round_half_even n1 d1 * 2 ^ (e - -66)));
        [reflexivity | nia].
  - (* at or below the threshold *)
    assert (He : e <= -66).
    { destruct (Z.le_gt_cases e (-66)) as [|Hhigh]; [assumption|exfalso].
      destruct (Z.le_gt_cases 0 e) as [Hnn|Hn].
      - rewrite scaled_nonneg in Hs by lia. injection Hs as <- <-.
        assert (Hp : 0 < 2 ^ e) by (apply Z.pow_pos_nonneg; lia).
        nia.
      - rewrite scaled_neg in Hs by lia. injection Hs as <- <-.
        assert (Hp : 2 ^ (- e) <= 2 ^ 65) by (apply Z.pow_le_mono_r; lia).
        nia. }
    rewrite Z.min_l by lia.
    replace (e - e) with 0 by lia. change (2 ^ 0) with 1. rewrite Z.mul_1_r.
    destruct (Z.eq_dec e (-66)) as [Heq|Hne].
    + rewrite Heq in *. rewrite scaled_neg in Hs by lia. injection Hs as <- <-.
      change (-66 - -66) with 0. change (2 ^ 0) with 1. rewrite Z.mul_1_r.
      pose proof (round_half_even_mono (balance * 2 ^ (- -66))
                    (10 ^ 14 * 2 ^ (- -66)) (10 ^ 18) eq_refl) as Hmono.
      assert (Hat : Double.round_half_even (10 ^ 14 * 2 ^ (- -66)) (10 ^ 18)
                    = 7378697629483821) by (vm_compute; reflexivity).
      rewrite Hat in Hmono.
      assert (Hm : Double.round_half_even (balance * 2 ^ (- -66)) (10 ^ 18)
                   <= 7378697629483821).
      { apply Hmono. apply Z.mul_le_mono_nonneg_r; [|lia].
        apply Z.pow_nonneg. lia. }
      destruct (Z.ltb_spec 7378697629483821
                  (Double.round_half_even (balance * 2 ^ (- -66)) (10 ^ 18)));
        [lia | reflexivity].
    + assert (Hup : n1 <= 2 ^ 53 * d1) by lia.
      pose proof (round_half_even_upper n1 d1 (2 ^ 53) Hd1 Hup) as Hm.
      assert (Hp : 2 ^ 1 <= 2 ^ (-66 - e)) by (apply Z.pow_le_mono_r; lia).
      change (2 ^ 1) with 2 in Hp.
      destruct (Z.ltb_spec (7378697629483821 * 2 ^ (-66 - e))
                  (Double.round_half_even n1 d1));
        [nia | reflexivity].
Qed.

End DoubleFacts.

(** ** Funding check *)

Section FundingCheck.

Import Runtime.
Context `{Externals}.

Lemma read_record_status (f : Facilitator) : status (read_record f) = status f.
Proof. unfold read_record. now destruct (legacy_record f). Qed.

Lemma read_record_wallet (f : Facilitator) :
  facilitatorWallet (read_record f) = facilitatorWallet f.
Proof. unfold read_record. now destruct (legacy_record f). Qed.

Lemma read_record_id (f : Facilitator) : Runtime.id (read_record f) = Runtime.id f.
Proof. unfold read_record. now destruct (legacy_record f). Qed.

Lemma read_record_idem (f : Facilitator) :
  read_record (read_record f) = read_record f.
Proof.
  unfold read_record at 1. now rewrite read_record_not_legacy.
Qed.

Lemma read_world_idem (id : string) (f : Facilitator) (w : World) :
  read_world id (read_record f) w = w.
Proof. unfold read_world. now rewrite read_record_not_legacy. Qed.

Lemma Status_eqb_eq (a b : Status) : Status_eqb a b = true <-> a = b.
Proof. destruct a, b; simpl; split; congruence. Qed.

Lemma check_run (recommended : list (string * Double.t)) (env : JS.Env)
    (id : string) (w : World) (f : Facilitator)
    (networkConfig : Networks.NetworkConfig) (balance : Z) :
  JS.truthy id = true ->
  kv w !! key_of id = Some f ->
  Networks.getNetworkConfig env (check_network f) = inr networkConfig ->
  getBalance (chain w) (Networks.rpcUrl networkConfig) (facilitatorWallet f)
    = inr balance ->
  exists response,
    CheckAndActivate.POST_with recommended env (Some id) w
    = (Ok response, check_world id f networkConfig balance w)
    /\ Http.status response = 200
    /\ CheckAndActivate.response_status response
       = JS.JStr (Status_name (CheckAndActivate.newStatus balance)).
Proof.
  intros Htruthy Hf Hnet Hbal.
  unfold CheckAndActivate.POST_with, try_catch.
  rewrite Htruthy. cbn [negb].
  unfold bind at 1. rewrite (getFacilitator_found _ _ _ Hf).
  fold (check_network f). unfold bind at 1. rewrite Hnet. cbn [lift ret].
  unfold bind at 1. cbn [Networks.entry_of lift ret].
  unfold bind at 1, read_balance at 1.
  rewrite read_world_chain, read_record_wallet, Hbal.
  rewrite read_record_status. unfold check_world.
  destruct (Status_eqb (status f) (CheckAndActivate.newStatus balance)) eqn:Hst;
    cbn [negb].
  - unfold bind, ret. eexists. split; [reflexivity|]. split; reflexivity.
  - unfold bind at 1. unfold bind at 1.
    rewrite (updateFacilitatorStatus_found id _ (read_record f))
      by (now apply read_world_lookup).
    rewrite read_record_idem, read_world_idem.
    destruct (CheckAndActivate.newStatus balance) eqn:Hnew;
      unfold bind, ret, logEvent; eexists; split; try reflexivity;
      split; reflexivity.
Qed.

End FundingCheck.

Section FundingClaims.

Import Runtime.
Context `{Externals}.

Lemma check_world_status (id : string) (f : Facilitator)
    (networkConfig : Networks.NetworkConfig) (balance : Z) (w : World) :
  kv w !! key_of id = Some f ->
  Runtime.id f = id ->
  status <$> kv (check_world id f networkConfig balance w) !! key_of id
  = Some (CheckAndActivate.newStatus balance).
Proof.
  intros Hf Hid. unfold check_world.
  destruct (Status_eqb (status f) (CheckAndActivate.newStatus balance)) eqn:Hst.
  - rewrite (read_world_lookup _ _ _ Hf). cbn.
    rewrite read_record_status. f_equal. now apply Status_eqb_eq.
  - assert (Hstored :
              kv (stored_world
                    (with_status (CheckAndActivate.newStatus balance) (read_record f))
                    (read_world id f w)) !! key_of id
              = Some (with_status (CheckAndActivate.newStatus balance) (read_record f))).
    { unfold stored_world. cbn [kv Runtime.id with_status].
      rewrite read_record_id, Hid. apply lookup_insert_eq. }
    destruct (CheckAndActivate.newStatus balance); cbn [log_world kv];
      rewrite Hstored; reflexivity.
Qed.

(** C3.  A funding check that finds the record and reads its balance
    reports and stores the status the deactivation threshold alone decides:
    needs_funding for every balance up to 0.0001 token (10^14 wei, which
    rounds to the threshold itself), active from one wei above it; the
    table of recommended balances changes neither the stored world nor the
    status reported. *)
Theorem funding_status_two_thresholds
    (env : JS.Env) (id : string) (w : World) (f : Facilitator)
    (networkConfig : Networks.NetworkConfig) (balance : Z) :
  JS.truthy id = true ->
  kv w !! key_of id = Some f ->
  Runtime.id f = id ->
  Networks.getNetworkConfig env (check_network f) = inr networkConfig ->
  getBalance (chain w) (Networks.rpcUrl networkConfig) (facilitatorWallet f)
    = inr balance ->
  exists response w',
    CheckAndActivate.POST env (Some id) w = (Ok response, w')
    /\ CheckAndActivate.response_status response
       = JS.JStr (Status_name (CheckAndActivate.newStatus balance))
    /\ status <$> kv w' !! key_of id = Some (CheckAndActivate.newStatus balance)
    /\ CheckAndActivate.newStatus balance
       = (if balance <=? 10 ^ 14 then needs_funding else active)
    /\ (balance = 10 ^ 14 ->
        Double.of_wei balance = CheckAndActivate.DEACTIVATION_THRESHOLD
        /\ CheckAndActivate.newStatus balance = needs_funding)
    /\ (balance = 10 ^ 14 + 1 -> CheckAndActivate.newStatus balance = active)
    /\ forall recommended : list (string * Double.t),
         exists response',
           CheckAndActivate.POST_with recommended env (Some id) w
           = (Ok response', w')
           /\ CheckAndActivate.response_status response'
              = CheckAndActivate.response_status response.
Proof.
  intros Htruthy Hf Hid Hnet Hbal.
  destruct (check_run CheckAndActivate.RECOMMENDED_BALANCES env id w f
              networkConfig balance Htruthy Hf Hnet Hbal)
    as (response & Hrun & _ & Hstatus).
  exists response, (check_world id f networkConfig balance w).
  split; [exact Hrun|]. split; [exact Hstatus|].
  split; [now apply check_world_status|].
  split.
  { rewrite newStatus_threshold.
    destruct (Z.ltb_spec (10 ^ 14) balance), (Z.leb_spec balance (10 ^ 14));
      try reflexivity; lia. }
  split; [intros ->; split; vm_compute; reflexivity|].
  split; [intros ->; vm_compute; reflexivity|].
  intros recommended.
  destruct (check_run recommended env id w f networkConfig balance
              Htruthy Hf Hnet Hbal) as (response' & Hrun' & _ & Hstatus').
  exists response'. split; [exact Hrun'|]. now rewrite Hstatus, Hstatus'.
Qed.

(** C9, as the route has it.  The status write happens exactly when the
    computed status differs from the stored one.  When they are equal the
    check adds nothing to what reading the record does: a record that
    carries its network and chain id is left as it is, with the whole
    world; a legacy record gets the read's migration write and no other.
    When they differ the record is stored with the new status. *)
Theorem status_written_only_on_change
    (env : JS.Env) (id : string) (w : World) (f : Facilitator)
    (networkConfig : Networks.NetworkConfig) (balance : Z) :
  JS.truthy id = true ->
  kv w !! key_of id = Some f ->
  Runtime.id f = id ->
  Networks.getNetworkConfig env (check_network f) = inr networkConfig ->
  getBalance (chain w) (Networks.rpcUrl networkConfig) (facilitatorWallet f)
    = inr balance ->
  exists response w',
    CheckAndActivate.POST env (Some id) w = (Ok response, w')
    /\ (status f = CheckAndActivate.newStatus balance ->
        snd (Storage.getFacilitator id w) = w'
        /\ (legacy_record f = false -> w' = w)
        /\ (legacy_record f = true ->
            writes w' = (writes w ++ [SET (key_of id) (migrated f)])%list))
    /\ (status f <> CheckAndActivate.newStatus balance ->
        kv w' !! key_of id
        = Some (with_status (CheckAndActivate.newStatus balance) (read_record f))
        /\ writes w'
           = (writes (snd (Storage.getFacilitator id w))
              ++ [SET (key_of id)
                      (with_status (CheckAndActivate.newStatus balance)
                                   (read_record f));
                  SADD ACTIVE_LIST_KEY id])%list).
Proof.
  intros Htruthy Hf Hid Hnet Hbal.
  destruct (check_run CheckAndActivate.RECOMMENDED_BALANCES env id w f
              networkConfig balance Htruthy Hf Hnet Hbal)
    as (response & Hrun & _ & _).
  exists response, (check_world id f networkConfig balance w).
  split; [exact Hrun|].
  rewrite (getFacilitator_found _ _ _ Hf). cbn [snd].
  unfold check_world. split.
  - intros Heq. apply Status_eqb_eq in Heq. rewrite Heq.
    split; [reflexivity|]. unfold read_world.
    split; intros ->; reflexivity.
  - intros Hne.
    destruct (Status_eqb (status f) (CheckAndActivate.newStatus balance)) eqn:Hst;
      [now apply Status_eqb_eq in Hst|].
    assert (Hkey : key_of (Runtime.id (with_status (CheckAndActivate.newStatus balance)
                                         (read_record f))) = key_of id).
    { cbn [Runtime.id with_status]. now rewrite read_record_id, Hid. }
    assert (Hidf : Runtime.id (with_status (CheckAndActivate.newStatus balance)
                                 (read_record f)) = id).
    { cbn [Runtime.id with_status]. now rewrite read_record_id. }
    destruct (CheckAndActivate.newStatus balance);
      cbn [log_world kv writes]; unfold stored_world; cbn [kv writes];
      rewrite Hkey, Hidf; (split; [apply lookup_insert_eq | reflexivity]).
Qed.

End FundingClaims.

Lemma funding_status_two_thresholds_witness :
  exists response w',
    CheckAndActivate.POST (H := Samples.externals) Samples.env (Some "fac_1")
      Samples.world = (Runtime.Ok response, w')
    /\ CheckAndActivate.response_status response = JS.JStr "active"
    /\ Runtime.status <$> Runtime.kv w' !! key_of "fac_1" = Some Runtime.active.
Proof.
  destruct (funding_status_two_thresholds (H := Samples.externals)
              Samples.env "fac_1" Samples.world Samples.fac fuji_network
              (10 ^ 14 + 1) eq_refl sample_fac_stored eq_refl eq_refl eq_refl)
    as (response & w' & Hrun & Hreported & Hstored & _ & _ & Hactive & _).
  exists response, w'.
  rewrite (Hactive eq_refl) in Hreported, Hstored.
  split; [exact Hrun|]. split; [exact Hreported | exact Hstored].
Defined.

Lemma sample_legacy_stored :
  Runtime.kv Samples.world !! key_of "fac_old" = Some Samples.legacy.
Proof. vm_compute. reflexivity. Defined.

Lemma status_written_only_on_change_witness :
  exists response w',
    CheckAndActivate.POST (H := Samples.externals) Samples.env (Some "fac_old")
      Samples.world = (Runtime.Ok response, w')
    /\ Runtime.writes w'
       = [Runtime.SET (key_of "fac_old") (migrated Samples.legacy)].
Proof.
  destruct (status_written_only_on_change (H := Samples.externals)
              Samples.env "fac_old" Samples.world Samples.legacy fuji_network
              (10 ^ 14 + 1) eq_refl sample_legacy_stored eq_refl eq_refl eq_refl)
    as (response & w' & Hrun & Hsame & _).
  exists response, w'. split; [exact Hrun|].
  destruct (Hsame eq_refl) as (_ & _ & Hwrites).
  exact (Hwrites eq_refl).
Defined.

(** C9 as stated fails on a legacy record: the computed status (active)
    equals the stored one, yet the check rewrites the stored record, which
    gains a network and a chain id. *)
Lemma status_write_noop_counterexample :
  exists response w',
    CheckAndActivate.POST (H := Samples.externals) Samples.env (Some "fac_old")
      Samples.world = (Runtime.Ok response, w')
    /\ Runtime.kv Samples.world !! key_of "fac_old" = Some Samples.legacy
    /\ CheckAndActivate.response_status response
       = JS.JStr (Runtime.Status_name (Runtime.status Samples.legacy))
    /\ CheckAndActivate.newStatus (10 ^ 14 + 1) = Runtime.status Samples.legacy
    /\ Runtime.writes Samples.world = []
    /\ Runtime.writes w'
       = [Runtime.SET (key_of "fac_old") (migrated Samples.legacy)]
    /\ Runtime.kv w' !! key_of "fac_old" = Some (migrated Samples.legacy)
    /\ Runtime.network (migrated Samples.legacy)
       <> Runtime.network Samples.legacy.
Proof.
  destruct (CheckAndActivate.POST (H := Samples.externals) Samples.env
              (Some "fac_old") Samples.world) as [r w'] eqn:Hrun.
  vm_compute in Hrun. injection Hrun as <- <-.
  eexists _, _. split; [reflexivity|].
  split; [exact sample_legacy_stored|].
  repeat split; try (vm_compute; reflexivity). discriminate.
Qed.

(** ** Batch settlement: the loop over the legs *)

Section BatchLoop.

Import Runtime.
Context `{Externals}.
Local Open Scope list_scope.

Lemma app_cons_snoc {A : Type} (l1 : list A) (x : A) (l2 : list A) :
  l1 ++ x :: l2 = (l1 ++ [x]) ++ l2.
Proof. now rewrite <- app_assoc. Qed.

Lemma legs_app (log : ChainLog) (xs ys : list TxCall) :
  legs log (xs ++ ys)
  = (legs log xs ++ legs (log ++ legs log xs) ys)%list.
Proof.
  revert log. induction xs as [|x xs IH]; intros log; cbn [legs app].
  - now rewrite app_nil_r.
  - rewrite IH. cbn [app]. do 3 f_equal. now rewrite <- app_assoc.
Qed.

Lemma legs_calls (log : ChainLog) (calls : list TxCall) :
  map fst (legs log calls) = calls.
Proof.
  revert log. induction calls as [|c cs IH]; intros log; cbn; [reflexivity|].
  now rewrite IH.
Qed.

Lemma confirmed_hashes_app (a b : ChainLog) :
  confirmed_hashes (a ++ b) = (confirmed_hashes a ++ confirmed_hashes b)%list.
Proof. unfold confirmed_hashes. apply flat_map_app. Qed.

Lemma confirmed_all_mined (entries : ChainLog) :
  forallb mined entries = true ->
  length (confirmed_hashes entries) = length entries.
Proof.
  induction entries as [|[c o] es IH]; [reflexivity|].
  intros Hall. cbn [forallb] in Hall.
  apply andb_true_iff in Hall as [Hm Hrest].
  unfold mined in Hm. cbn [snd] in Hm.
  destruct o as [m|h m|h receipt]; try discriminate.
  change (confirmed_hashes ((c, Mined h receipt) :: es))
    with (h :: confirmed_hashes es).
  cbn [length]. f_equal. now apply IH.
Qed.

Lemma legs_length (log : ChainLog) (calls : list TxCall) :
  length (legs log calls) = length calls.
Proof. now rewrite <- (legs_calls log calls) at 2; rewrite length_map. Qed.

Variables (facilitatorId : string) (facilitator : Facilitator)
          (networkConfig : Networks.NetworkConfig) (privateKey : string).

Local Notation "'loop'" :=
  (SettleBatch.transfers facilitatorId facilitator networkConfig privateKey).
Local Notation "'call_of'" := (batch_call networkConfig privateKey).

(** Whatever the outcomes, the loop touches the chain log and the audit log
    only; it returns normally only if every leg it submitted was mined. *)
Lemma transfers_frame (auths : list ERC3009.SignedAuthorizationJSON) :
  forall (txHashes : list string) (totalGasSpent : Z) (w : World)
         (r : Result (list string * Z)) (w' : World),
    loop auths txHashes totalGasSpent w = (r, w') ->
    kv w' = kv w /\ writes w' = writes w /\ active_set w' = active_set w
    /\ clock w' = clock w
    /\ exists added,
         chain w' = (chain w ++ added)%list
         /\ (forall x, r = Ok x -> forallb mined added = true).
Proof.
  induction auths as [|a auths IH]; intros txHashes gas w r w' Hrun.
  - cbn in Hrun. injection Hrun as <- <-. repeat split.
    exists []. split; [now rewrite app_nil_r | reflexivity].
  - cbn [SettleBatch.transfers] in Hrun. fold (call_of a) in Hrun.
    unfold bind at 1 in Hrun.
    destruct (send_run (call_of a) w) as (r0 & Hsend & Hr0).
    rewrite Hsend in Hrun.
    destruct (transferWithAuthorization (chain w) (call_of a))
      as [message|hash message|hash receipt] eqn:Hout; subst r0.
    + injection Hrun as <- <-. cbn. repeat split.
      eexists. split; [reflexivity | discriminate].
    + injection Hrun as <- <-. cbn. repeat split.
      eexists. split; [reflexivity | discriminate].
    + destruct receipt as [receipt|].
      * unfold bind at 1, logEvent at 1 in Hrun.
        apply IH in Hrun. cbn in Hrun.
        destruct Hrun as (Hkv & Hwr & Hact & Hclk & added & Hchain & Hok).
        repeat split; try assumption.
        exists ((call_of a, Mined hash (Some receipt)) :: added).
        rewrite Hchain, <- app_assoc. split; [reflexivity|].
        intros x Hx. cbn. now apply (Hok x).
      * apply IH in Hrun. cbn in Hrun.
        destruct Hrun as (Hkv & Hwr & Hact & Hclk & added & Hchain & Hok).
        repeat split; try assumption.
        exists ((call_of a, Mined hash None) :: added).
        rewrite Hchain, <- app_assoc. split; [reflexivity|].
        intros x Hx. cbn. now apply (Hok x).
Qed.

(** When every leg is mined the loop returns the hashes in order. *)
Lemma transfers_all_mined (auths : list ERC3009.SignedAuthorizationJSON) :
  forall (txHashes : list string) (totalGasSpent : Z) (w : World),
    forallb mined (legs (chain w) (map call_of auths)) = true ->
    exists totalGasSpent' w',
      loop auths txHashes totalGasSpent w
      = (Ok ((txHashes
              ++ confirmed_hashes (legs (chain w) (map call_of auths)))%list,
             totalGasSpent'), w')
      /\ kv w' = kv w /\ writes w' = writes w /\ active_set w' = active_set w
      /\ clock w' = clock w
      /\ chain w' = (chain w ++ legs (chain w) (map call_of auths))%list.
Proof.
  induction auths as [|a auths IH]; intros txHashes gas w Hall.
  - cbn. eexists _, _. rewrite !app_nil_r. repeat split; reflexivity.
  - cbn [map legs forallb] in Hall.
    apply andb_true_iff in Hall as [Hm Hrest].
    cbn [SettleBatch.transfers map legs]. fold (call_of a).
    unfold bind at 1.
    destruct (send_run (call_of a) w) as (r0 & Hsend & Hr0).
    rewrite Hsend.
    unfold mined in Hm. cbn [snd] in Hm.
    destruct (transferWithAuthorization (chain w) (call_of a))
      as [message|hash message|hash receipt] eqn:Hout; try discriminate.
    subst r0.
    destruct receipt as [receipt|].
    + unfold bind at 1, logEvent at 1.
      match goal with
      | |- context [loop auths ?acc ?g ?w1] =>
          destruct (IH acc g w1) as (gas' & w' & Hrun & Hkv & Hwr & Hact & Hclk & Hchain);
            [exact Hrest|]
      end.
      rewrite Hrun. exists gas', w'. cbn in *.
      rewrite Hchain, <- !app_assoc. repeat split; assumption.
    + match goal with
      | |- context [loop auths ?acc ?g ?w1] =>
          destruct (IH acc g w1) as (gas' & w' & Hrun & Hkv & Hwr & Hact & Hclk & Hchain);
            [exact Hrest|]
      end.
      rewrite Hrun. exists gas', w'. cbn in *.
      rewrite Hchain, <- !app_assoc. repeat split; assumption.
Qed.

(** When the legs of [pre] are mined and the next one fails, the loop
    throws the failure of that leg and submits nothing after it. *)
Lemma transfers_first_failure
    (pre : list ERC3009.SignedAuthorizationJSON)
    (a : ERC3009.SignedAuthorizationJSON)
    (post : list ERC3009.SignedAuthorizationJSON) (message : string) :
  forall (txHashes : list string) (totalGasSpent : Z) (w : World),
    forallb mined (legs (chain w) (map call_of pre)) = true ->
    failure_message
      (transferWithAuthorization
         (chain w ++ legs (chain w) (map call_of pre)) (call_of a))
    = Some message ->
    exists w',
      loop (pre ++ a :: post) txHashes totalGasSpent w = (Throw message, w')
      /\ kv w' = kv w /\ writes w' = writes w /\ active_set w' = active_set w
      /\ clock w' = clock w
      /\ chain w'
         = (chain w ++ legs (chain w) (map call_of (pre ++ [a])))%list.
Proof.
  induction pre as [|p pre IH]; intros txHashes gas w Hall Hfail.
  - cbn [app map legs] in *. rewrite app_nil_r in Hfail.
    cbn [SettleBatch.transfers]. fold (call_of a). unfold bind at 1.
    destruct (send_run (call_of a) w) as (r0 & Hsend & Hr0).
    rewrite Hsend.
    destruct (transferWithAuthorization (chain w) (call_of a))
      as [m|hash m|hash receipt] eqn:Hout; cbn in Hfail; try discriminate;
      injection Hfail as ->; subst r0; eexists; repeat split; reflexivity.
  - cbn [app map legs forallb] in *.
    apply andb_true_iff in Hall as [Hm Hrest].
    cbn [SettleBatch.transfers]. fold (call_of p). unfold bind at 1.
    destruct (send_run (call_of p) w) as (r0 & Hsend & Hr0).
    rewrite Hsend.
    unfold mined in Hm. cbn [snd] in Hm.
    destruct (transferWithAuthorization (chain w) (call_of p))
      as [m|hash m|hash receipt] eqn:Hout; try discriminate.
    subst r0. rewrite app_cons_snoc in Hfail.
    destruct receipt as [receipt|].
    + unfold bind at 1, logEvent at 1.
      match goal with
      | |- context [loop (pre ++ a :: post) ?acc ?g ?w1] =>
          destruct (IH acc g w1) as (w' & Hrun & Hkv & Hwr & Hact & Hclk & Hchain);
            [exact Hrest | exact Hfail |]
      end.
      rewrite Hrun. exists w'. cbn in *.
      rewrite Hchain, <- !app_assoc. repeat split; assumption.
    + match goal with
      | |- context [loop (pre ++ a :: post) ?acc ?g ?w1] =>
          destruct (IH acc g w1) as (w' & Hrun & Hkv & Hwr & Hact & Hclk & Hchain);
            [exact Hrest | exact Hfail |]
      end.
      rewrite Hrun. exists w'. cbn in *.
      rewrite Hchain, <- !app_assoc. repeat split; assumption.
Qed.

End BatchLoop.

(** ** Batch settlement: the route *)

Section BatchRoute.

Import Runtime.
Context `{Externals}.
Local Open Scope list_scope.

Lemma check_network_truthy (f : Facilitator) :
  JS.truthy (check_network f) = true.
Proof.
  unfold check_network, JS.or_else.
  destruct (network (read_record f)) as [n|]; [|reflexivity].
  destruct (JS.truthy n) eqn:Hn; [exact Hn | reflexivity].
Qed.

Lemma read_record_key (f : Facilitator) :
  systemEncryptedKey (read_record f) = systemEncryptedKey f.
Proof. unfold read_record. now destruct (legacy_record f). Qed.

(** A ready request runs the loop on the world the read leaves, and then
    either records the payment or reports the failure. *)
Lemma batch_ready_run (env : JS.Env) (request : SettleBatch.Request)
    (w : World) (id : string) (f : Facilitator)
    (networkConfig : Networks.NetworkConfig) (privateKey : string)
    (auths : list ERC3009.SignedAuthorizationJSON) :
  ready env request w id f networkConfig privateKey auths ->
  exists wallet,
    SettleBatch.POST env request w
    = match SettleBatch.transfers id (read_record f) networkConfig privateKey
              auths [] 0 (read_world id f w) with
      | (Ok (txHashes, totalGasSpent), w1) =>
          match Storage.recordPayment id w1 with
          | (Ok _, w2) =>
              (Ok (Http.json 200
                     [ ("success", JS.JBool true);
                       ("txHashes", JS.JArr (map JS.JStr txHashes));
                       ("txHash",
                        match txHashes with
                        | h :: _ => JS.JStr h
                        | [] => JS.JUndefined
                        end);
                       ("facilitatorWallet", JS.JStr wallet);
                       ("facilitatorName", JS.JStr (name (read_record f)));
                       ("transferCount", JS.JNum (Z.of_nat (length txHashes)));
                       ("totalGasSpent",
                        JS.JStr (JS.bigint_toString totalGasSpent));
                       ("network",
                        JS.JStr (Networks.displayName networkConfig)) ]), w2)
          | (Throw message, w2) => (Ok (SettleBatch.failure message), w2)
          end
      | (Throw message, w1) => (Ok (SettleBatch.failure message), w1)
      end.
Proof.
  intros [Hid Htruthy Hnetwork Hauths Hne Hf (masterKey & Hkey & Hkeyt & Hdec)
            Hconfig (wallet & Hwallet)].
  exists wallet.
  unfold SettleBatch.POST, try_catch.
  rewrite Hid, Hnetwork, Hauths, Htruthy, check_network_truthy.
  cbn [negb orb].
  destruct auths as [|a auths]; [contradiction|].
  cbn [length Nat.eqb].
  unfold bind at 1. rewrite (getFacilitator_found _ _ _ Hf).
  fold (check_network f). rewrite String.eqb_refl. cbn [negb].
  rewrite Hkey, Hkeyt. cbn [negb].
  rewrite read_record_key.
  unfold bind at 1. rewrite Hdec. cbn [lift ret].
  unfold bind at 1. rewrite Hconfig. cbn [lift ret].
  unfold bind at 1. rewrite Hwallet. cbn [lift ret].
  unfold bind at 1. cbn [SettleBatch.contract_of lift ret].
  unfold bind at 1.
  destruct (SettleBatch.transfers id (read_record f) networkConfig privateKey
              (a :: auths) [] 0 (read_world id f w))
    as [[[txHashes totalGasSpent]|message] w1]; [|reflexivity].
  unfold bind at 1.
  destruct (Storage.recordPayment id w1) as [[[]|message] w2]; reflexivity.
Qed.

End BatchRoute.

Section BatchClaims.

Import Runtime.
Context `{Externals}.
Local Open Scope list_scope.

(** C1, as the route has it.  When the legs before leg [k] are mined and
    leg [k] fails, the chain log holds the confirmed legs before [k] and the
    failed attempt of leg [k] and nothing of the legs after it; no payment
    is recorded; the response is the 500 error that carries the failure
    message of leg [k] and no list of hashes. *)
Theorem batch_stops_at_first_failure
    (env : JS.Env) (request : SettleBatch.Request) (w : World)
    (id : string) (f : Facilitator) (networkConfig : Networks.NetworkConfig)
    (privateKey : string)
    (pre : list ERC3009.SignedAuthorizationJSON)
    (a : ERC3009.SignedAuthorizationJSON)
    (post : list ERC3009.SignedAuthorizationJSON) (message : string) :
  ready env request w id f networkConfig privateKey (pre ++ a :: post) ->
  forallb mined
    (legs (chain w) (map (batch_call networkConfig privateKey) pre)) = true ->
  failure_message
    (transferWithAuthorization
       (chain w ++ legs (chain w) (map (batch_call networkConfig privateKey) pre))
       (batch_call networkConfig privateKey a))
  = Some message ->
  exists w',
    SettleBatch.POST env request w = (Ok (SettleBatch.failure message), w')
    /\ chain w'
       = chain w
         ++ legs (chain w) (map (batch_call networkConfig privateKey) (pre ++ [a]))
    /\ submitted_calls (chain w')
       = submitted_calls (chain w)
         ++ map (batch_call networkConfig privateKey) (pre ++ [a])
    /\ confirmed_hashes (chain w')
       = confirmed_hashes (chain w)
         ++ confirmed_hashes
              (legs (chain w) (map (batch_call networkConfig privateKey) pre))
    /\ length (confirmed_hashes
                 (legs (chain w) (map (batch_call networkConfig privateKey) pre)))
       = length pre
    /\ kv w' = kv (snd (Storage.getFacilitator id w))
    /\ Http.status (SettleBatch.failure message) = 500
    /\ JS.prop (Http.body (SettleBatch.failure message)) "message"
       = JS.JStr (Http.message_of message)
    /\ JS.prop (Http.body (SettleBatch.failure message)) "txHashes"
       = JS.JUndefined.
Proof.
  intros Hready Hmined Hfail.
  destruct (batch_ready_run env request w id f networkConfig privateKey _ Hready)
    as (wallet & Hrun).
  destruct (transfers_first_failure id (read_record f) networkConfig privateKey
              pre a post message [] 0 (read_world id f w))
    as (w' & Hloop & Hkv & _ & _ & _ & Hchain).
  { now rewrite read_world_chain. }
  { now rewrite read_world_chain. }
  rewrite read_world_chain in Hchain.
  rewrite Hloop in Hrun. exists w'. split; [exact Hrun|].
  split; [exact Hchain|].
  split.
  { unfold submitted_calls. now rewrite Hchain, map_app, legs_calls. }
  split.
  { rewrite Hchain, confirmed_hashes_app, map_app, legs_app.
    rewrite confirmed_hashes_app. f_equal.
    cbn [map legs]. unfold confirmed_hashes at 2. cbn [flat_map snd].
    destruct (transferWithAuthorization _ _); cbn in Hfail;
      try discriminate; now rewrite !app_nil_r. }
  split.
  { now rewrite (confirmed_all_mined _ Hmined), legs_length, length_map. }
  split.
  { rewrite Hkv. now rewrite (getFacilitator_found _ _ _ (ready_stored _ _ _ _ _ _ _ _ Hready)). }
  repeat split.
Qed.

(** C10.  A batch whose every leg is mined records one payment, however
    many legs it has: the stored counter goes up by one and [lastUsed]
    becomes the time of the call, while the response counts all the
    transfers. *)
Theorem batch_counts_one_payment
    (env : JS.Env) (request : SettleBatch.Request) (w : World)
    (id : string) (f : Facilitator) (networkConfig : Networks.NetworkConfig)
    (privateKey : string) (auths : list ERC3009.SignedAuthorizationJSON) :
  ready env request w id f networkConfig privateKey auths ->
  Runtime.id f = id ->
  forallb mined
    (legs (chain w) (map (batch_call networkConfig privateKey) auths)) = true ->
  exists response w' f',
    SettleBatch.POST env request w = (Ok response, w')
    /\ Http.status response = 200
    /\ JS.prop (Http.body response) "transferCount"
       = JS.JNum (Z.of_nat (length auths))
    /\ kv w' !! key_of id = Some f'
    /\ totalPayments f' = totalPayments f + 1
    /\ lastUsed f' = clock w
    /\ confirmed_hashes (chain w')
       = confirmed_hashes (chain w)
         ++ confirmed_hashes
              (legs (chain w) (map (batch_call networkConfig privateKey) auths)).
Proof.
  intros Hready Hid Hmined.
  pose proof (ready_stored _ _ _ _ _ _ _ _ Hready) as Hf.
  destruct (batch_ready_run env request w id f networkConfig privateKey _ Hready)
    as (wallet & Hrun).
  destruct (transfers_all_mined id (read_record f) networkConfig privateKey
              auths [] 0 (read_world id f w))
    as (gas & w1 & Hloop & Hkv & _ & _ & Hclock & Hchain).
  { now rewrite read_world_chain. }
  rewrite read_world_chain in Hloop, Hchain.
  rewrite Hloop in Hrun.
  assert (Hstored : kv w1 !! key_of id = Some (read_record f)).
  { rewrite Hkv. now apply read_world_lookup. }
  rewrite (recordPayment_found _ _ _ Hstored) in Hrun.
  rewrite read_world_idem in Hrun.
  eexists _, _, (paid (clock w1) (read_record f)).
  split; [exact Hrun|]. split; [reflexivity|].
  split.
  { cbn. rewrite (confirmed_all_mined _ Hmined), legs_length, length_map.
    reflexivity. }
  split.
  { unfold stored_world. cbn [kv].
    replace (Runtime.id (paid (clock w1) (read_record f))) with id.
    - apply lookup_insert_eq.
    - unfold paid. cbn [Runtime.id with_payment].
      now rewrite !read_record_id. }
  split.
  { unfold paid. cbn [totalPayments with_payment]. rewrite read_record_idem.
    unfold read_record. now destruct (legacy_record f). }
  split.
  { unfold paid. cbn [lastUsed with_payment].
    now rewrite Hclock, read_world_clock. }
  cbn [stored_world chain]. now rewrite Hchain, confirmed_hashes_app.
Qed.

End BatchClaims.

Lemma sample_batch_ready (auths : list ERC3009.SignedAuthorizationJSON) :
  auths <> [] ->
  ready (H := Samples.externals) Samples.env (Samples.batch auths)
    Samples.world "fac_1" Samples.fac fuji_network "key-of-system-box" auths.
Proof.
  intros Hne. split; try assumption; try exact sample_fac_stored;
    try reflexivity.
  - exists "master-secret". repeat split; reflexivity.
  - eexists. reflexivity.
Defined.

Lemma batch_stops_at_first_failure_witness :
  exists w',
    SettleBatch.POST (H := Samples.externals) Samples.env
      (Samples.batch [Samples.authA; Samples.authB; Samples.authC])
      Samples.world
    = (Runtime.Ok (SettleBatch.failure replay_message), w')
    /\ Runtime.confirmed_hashes (Runtime.chain w') = ["0xhash-0xn1"]
    /\ length (Runtime.submitted_calls (Runtime.chain w')) = 2%nat.
Proof.
  destruct (batch_stops_at_first_failure (H := Samples.externals)
              Samples.env
              (Samples.batch [Samples.authA; Samples.authB; Samples.authC])
              Samples.world "fac_1" Samples.fac fuji_network
              "key-of-system-box" [Samples.authA] Samples.authB
              [Samples.authC] replay_message
              (sample_batch_ready
                 [Samples.authA; Samples.authB; Samples.authC] ltac:(easy))
              eq_refl eq_refl)
    as (w' & Hrun & _ & Hsubmitted & Hconfirmed & _).
  exists w'. split; [exact Hrun|].
  rewrite Hsubmitted, Hconfirmed. split; reflexivity.
Defined.

(** C1 as stated fails where it promises the hashes completed so far: when
    the second of three legs is rejected, the first leg is confirmed on the
    chain and the third is never submitted, but the response consists of
    the error and the message alone and carries no hash. *)
Lemma batch_failure_response_counterexample :
  exists response w',
    SettleBatch.POST (H := Samples.externals) Samples.env
      (Samples.batch [Samples.authA; Samples.authB; Samples.authC])
      Samples.world
    = (Runtime.Ok response, w')
    /\ Runtime.confirmed_hashes (Runtime.chain w') = ["0xhash-0xn1"]
    /\ map Runtime.nonce (Runtime.submitted_calls (Runtime.chain w'))
       = ["0xn1"; "0xn1"]
    /\ Http.body response
       = JS.JObj [ ("error", JS.JStr "Batch settlement failed");
                   ("message", JS.JStr replay_message) ]
    /\ JS.prop (Http.body response) "txHashes" = JS.JUndefined.
Proof.
  destruct (SettleBatch.POST (H := Samples.externals) Samples.env
              (Samples.batch [Samples.authA; Samples.authB; Samples.authC])
              Samples.world) as [r w'] eqn:Hrun.
  vm_compute in Hrun. injection Hrun as <- <-.
  eexists _, _. split; [reflexivity|]. repeat split.
Qed.

Lemma batch_counts_one_payment_witness :
  exists response w' f',
    SettleBatch.POST (H := Samples.externals) Samples.env
      (Samples.batch [Samples.authA; Samples.authC]) Samples.world
    = (Runtime.Ok response, w')
    /\ JS.prop (Http.body response) "transferCount" = JS.JNum 2
    /\ Runtime.kv w' !! key_of "fac_1" = Some f'
    /\ Runtime.totalPayments f' = 8.
Proof.
  destruct (batch_counts_one_payment (H := Samples.externals)
              Samples.env (Samples.batch [Samples.authA; Samples.authC])
              Samples.world "fac_1" Samples.fac fuji_network
              "key-of-system-box" [Samples.authA; Samples.authC]
              (sample_batch_ready [Samples.authA; Samples.authC] ltac:(easy))
              eq_refl eq_refl)
    as (response & w' & f' & Hrun & _ & Hcount & Hstored & Htotal & _).
  exists response, w', f'.
  split; [exact Hrun|]. split; [exact Hcount|]. split; [exact Hstored|].
  exact Htotal.
Defined.

(** ** Failed settlements and the payment counters *)

Section FailedAttempts.

Import Runtime.
Context `{Externals}.
Local Open Scope list_scope.

Lemma counters_kept_refl (w : World) : counters_kept w w.
Proof. intros key. split; reflexivity. Qed.

Lemma counters_kept_kv (w w1 w2 : World) :
  counters_kept w w1 -> kv w2 = kv w1 -> counters_kept w w2.
Proof. intros Hk Heq key. rewrite Heq. apply Hk. Qed.

Lemma getFacilitator_frame (id : string) (w : World)
    (r : Result (option Facilitator)) (w' : World) :
  Storage.getFacilitator id w = (r, w') ->
  chain w' = chain w /\ counters_kept w w'.
Proof.
  destruct (kv w !! key_of id) as [f|] eqn:Hf.
  - rewrite (getFacilitator_found _ _ _ Hf). intros [= <- <-].
    split; [apply read_world_chain|].
    unfold read_world. destruct (legacy_record f); [|apply counters_kept_refl].
    intros key. cbn [kv].
    destruct (decide (key_of id = key)) as [<-|Hne].
    + rewrite lookup_insert_eq, Hf. split; reflexivity.
    + rewrite lookup_insert_ne by exact Hne. split; reflexivity.
  - rewrite (getFacilitator_missing _ _ Hf). intros [= <- <-].
    split; [reflexivity | apply counters_kept_refl].
Qed.

Lemma recordPayment_chain (id : string) (w : World)
    (r : Result unit) (w' : World) :
  Storage.recordPayment id w = (r, w') -> chain w' = chain w.
Proof.
  destruct (kv w !! key_of id) as [f|] eqn:Hf.
  - rewrite (recordPayment_found _ _ _ Hf). intros [= <- <-].
    cbn. apply read_world_chain.
  - unfold Storage.recordPayment, bind.
    rewrite (getFacilitator_missing _ _ Hf). now intros [= <- <-].
Qed.

Lemma frame_no_call (w w0 : World) :
  chain w0 = chain w -> counters_kept w w0 -> attempt_frame w w0.
Proof.
  intros Hc Hk. exists []. split; [now rewrite app_nil_r | discriminate].
Qed.

Ltac no_call :=
  intros [= <- <-]; apply frame_no_call;
  [first [assumption | reflexivity]
  |first [assumption | apply counters_kept_refl]].

Lemma batch_frame (env : JS.Env) (request : SettleBatch.Request) (w : World)
    (r : Result Http.Response) (w' : World) :
  SettleBatch.POST env request w = (r, w') -> attempt_frame w w'.
Proof.
  unfold SettleBatch.POST, try_catch.
  destruct (SettleBatch.facilitatorId request) as [facilitatorId|];
    [|cbn; no_call].
  destruct (SettleBatch.network request) as [network|]; [|cbn; no_call].
  destruct (SettleBatch.authorizations request) as [auths|]; [|cbn; no_call].
  destruct (negb (JS.truthy facilitatorId) || negb (JS.truthy network));
    [cbn; no_call|].
  destruct (length auths =? 0)%nat; [cbn; no_call|].
  unfold bind at 1.
  destruct (Storage.getFacilitator facilitatorId w) as [[[f|]|m] w0] eqn:Hget;
    apply getFacilitator_frame in Hget as [Hc0 Hk0]; [|cbn; no_call..].
  destruct (negb (String.eqb _ network)); [cbn; no_call|].
  destruct (env "SYSTEM_MASTER_KEY") as [masterKey|]; [|cbn; no_call].
  destruct (negb (JS.truthy masterKey)); [cbn; no_call|].
  unfold bind at 1.
  destruct (decryptPrivateKey (systemEncryptedKey f) masterKey)
    as [m|privateKey]; cbn [lift throw ret]; [cbn; no_call|].
  unfold bind at 1.
  destruct (Networks.getNetworkConfig env network) as [m|found];
    cbn [lift throw ret]; [cbn; no_call|].
  unfold bind at 1.
  destruct (walletAddress privateKey) as [m|wallet];
    cbn [lift throw ret]; [cbn; no_call|].
  unfold bind at 1.
  destruct found as [networkConfig|];
    cbn [SettleBatch.contract_of lift throw ret]; [|cbn; no_call].
  unfold bind at 1.
  destruct (SettleBatch.transfers facilitatorId f networkConfig privateKey
              auths [] 0 w0) as [[[txHashes gas]|m] w1] eqn:Hloop;
    apply transfers_frame in Hloop
      as (Hkv & _ & _ & _ & added & Hchain & Hok).
  - unfold bind at 1.
    destruct (Storage.recordPayment facilitatorId w1) as [[[]|m] w2] eqn:Hrec;
      apply recordPayment_chain in Hrec; cbn; intros [= <- <-];
      exists added; (split; [now rewrite Hrec, Hchain, Hc0|]);
      intros Hfailed; now rewrite (Hok _ eq_refl) in Hfailed.
  - cbn. intros [= <- <-]. exists added.
    split; [now rewrite Hchain, Hc0|].
    intros _. exact (counters_kept_kv _ _ _ Hk0 Hkv).
Qed.

Lemma single_frame (env : JS.Env) (request : SettleCustom.Request) (w : World)
    (r : Result Http.Response) (w' : World) :
  SettleCustom.POST env request w = (r, w') -> attempt_frame w w'.
Proof.
  unfold SettleCustom.POST, try_catch.
  destruct (SettleCustom.facilitatorId request) as [facilitatorId|];
    [|cbn; no_call].
  destruct (SettleCustom.paymentPayload request) as [payload|]; [|cbn; no_call].
  destruct (negb (JS.truthy facilitatorId)); [cbn; no_call|].
  unfold bind at 1.
  destruct (Storage.getFacilitator facilitatorId w) as [[[f|]|m] w0] eqn:Hget;
    apply getFacilitator_frame in Hget as [Hc0 Hk0]; [|cbn; no_call..].
  unfold bind at 1.
  destruct (Networks.getNetworkConfig env _) as [m|found];
    cbn [lift throw ret]; [cbn; no_call|].
  unfold bind at 1.
  destruct (Contracts.getUSDCContract env _) as [m|usdcContractConfig];
    cbn [lift throw ret]; [cbn; no_call|].
  unfold bind at 1.
  destruct found as [networkConfig|];
    cbn [Networks.entry_of lift throw ret]; [|cbn; no_call].
  destruct (env "SYSTEM_MASTER_KEY") as [masterKey|]; [|cbn; no_call].
  destruct (negb (JS.truthy masterKey)); [cbn; no_call|].
  unfold bind at 1.
  destruct (decryptPrivateKey (systemEncryptedKey f) masterKey)
    as [m|privateKey]; cbn [lift throw ret]; [cbn; no_call|].
  unfold bind at 1.
  destruct (walletAddress privateKey) as [m|wallet];
    cbn [lift throw ret]; [cbn; no_call|].
  set (call := Signature.call_of _ _ _ _).
  unfold bind at 1.
  destruct (send_run call w0) as (r0 & Hsend & Hr0). rewrite Hsend.
  set (w1 := {| kv := kv w0; active_set := active_set w0; writes := writes w0;
                chain := chain w0 ++ [(call, transferWithAuthorization (chain w0) call)];
                events := events w0; clock := clock w0 |}).
  destruct (transferWithAuthorization (chain w0) call)
    as [m|hash m|hash receipt] eqn:Hout; subst r0.
  - cbn. intros [= <- <-]. eexists. split; [cbn; now rewrite Hc0|].
    intros _. exact (counters_kept_kv _ w0 w1 Hk0 eq_refl).
  - cbn. intros [= <- <-]. eexists. split; [cbn; now rewrite Hc0|].
    intros _. exact (counters_kept_kv _ w0 w1 Hk0 eq_refl).
  - unfold bind at 1.
    destruct (Storage.recordPayment facilitatorId w1) as [[[]|m] w2] eqn:Hrec;
      apply recordPayment_chain in Hrec; cbn; intros [= <- <-];
      exists [(call, Mined hash receipt)];
      (split; [cbn; rewrite Hrec; cbn; now rewrite Hc0 | discriminate]).
Qed.

(** C4.  Every settlement attempt, single or batch, only adds entries to
    the chain log; if any entry it added is a rejected submission or a
    failed confirmation, no stored facilitator record has a different
    [totalPayments] or [lastUsed] afterwards. *)
Theorem failed_settlement_keeps_counters
    (env : JS.Env) (attempt : Attempt) (w : World)
    (r : Result Http.Response) (w' : World) (added : ChainLog) :
  settle env attempt w = (r, w') ->
  chain w' = chain w ++ added ->
  forallb mined added = false ->
  forall key : string,
    totalPayments <$> kv w' !! key = totalPayments <$> kv w !! key
    /\ lastUsed <$> kv w' !! key = lastUsed <$> kv w !! key.
Proof.
  intros Hrun Hchain Hfailed.
  assert (Hframe : attempt_frame w w').
  { destruct attempt as [request|request]; cbn [settle] in Hrun.
    - exact (single_frame _ _ _ _ _ Hrun).
    - exact (batch_frame _ _ _ _ _ Hrun). }
  destruct Hframe as (added' & Hchain' & Hkept).
  rewrite Hchain in Hchain'. apply app_inv_head in Hchain'. subst added'.
  exact (Hkept Hfailed).
Qed.

End FailedAttempts.

Lemma failed_settlement_keeps_counters_witness :
  forallb mined (Runtime.chain (snd after_replayed_batch)) = false
  /\ Runtime.totalPayments <$> Runtime.kv (snd after_replayed_batch) !! key_of "fac_1"
     = Some 7
  /\ Runtime.lastUsed <$> Runtime.kv (snd after_replayed_batch) !! key_of "fac_1"
     = Some 1700000005000.
Proof.
  assert (Hfailed : forallb mined (Runtime.chain (snd after_replayed_batch)) = false)
    by (vm_compute; reflexivity).
  split; [exact Hfailed|].
  destruct (failed_settlement_keeps_counters (H := Samples.externals)
              Samples.env replayed_batch Samples.world
              (fst after_replayed_batch) (snd after_replayed_batch)
              (Runtime.chain (snd after_replayed_batch))
              (surjective_pairing _) eq_refl Hfailed (key_of "fac_1"))
    as [Htotal Hlast].
  rewrite sample_fac_stored in Htotal, Hlast.
  split; [exact Htotal | exact Hlast].
Defined.

(** ** Network registry: names and chain ids *)

Lemma lookup_name_chain (env : JS.Env) (networkName : string)
    (config : Networks.NetworkConfig) :
  Networks.entry env networkName = Some config ->
  Networks.name config = networkName
  /\ Networks.getNetworkByChainId env (Networks.id (Networks.chain config))
     = Some config.
Proof.
  unfold Networks.entry, Networks.NETWORK_CONFIGS. cbn [JS.assoc].
  repeat match goal with
         | |- context [String.eqb networkName ?k] =>
             destruct (String.eqb_spec networkName k) as [->|_];
             [intros [= <-]; split; reflexivity|]
         end.
  discriminate.
Qed.

Lemma getNetworkByChainId_sound (env : JS.Env) (chainId : Z)
    (config : Networks.NetworkConfig) :
  Networks.getNetworkByChainId env chainId = Some config ->
  Networks.id (Networks.chain config) = chainId
  /\ Networks.entry env (Networks.name config) = Some config.
Proof.
  unfold Networks.getNetworkByChainId, Networks.NETWORK_CONFIGS.
  cbn [map snd find Networks.chain Networks.id Networks.avalancheFuji
       Networks.sepolia Networks.baseSepolia Networks.polygonAmoy
       Networks.arbitrumSepoliaChain Networks.monadTestnet].
  repeat match goal with
         | |- context [Z.eqb ?k chainId] =>
             destruct (Z.eqb_spec k chainId) as [<-|_];
             [intros [= <-]; split; reflexivity|]
         end.
  discriminate.
Qed.

(** No name of the table is the name of an inherited member. *)
Lemma entry_not_inherited (env : JS.Env) (networkName : string)
    (config : Networks.NetworkConfig) :
  Networks.entry env networkName = Some config ->
  JS.inherited networkName = false.
Proof.
  unfold Networks.entry, Networks.NETWORK_CONFIGS. cbn [JS.assoc].
  repeat match goal with
         | |- context [String.eqb networkName ?k] =>
             destruct (String.eqb_spec networkName k) as [->|_];
             [reflexivity|]
         end.
  discriminate.
Qed.

Lemma getNetworkConfig_entry (env : JS.Env) (networkName : string)
    (config : Networks.NetworkConfig) :
  Networks.getNetworkConfig env networkName = inr config
  <-> Networks.entry env networkName = Some config.
Proof.
  unfold Networks.getNetworkConfig, Networks.lookup.
  destruct (Networks.entry env networkName) as [c|].
  - split; intros [= <-]; reflexivity.
  - destruct (JS.inherited networkName); split; discriminate.
Qed.

Lemma getNetworkEntry_config (env : JS.Env) (networkName : string)
    (config : Networks.NetworkConfig) :
  Networks.getNetworkEntry env networkName = inr config
  <-> Networks.getNetworkConfig env networkName = inr config.
Proof.
  unfold Networks.getNetworkEntry.
  destruct (Networks.getNetworkConfig env networkName) as [m|[c|]];
    split; intros Heq; solve [discriminate | now injection Heq as ->].
Qed.

(** X1.  Names and chain ids identify the same entries of the table:
    [getNetworkConfig] returns an entry under a name exactly when the entry
    carries that name and the lookup by its chain id returns the entry
    itself.  The names under which it returns something that is no entry,
    without throwing, are the names of the members of [Object.prototype]. *)
Theorem registry_names_and_chain_ids_agree
    (env : JS.Env) (networkName : string) (config : Networks.NetworkConfig) :
  (Networks.getNetworkConfig env networkName = inr config
   <-> Networks.name config = networkName
       /\ Networks.getNetworkByChainId env (Networks.id (Networks.chain config))
          = Some config)
  /\ (Networks.getNetworkConfig env networkName = inr Networks.Inherited
      <-> JS.inherited networkName = true).
Proof.
  split.
  - rewrite getNetworkConfig_entry. split.
    + apply lookup_name_chain.
    + intros [<- Hchain]. now apply getNetworkByChainId_sound in Hchain as [_ Hc].
  - unfold Networks.getNetworkConfig, Networks.lookup.
    destruct (Networks.entry env networkName) as [c|] eqn:Hc.
    + rewrite (entry_not_inherited _ _ _ Hc). split; discriminate.
    + destruct (JS.inherited networkName); split;
        solve [reflexivity | discriminate].
Qed.

(** ** The two registries of token contracts *)

Lemma or_else_configured (v : option string) (d : string) :
  negb (JS.truthy (JS.or_else v "0x")) || String.eqb (JS.or_else v "0x") "0x"
  = false ->
  JS.or_else v d = JS.or_else v "0x".
Proof.
  unfold JS.or_else. destruct v as [a|]; [|discriminate].
  destruct (JS.truthy a); [reflexivity | discriminate].
Qed.

(** The contract registry resolves only what the network registry
    resolves, to the same token contract. *)
Lemma getUSDCContract_registered
    (env : JS.Env) (network : string) (contract : Contracts.USDCContract) :
  Contracts.getUSDCContract env network = inr contract ->
  exists config : Networks.NetworkConfig,
    Networks.getNetworkConfig env network = inr config
    /\ Networks.usdcAddress config = Contracts.address contract
    /\ Networks.verifyingContract (Networks.erc3009Domain config)
       = Contracts.address contract
    /\ Networks.usdcDecimals config = Contracts.decimals contract.
Proof.
  unfold Contracts.getUSDCContract, Contracts.USDC_CONTRACTS,
    Networks.getNetworkConfig, Networks.lookup, Networks.entry,
    Networks.NETWORK_CONFIGS.
  cbn [JS.assoc].
  repeat match goal with
         | |- context [String.eqb network ?k] =>
             destruct (String.eqb_spec network k) as [->|_];
             [cbn [String.eqb Ascii.eqb Bool.eqb Contracts.address];
              match goal with
              | |- context [JS.or_else ?v "0x"] =>
                  destruct (negb (JS.truthy (JS.or_else v "0x"))
                            || String.eqb (JS.or_else v "0x") "0x") eqn:Hset;
                  [discriminate|];
                  intros [= <-]; eexists; split; [reflexivity|];
                  cbn [Networks.usdcAddress Networks.verifyingContract
                       Networks.erc3009Domain Networks.usdcDecimals
                       Contracts.address Contracts.decimals];
                  rewrite (or_else_configured _ _ Hset); repeat split
              | |- _ =>
                  cbn; intros [= <-]; eexists; split; [reflexivity|];
                  repeat split
              end|]
         end.
  destruct (JS.inherited network); discriminate.
Qed.

(** X2.  Whenever the contract registry resolves a network, the network
    registry knows the network too and both name the same token contract:
    the address the settlement routes call is the [usdcAddress] and the
    verifying contract of the signing domain, with the same decimals. *)
Theorem usdc_contract_agrees_with_registry
    (env : JS.Env) (network : string) (contract : Contracts.USDCContract) :
  Contracts.getUSDCContract env network = inr contract ->
  exists config : Networks.NetworkConfig,
    Networks.getNetworkConfig env network = inr config
    /\ Networks.usdcAddress config = Contracts.address contract
    /\ Networks.verifyingContract (Networks.erc3009Domain config)
       = Contracts.address contract
    /\ Networks.usdcDecimals config = Contracts.decimals contract.
Proof. exact (getUSDCContract_registered env network contract). Qed.

Lemma usdc_contract_agrees_with_registry_witness :
  exists config : Networks.NetworkConfig,
    Networks.getNetworkConfig base_override "base-sepolia" = inr config
    /\ Networks.usdcAddress config = "0x00000000000000000000000000000000000000aa".
Proof.
  destruct (usdc_contract_agrees_with_registry base_override "base-sepolia"
              {| Contracts.address := "0x00000000000000000000000000000000000000aa";
                 Contracts.decimals := 6; Contracts.symbol := "USDC";
                 Contracts.name := "USD Coin" |} eq_refl)
    as (config & Hconfig & Haddress & _).
  exists config. split; [exact Hconfig | exact Haddress].
Defined.

(** The registry check lets the names of inherited members through, and
    the lookups find the members: under [toString], [isNetworkSupported]
    answers true, [getNetworkConfig] returns without throwing something
    that is no entry, and [getUSDCContract] throws its second error. *)
Example registries_at_inherited_name (env : JS.Env) :
  Networks.isNetworkSupported env "toString" = true
  /\ Networks.getNetworkConfig env "toString" = inr Networks.Inherited
  /\ Contracts.getUSDCContract env "toString"
     = inl "USDC contract address not set for toString. Please set NEXT_PUBLIC_USDC_ADDRESS_TOSTRING in .env.local".
Proof. repeat split. Qed.

(** ** Strings: slices of concatenations *)

Lemma length_append (a b : string) :
  String.length (a ++ b) = (String.length a + String.length b)%nat.
Proof. induction a as [|c a IH]; simpl; [reflexivity | now rewrite IH]. Qed.

Lemma substring_all (s : string) (m : nat) :
  (String.length s <= m)%nat -> String.substring 0 m s = s.
Proof.
  revert m. induction s as [|c s IH]; intros [|m] Hm; simpl in *;
    try reflexivity; try lia.
  rewrite IH by lia. reflexivity.
Qed.



Lemma substring_none (s : string) (n : nat) : String.substring n 0 s = EmptyString.
Proof.
  revert n. induction s as [|c s IH]; intros [|n]; simpl; try reflexivity.
  apply IH.
Qed.



(** ** Signature decomposition *)




(** X4.  A signature of fewer than 65 bytes leaves [v] without a value:
    when at most 64 bytes follow the [0x], the slice that should hold the
    last byte is empty and [parseInt] yields [NaN]. *)
Theorem short_signature_has_no_v (signature : string) :
  (String.length signature <= 130)%nat ->
  fst (fst (Signature.split signature)) = None.
Proof.
  intros Hlen. unfold Signature.split. cbn [fst].
  set (sig := JS.slice_from 2 signature).
  assert (Hsig : (String.length sig <= 128)%nat).
  { unfold sig, JS.slice_from.
    destruct signature as [|c0 [|c1 rest]]; cbn; try lia.
    cbn in Hlen. rewrite substring_all by lia. lia. }
  unfold JS.slice.
  replace (Nat.min 130 (String.length sig) - 128)%nat with 0%nat by lia.
  now rewrite substring_none.
Qed.

Lemma short_signature_has_no_v_witness :
  fst (fst (Signature.split "0x1234")) = None.
Proof. apply (short_signature_has_no_v "0x1234"). simpl. lia. Defined.

(** ** Nonces *)

Lemma parseInt16_byte_hex (b : Byte.byte) :
  JS.parseInt16 (ERC3009.byte_hex b) = Some (Z.of_N (Byte.to_N b)).
Proof. destruct b; reflexivity. Qed.

Lemma byte_hex_inj (a b : Byte.byte) :
  ERC3009.byte_hex a = ERC3009.byte_hex b -> a = b.
Proof.
  intros Heq.
  assert (Hn : Some (Z.of_N (Byte.to_N a)) = Some (Z.of_N (Byte.to_N b)))
    by (now rewrite <- !parseInt16_byte_hex, Heq).
  injection Hn as Hn. apply N2Z.inj in Hn.
  apply (f_equal Byte.of_N) in Hn. rewrite !Byte.of_to_N in Hn.
  now injection Hn.
Qed.

Lemma byte_hex_shape (b : Byte.byte) :
  exists c1 c2, ERC3009.byte_hex b = String c1 (String c2 EmptyString).
Proof. unfold ERC3009.byte_hex. eexists _, _. reflexivity. Qed.

Lemma concat_hex_cons (b : Byte.byte) (bytes : list Byte.byte) :
  String.concat "" (map ERC3009.byte_hex (b :: bytes))
  = ERC3009.byte_hex b ++ String.concat "" (map ERC3009.byte_hex bytes).
Proof.
  destruct bytes as [|b' bytes]; cbn [map String.concat].
  - destruct (byte_hex_shape b) as (c1 & c2 & ->). reflexivity.
  - reflexivity.
Qed.

Lemma concat_hex_inj (xs ys : list Byte.byte) :
  String.concat "" (map ERC3009.byte_hex xs)
  = String.concat "" (map ERC3009.byte_hex ys) ->
  xs = ys.
Proof.
  revert ys. induction xs as [|x xs IH]; intros [|y ys].
  - reflexivity.
  - rewrite concat_hex_cons. destruct (byte_hex_shape y) as (c1 & c2 & ->).
    discriminate.
  - rewrite concat_hex_cons. destruct (byte_hex_shape x) as (c1 & c2 & ->).
    discriminate.
  - rewrite !concat_hex_cons. intros Heq.
    destruct (byte_hex_shape x) as (c1 & c2 & Hx).
    destruct (byte_hex_shape y) as (d1 & d2 & Hy).
    rewrite Hx, Hy in Heq. cbn [String.append] in Heq.
    injection Heq as -> -> Hrest.
    f_equal; [apply byte_hex_inj; now rewrite Hx, Hy | now apply IH].
Qed.

Lemma concat_hex_length (bytes : list Byte.byte) :
  String.length (String.concat "" (map ERC3009.byte_hex bytes))
  = (2 * length bytes)%nat.
Proof.
  induction bytes as [|b bytes IH]; [reflexivity|].
  rewrite concat_hex_cons, length_append, IH.
  destruct (byte_hex_shape b) as (c1 & c2 & ->). cbn [String.length length]. lia.
Qed.

(** X5.  The nonce made of 32 random bytes is a [bytes32] literal, [0x]
    followed by 64 characters, and it determines the bytes: two draws of
    the random source give the same nonce only if they are the same
    bytes. *)
Theorem generateNonce_is_bytes32_and_injective
    (random32 other32 : list Byte.byte) :
  length random32 = 32%nat ->
  String.length (ERC3009.generateNonce random32) = 66%nat
  /\ String.prefix "0x" (ERC3009.generateNonce random32) = true
  /\ (ERC3009.generateNonce random32 = ERC3009.generateNonce other32 ->
      random32 = other32).
Proof.
  intros Hlen. unfold ERC3009.generateNonce, ERC3009.bytesToHex.
  split; [|split].
  - rewrite length_append, concat_hex_length, Hlen. reflexivity.
  - cbn [String.append]. now destruct (String.concat _ _).
  - cbn [String.append]. intros [= Heq]. now apply concat_hex_inj.
Qed.

Lemma generateNonce_is_bytes32_and_injective_witness :
  String.length (ERC3009.generateNonce (repeat Byte.x2a 32)) = 66%nat.
Proof.
  exact (proj1 (generateNonce_is_bytes32_and_injective
                  (repeat Byte.x2a 32) [] eq_refl)).
Defined.

(** ** Storage: the invariant of the keys, deletion, independent fields *)

Section StorageCalls.

Import Runtime.

Lemma updateFacilitatorStatus_missing (id : string) (s : Status) (w : World) :
  kv w !! key_of id = None ->
  Storage.updateFacilitatorStatus id s w = (Throw "Facilitator not found", w).
Proof.
  intros Hf. unfold Storage.updateFacilitatorStatus, bind.
  now rewrite (getFacilitator_missing _ _ Hf).
Qed.

Lemma recordPayment_missing (id : string) (w : World) :
  kv w !! key_of id = None ->
  Storage.recordPayment id w = (Throw "Facilitator not found", w).
Proof.
  intros Hf. unfold Storage.recordPayment, bind.
  now rewrite (getFacilitator_missing _ _ Hf).
Qed.

Lemma deleteFacilitator_run (id : string) (w : World) :
  Storage.deleteFacilitator id w
  = (Ok tt,
     {| kv := delete (key_of id) (kv w);
        active_set := active_set w ∖ {[ id ]};
        writes := (writes w ++ [DEL (key_of id); SREM ACTIVE_LIST_KEY id])%list;
        chain := chain w; events := events w; clock := clock w |}).
Proof.
  unfold Storage.deleteFacilitator, bind, redis_del, redis_srem, key_of. cbn.
  now rewrite <- app_assoc.
Qed.

Lemma after_call_consistent (call : StorageCall) (w : World) :
  consistent w -> consistent (after_call call w).
Proof.
  intros Hw. destruct call as [f|id|id s|id|id]; cbn [after_call].
  - rewrite storeFacilitator_run. now apply stored_world_consistent.
  - destruct (kv w !! key_of id) as [f|] eqn:Hf.
    + rewrite (getFacilitator_found _ _ _ Hf). now apply read_world_consistent.
    + now rewrite (getFacilitator_missing _ _ Hf).
  - destruct (kv w !! key_of id) as [f|] eqn:Hf.
    + rewrite (updateFacilitatorStatus_found _ _ _ _ Hf).
      apply stored_world_consistent. now apply read_world_consistent.
    + now rewrite (updateFacilitatorStatus_missing _ _ _ Hf).
  - destruct (Storage.recordPayment id w) as [r w'] eqn:Hrun.
    exact (recordPayment_consistent _ _ _ _ Hw Hrun).
  - rewrite deleteFacilitator_run. intros key g. cbn [snd kv].
    intros Hg. apply lookup_delete_Some in Hg as [_ Hg]. now apply Hw.
Qed.

(** X6.  Every store the storage functions build keeps each record under
    the key of its own id: the property holds of the empty store and each
    call of [storeFacilitator], [getFacilitator], [updateFacilitatorStatus],
    [recordPayment] or [deleteFacilitator] preserves it, whether the call
    returns or throws. *)
Theorem storage_calls_keep_keys_consistent
    (now : Z) (calls : list StorageCall) (key : string) (f : Facilitator) :
  kv (after_calls calls (fresh_world now)) !! key = Some f ->
  key = REDIS_KEY_PREFIX ++ Runtime.id f.
Proof.
  assert (Hall : forall w, consistent w -> consistent (after_calls calls w)).
  { induction calls as [|c calls IH]; intros w Hw; [exact Hw|].
    cbn [after_calls fold_left]. apply IH. now apply after_call_consistent. }
  apply (Hall (fresh_world now)).
  intros k g. cbn [fresh_world kv]. now rewrite lookup_empty.
Qed.

Lemma storage_calls_keep_keys_consistent_witness :
  "facilitator:fac_1" = REDIS_KEY_PREFIX ++ Runtime.id (paid 5 Samples.fac).
Proof.
  apply (storage_calls_keep_keys_consistent 5
           [CallStore Samples.fac; CallStatus "fac_1" needs_funding;
            CallStore Samples.legacy; CallDelete "fac_old";
            CallStatus "fac_1" active; CallPayment "fac_1"]
           "facilitator:fac_1").
  vm_compute. reflexivity.
Defined.

(** X7.  [deleteFacilitator] forgets the facilitator and nothing else: the
    record and the entry of the active index are gone, a later read finds
    nothing and a later payment for the id throws without writing, while
    every other key and every other member of the index stay as they
    were. *)
Theorem deleteFacilitator_forgets_only_that_id (id : string) (w : World) :
  exists w',
    Storage.deleteFacilitator id w = (Ok tt, w')
    /\ Storage.getFacilitator id w' = (Ok None, w')
    /\ Storage.recordPayment id w' = (Throw "Facilitator not found", w')
    /\ (id ∉ active_set w')
    /\ (forall other : string,
          other <> id ->
          kv w' !! key_of other = kv w !! key_of other
          /\ (other ∈ active_set w' <-> other ∈ active_set w)).
Proof.
  eexists. split; [apply deleteFacilitator_run|].
  split; [apply getFacilitator_missing; cbn [kv]; apply lookup_delete_eq|].
  split; [apply recordPayment_missing; cbn [kv]; apply lookup_delete_eq|].
  cbn [active_set kv]. split.
  - intros Hin. apply elem_of_difference in Hin as [_ Hn].
    apply Hn. now apply elem_of_singleton.
  - intros other Hother. split.
    + apply lookup_delete_ne. intros Heq. apply Hother. symmetry.
      now apply key_of_inj.
    + rewrite elem_of_difference, elem_of_singleton. tauto.
Qed.

Lemma read_world_kv (id : string) (f : Facilitator) (w : World) :
  kv w !! key_of id = Some f ->
  kv (read_world id f w) = <[key_of id := read_record f]> (kv w).
Proof.
  intros Hf. unfold read_world, read_record.
  destruct (legacy_record f); [reflexivity|].
  symmetry. now apply insert_id.
Qed.

Lemma read_world_active (id : string) (f : Facilitator) (w : World) :
  active_set (read_world id f w) = active_set w.
Proof. unfold read_world. now destruct (legacy_record f). Qed.

Lemma read_record_fixed (f : Facilitator) :
  legacy_record f = false -> read_record f = f.
Proof. intros Hf. unfold read_record. now rewrite Hf. Qed.

Lemma updateFacilitatorStatus_store
    (id : string) (s : Status) (f : Facilitator) (w : World) :
  kv w !! key_of id = Some f ->
  Runtime.id f = id ->
  kv (snd (Storage.updateFacilitatorStatus id s w))
  = <[key_of id := with_status s (read_record f)]> (kv w)
  /\ active_set (snd (Storage.updateFacilitatorStatus id s w))
     = {[ id ]} ∪ active_set w
  /\ clock (snd (Storage.updateFacilitatorStatus id s w)) = clock w.
Proof.
  intros Hf Hid. rewrite (updateFacilitatorStatus_found _ _ _ _ Hf).
  unfold stored_world. cbn [snd kv active_set clock Runtime.id with_status].
  rewrite read_record_id, Hid, (read_world_kv _ _ _ Hf), insert_insert_eq.
  now rewrite read_world_active, read_world_clock.
Qed.

Lemma recordPayment_store (id : string) (f : Facilitator) (w : World) :
  kv w !! key_of id = Some f ->
  Runtime.id f = id ->
  kv (snd (Storage.recordPayment id w))
  = <[key_of id := paid (clock w) f]> (kv w)
  /\ active_set (snd (Storage.recordPayment id w)) = {[ id ]} ∪ active_set w
  /\ clock (snd (Storage.recordPayment id w)) = clock w.
Proof.
  intros Hf Hid. rewrite (recordPayment_found _ _ _ Hf).
  unfold stored_world, paid.
  cbn [snd kv active_set clock Runtime.id with_payment].
  rewrite read_record_id, Hid, (read_world_kv _ _ _ Hf), insert_insert_eq.
  now rewrite read_world_active, read_world_clock.
Qed.

(** X8.  A status update and a payment record touch different fields of
    the record and commute up to the time of the payment: on a record
    stored under its own id, the update leaves [totalPayments] and
    [lastUsed] of every record alone, the payment leaves every [status]
    alone, and doing both in either order, each call at a time of its own,
    leaves the same index and the same records but for [lastUsed] of the
    record, which is the time at which the payment was recorded; when that
    time is the same in both orders, so are the records. *)
Theorem status_update_and_payment_commute
    (id : string) (s : Status) (f : Facilitator) (w : World)
    (t_update t_payment t_payment' t_update' : Z) :
  kv w !! key_of id = Some f ->
  Runtime.id f = id ->
  let updated := snd (Storage.updateFacilitatorStatus id s (at_time t_update w)) in
  let paid_for := snd (Storage.recordPayment id (at_time t_payment' w)) in
  let update_first :=
    snd (Storage.recordPayment id (at_time t_payment updated)) in
  let payment_first :=
    snd (Storage.updateFacilitatorStatus id s (at_time t_update' paid_for)) in
  (forall key : string,
     totalPayments <$> kv updated !! key = totalPayments <$> kv w !! key
     /\ lastUsed <$> kv updated !! key = lastUsed <$> kv w !! key)
  /\ (forall key : string,
        status <$> kv paid_for !! key = status <$> kv w !! key)
  /\ kv update_first = <[key_of id := with_status s (paid t_payment f)]> (kv w)
  /\ kv payment_first = <[key_of id := with_status s (paid t_payment' f)]> (kv w)
  /\ active_set update_first = active_set payment_first
  /\ (t_payment = t_payment' -> kv update_first = kv payment_first).
Proof.
  intros Hf Hid updated paid_for update_first payment_first.
  destruct (updateFacilitatorStatus_store id s f (at_time t_update w) Hf Hid)
    as (Hukv & Huact & _).
  destruct (recordPayment_store id f (at_time t_payment' w) Hf Hid)
    as (Hpkv & Hpact & _).
  fold updated in Hukv, Huact. fold paid_for in Hpkv, Hpact.
  cbn [at_time kv active_set clock] in Hukv, Huact, Hpkv, Hpact.
  assert (Hu : kv (at_time t_payment updated) !! key_of id
               = Some (with_status s (read_record f)))
    by (cbn [at_time kv]; rewrite Hukv; apply lookup_insert_eq).
  assert (Hp : kv (at_time t_update' paid_for) !! key_of id
               = Some (paid t_payment' f))
    by (cbn [at_time kv]; rewrite Hpkv; apply lookup_insert_eq).
  destruct (recordPayment_store id _ (at_time t_payment updated) Hu)
    as (Hkv1 & Hact1 & _).
  { cbn [Runtime.id with_status]. now rewrite read_record_id. }
  destruct (updateFacilitatorStatus_store id s _ (at_time t_update' paid_for) Hp)
    as (Hkv2 & Hact2 & _).
  { unfold paid. cbn [Runtime.id with_payment]. now rewrite read_record_id. }
  fold update_first in Hkv1, Hact1. fold payment_first in Hkv2, Hact2.
  cbn [at_time kv active_set clock] in Hkv1, Hact1, Hkv2, Hact2.
  assert (Hfirst : kv update_first
                   = <[key_of id := with_status s (paid t_payment f)]> (kv w)).
  { rewrite Hkv1, Hukv, insert_insert_eq. f_equal. unfold paid at 1.
    rewrite (read_record_fixed (with_status s (read_record f)))
      by apply read_record_not_legacy.
    reflexivity. }
  assert (Hsecond : kv payment_first
                    = <[key_of id := with_status s (paid t_payment' f)]> (kv w)).
  { rewrite Hkv2, Hpkv, insert_insert_eq. f_equal.
    now rewrite (read_record_fixed (paid t_payment' f))
      by apply read_record_not_legacy. }
  split; [|split; [|split; [exact Hfirst|split; [exact Hsecond|split]]]].
  - intros key. rewrite Hukv.
    destruct (decide (key_of id = key)) as [<-|Hne].
    + rewrite lookup_insert_eq, Hf. cbn.
      unfold read_record. destruct (legacy_record f); split; reflexivity.
    + rewrite lookup_insert_ne by exact Hne. split; reflexivity.
  - intros key. rewrite Hpkv.
    destruct (decide (key_of id = key)) as [<-|Hne].
    + rewrite lookup_insert_eq, Hf. cbn. unfold paid. cbn [status with_payment].
      now rewrite read_record_status.
    + now rewrite lookup_insert_ne by exact Hne.
  - rewrite Hact1, Hact2, Huact, Hpact. reflexivity.
  - intros <-. now rewrite Hfirst, Hsecond.
Qed.

Lemma status_update_and_payment_commute_witness :
  kv (snd (Storage.recordPayment "fac_1"
             (at_time 1700000020000
                (snd (Storage.updateFacilitatorStatus "fac_1" inactive
                        (at_time 1700000010000 Samples.world))))))
  = <[key_of "fac_1" := with_status inactive (paid 1700000020000 Samples.fac)]>
      (kv Samples.world)
  /\ kv (snd (Storage.updateFacilitatorStatus "fac_1" inactive
                (at_time 1700000040000
                   (snd (Storage.recordPayment "fac_1"
                           (at_time 1700000030000 Samples.world))))))
     = <[key_of "fac_1" := with_status inactive (paid 1700000030000 Samples.fac)]>
         (kv Samples.world).
Proof.
  destruct (status_update_and_payment_commute "fac_1" inactive Samples.fac
              Samples.world 1700000010000 1700000020000 1700000030000
              1700000040000 sample_fac_stored eq_refl)
    as (_ & _ & Hfirst & Hsecond & _).
  split; [exact Hfirst | exact Hsecond].
Defined.

End StorageCalls.

(** ** Funding check: repetition, events, failures *)

Section FundingExtras.

Import Runtime.
Context `{Externals}.
Local Open Scope list_scope.

Lemma with_status_same (f : Facilitator) : with_status (status f) f = f.
Proof. now destruct f. Qed.

Lemma checked_not_legacy (balance : Z) (f : Facilitator) :
  legacy_record (checked balance f) = false.
Proof. exact (read_record_not_legacy f). Qed.

Lemma check_world_store (id : string) (f : Facilitator)
    (networkConfig : Networks.NetworkConfig) (balance : Z) (w : World) :
  kv w !! key_of id = Some f ->
  Runtime.id f = id ->
  kv (check_world id f networkConfig balance w)
  = <[key_of id := checked balance f]> (kv w)
  /\ chain (check_world id f networkConfig balance w) = chain w.
Proof.
  intros Hf Hid. unfold check_world, checked.
  destruct (Status_eqb (status f) (CheckAndActivate.newStatus balance)) eqn:Hst.
  - apply Status_eqb_eq in Hst.
    rewrite <- Hst, <- (read_record_status f), with_status_same.
    split; [now apply read_world_kv | apply read_world_chain].
  - assert (Hstored :
              kv (stored_world
                    (with_status (CheckAndActivate.newStatus balance) (read_record f))
                    (read_world id f w))
              = <[key_of id := with_status (CheckAndActivate.newStatus balance)
                                 (read_record f)]> (kv w)).
    { unfold stored_world. cbn [kv Runtime.id with_status].
      now rewrite read_record_id, Hid, (read_world_kv _ _ _ Hf), insert_insert_eq. }
    destruct (CheckAndActivate.newStatus balance);
      cbn [log_world kv chain]; (split; [exact Hstored|]);
      unfold stored_world; cbn [chain]; apply read_world_chain.
Qed.

(** X9.  A funding check can be repeated: it leaves the record with the
    status the balance decides, and a second check that reads the same
    balance reports the same status and changes nothing, neither the
    record nor the list of writes nor the audit log. *)
Theorem funding_check_is_idempotent
    (env : JS.Env) (id : string) (w : World) (f : Facilitator)
    (networkConfig : Networks.NetworkConfig) (balance : Z) :
  JS.truthy id = true ->
  kv w !! key_of id = Some f ->
  Runtime.id f = id ->
  Networks.getNetworkConfig env (check_network f) = inr networkConfig ->
  getBalance (chain w) (Networks.rpcUrl networkConfig) (facilitatorWallet f)
    = inr balance ->
  exists response w',
    CheckAndActivate.POST env (Some id) w = (Ok response, w')
    /\ kv w' !! key_of id
       = Some (with_status (CheckAndActivate.newStatus balance) (read_record f))
    /\ exists response',
         CheckAndActivate.POST env (Some id) w' = (Ok response', w')
         /\ CheckAndActivate.response_status response'
            = CheckAndActivate.response_status response.
Proof.
  intros Htruthy Hf Hid Hnet Hbal.
  destruct (check_run CheckAndActivate.RECOMMENDED_BALANCES env id w f
              networkConfig balance Htruthy Hf Hnet Hbal)
    as (response & Hrun & _ & Hstatus).
  destruct (check_world_store id f networkConfig balance w Hf Hid)
    as (Hkv & Hchain).
  set (w' := check_world id f networkConfig balance w) in *.
  assert (Hf' : kv w' !! key_of id = Some (checked balance f))
    by (rewrite Hkv; apply lookup_insert_eq).
  exists response, w'. split; [exact Hrun|]. split; [exact Hf'|].
  assert (Hfixed : read_record (checked balance f) = checked balance f)
    by (apply read_record_fixed, checked_not_legacy).
  destruct (check_run CheckAndActivate.RECOMMENDED_BALANCES env id w'
              (checked balance f) networkConfig balance Htruthy Hf')
    as (response' & Hrun' & _ & Hstatus').
  { unfold check_network. rewrite Hfixed. exact Hnet. }
  { rewrite Hchain. unfold checked. cbn [facilitatorWallet with_status].
    now rewrite read_record_wallet. }
  exists response'. split; [|now rewrite Hstatus, Hstatus'].
  unfold CheckAndActivate.POST. rewrite Hrun'. f_equal. unfold check_world.
  replace (Status_eqb (status (checked balance f))
             (CheckAndActivate.newStatus balance)) with true.
  - unfold read_world. now rewrite checked_not_legacy.
  - symmetry. now apply Status_eqb_eq.
Qed.

(** X10.  The activation event is logged exactly on a transition into
    active: one event, of type [facilitator_activated] and for this
    facilitator and chain, when the stored status is not active and the
    balance makes it active; none when the facilitator was active already
    and none when the check deactivates it or leaves it unfunded.  For a
    balance below 10^38 wei, where [toFixed] prints all digits, the event
    is the one written out in [activation_event], amount included. *)
Theorem activation_logged_on_transition_only
    (env : JS.Env) (id : string) (w : World) (f : Facilitator)
    (networkConfig : Networks.NetworkConfig) (balance : Z) :
  JS.truthy id = true ->
  kv w !! key_of id = Some f ->
  Networks.getNetworkConfig env (check_network f) = inr networkConfig ->
  getBalance (chain w) (Networks.rpcUrl networkConfig) (facilitatorWallet f)
    = inr balance ->
  exists response w',
    CheckAndActivate.POST env (Some id) w = (Ok response, w')
    /\ (status f <> active /\ CheckAndActivate.newStatus balance = active ->
        exists event : Event,
          events w' = events w ++ [event]
          /\ JS.assoc "eventType" event = Some (JS.JStr "facilitator_activated")
          /\ JS.assoc "facilitatorId" event = Some (JS.JStr (Runtime.id f))
          /\ JS.assoc "chainId" event
             = Some (JS.JNum (Networks.id (Networks.chain networkConfig)))
          /\ (balance < 10 ^ 38 ->
              event = activation_event (read_record f) networkConfig balance))
    /\ (status f = active \/ CheckAndActivate.newStatus balance <> active ->
        events w' = events w).
Proof.
  intros Htruthy Hf Hnet Hbal.
  destruct (check_run CheckAndActivate.RECOMMENDED_BALANCES env id w f
              networkConfig balance Htruthy Hf Hnet Hbal)
    as (response & Hrun & _ & _).
  exists response, (check_world id f networkConfig balance w).
  split; [exact Hrun|]. unfold check_world.
  destruct (Status_eqb (status f) (CheckAndActivate.newStatus balance)) eqn:Hst.
  - apply Status_eqb_eq in Hst. rewrite read_world_events. split.
    + intros [Hne Hact]. congruence.
    + reflexivity.
  - assert (Hdiff : status f <> CheckAndActivate.newStatus balance).
    { intros Heq. apply Status_eqb_eq in Heq. congruence. }
    destruct (CheckAndActivate.newStatus balance) eqn:Hnew;
      cbn [log_world stored_world events]; rewrite read_world_events; split;
      try reflexivity; try (intros [_ Hact]; discriminate Hact).
    + intros _. eexists. split; [reflexivity|].
      cbn [activation_event JS.assoc String.eqb Ascii.eqb Bool.eqb].
      rewrite read_record_id. repeat split.
    + intros [Hact|Hne]; [congruence | contradiction].
Qed.

(** X11.  A check that cannot read the balance decides nothing: when the
    facilitator's network is not registered (the table finds nothing under
    its name, or finds an inherited member), or the balance read throws,
    the answer is the generic 500 and the world is the one the read of the
    record leaves, with the stored status as it was. *)
Theorem funding_check_failure_keeps_status
    (env : JS.Env) (id : string) (w : World) (f : Facilitator) :
  JS.truthy id = true ->
  kv w !! key_of id = Some f ->
  (exists message,
     Networks.getNetworkConfig env (check_network f) = inl message)
  \/ Networks.getNetworkConfig env (check_network f) = inr Networks.Inherited
  \/ (exists (networkConfig : Networks.NetworkConfig) message,
        Networks.getNetworkConfig env (check_network f) = inr networkConfig
        /\ getBalance (chain w) (Networks.rpcUrl networkConfig)
             (facilitatorWallet f) = inl message) ->
  exists response w',
    CheckAndActivate.POST env (Some id) w = (Ok response, w')
    /\ Http.status response = 500
    /\ w' = snd (Storage.getFacilitator id w)
    /\ status <$> kv w' !! key_of id = Some (status f).
Proof.
  intros Htruthy Hf Hfail.
  assert (Hkept : status <$> kv (read_world id f w) !! key_of id
                  = Some (status f)).
  { rewrite (read_world_lookup _ _ _ Hf). cbn. now rewrite read_record_status. }
  unfold CheckAndActivate.POST, CheckAndActivate.POST_with, try_catch.
  rewrite Htruthy. cbn [negb].
  unfold bind at 1. rewrite (getFacilitator_found _ _ _ Hf).
  fold (check_network f). cbn [snd].
  destruct Hfail
    as [(message & Hnet)|[Hnet|(networkConfig & message & Hnet & Hbal)]].
  - unfold bind at 1. rewrite Hnet. cbn [lift throw ret].
    eexists _, _. split; [reflexivity|]. repeat split. exact Hkept.
  - unfold bind at 1. rewrite Hnet. cbn [lift ret].
    unfold bind at 1. cbn [Networks.entry_of lift throw].
    eexists _, _. split; [reflexivity|]. repeat split. exact Hkept.
  - unfold bind at 1. rewrite Hnet. cbn [lift ret].
    unfold bind at 1. cbn [Networks.entry_of lift ret].
    unfold bind at 1, read_balance at 1.
    rewrite read_world_chain, read_record_wallet, Hbal.
    eexists _, _. split; [reflexivity|]. repeat split. exact Hkept.
Qed.

End FundingExtras.

Lemma funding_check_is_idempotent_witness :
  exists response w',
    CheckAndActivate.POST (H := Samples.externals) Samples.env (Some "fac_old")
      Samples.world = (Runtime.Ok response, w')
    /\ exists response',
         CheckAndActivate.POST (H := Samples.externals) Samples.env
           (Some "fac_old") w' = (Runtime.Ok response', w')
         /\ CheckAndActivate.response_status response'
            = CheckAndActivate.response_status response.
Proof.
  destruct (funding_check_is_idempotent (H := Samples.externals)
              Samples.env "fac_old" Samples.world Samples.legacy fuji_network
              (10 ^ 14 + 1) eq_refl sample_legacy_stored eq_refl eq_refl eq_refl)
    as (response & w' & Hrun & _ & Hagain).
  exists response, w'. split; [exact Hrun | exact Hagain].
Defined.

Lemma activation_logged_on_transition_only_witness :
  exists response w',
    CheckAndActivate.POST (H := Samples.externals) Samples.env (Some "fac_1")
      Samples.world = (Runtime.Ok response, w')
    /\ Runtime.events w' = Runtime.events Samples.world.
Proof.
  destruct (activation_logged_on_transition_only (H := Samples.externals)
              Samples.env "fac_1" Samples.world Samples.fac fuji_network
              (10 ^ 14 + 1) eq_refl sample_fac_stored eq_refl eq_refl)
    as (response & w' & Hrun & _ & Hquiet).
  exists response, w'. split; [exact Hrun|].
  apply Hquiet. left. reflexivity.
Defined.

Lemma optimism_fac_stored :
  Runtime.kv optimism_world !! key_of "fac_1" = Some optimism_fac.
Proof. vm_compute. reflexivity. Defined.

Lemma funding_check_failure_keeps_status_witness :
  exists response w',
    CheckAndActivate.POST (H := Samples.externals) Samples.env (Some "fac_1")
      optimism_world = (Runtime.Ok response, w')
    /\ Http.status response = 500
    /\ Runtime.status <$> Runtime.kv w' !! key_of "fac_1" = Some Runtime.active.
Proof.
  destruct (funding_check_failure_keeps_status (H := Samples.externals)
              Samples.env "fac_1" optimism_world optimism_fac eq_refl
              optimism_fac_stored
              (or_introl (ex_intro _ "Unsupported network: optimism-sepolia"
                            eq_refl)))
    as (response & w' & Hrun & Hstatus & _ & Hkept).
  exists response, w'. split; [exact Hrun|]. split; [exact Hstatus | exact Hkept].
Defined.

(** ** Batch settlement: requests for another network, totals of a success *)

Section BatchExtras.

Import Runtime.
Context `{Externals}.
Local Open Scope list_scope.

(** X12.  The batch route refuses to settle on a network the facilitator
    is not bound to: the answer is a 400 that names both networks, no call
    reaches the chain, nothing is logged and no counter moves. *)
Theorem batch_rejects_foreign_network
    (env : JS.Env) (request : SettleBatch.Request) (w : World)
    (id network : string) (f : Facilitator)
    (auths : list ERC3009.SignedAuthorizationJSON) :
  SettleBatch.facilitatorId request = Some id ->
  JS.truthy id = true ->
  SettleBatch.network request = Some network ->
  JS.truthy network = true ->
  SettleBatch.authorizations request = Some auths ->
  auths <> [] ->
  kv w !! key_of id = Some f ->
  network <> check_network f ->
  exists response w',
    SettleBatch.POST env request w = (Ok response, w')
    /\ Http.status response = 400
    /\ Http.body response
       = JS.JObj [("error",
                   JS.JStr ("Facilitator is on " ++ check_network f
                            ++ ", not " ++ network)%string)]
    /\ chain w' = chain w
    /\ events w' = events w
    /\ forall key : string,
         totalPayments <$> kv w' !! key = totalPayments <$> kv w !! key
         /\ lastUsed <$> kv w' !! key = lastUsed <$> kv w !! key.
Proof.
  intros Hid Htruthy Hnetwork Hnt Hauths Hne Hf Hother.
  unfold SettleBatch.POST, try_catch.
  rewrite Hid, Hnetwork, Hauths, Htruthy, Hnt. cbn [negb orb].
  destruct auths as [|a auths]; [contradiction|]. cbn [length Nat.eqb].
  unfold bind at 1. rewrite (getFacilitator_found _ _ _ Hf).
  fold (check_network f).
  destruct (String.eqb_spec (check_network f) network) as [Heq|_];
    [now subst network|].
  cbn [negb ret].
  eexists _, _. split; [reflexivity|]. split; [reflexivity|].
  split; [reflexivity|]. split; [apply read_world_chain|].
  split; [apply read_world_events|].
  exact (proj2 (getFacilitator_frame id w _ _ (getFacilitator_found _ _ _ Hf))).
Qed.

Lemma receipts_gas_cons (entry : TxCall * TxOutcome) (entries : ChainLog) :
  receipts_gas (entry :: entries)
  = match snd entry with
    | Mined _ (Some receipt) => Signature.gasSpent receipt + receipts_gas entries
    | _ => receipts_gas entries
    end.
Proof. reflexivity. Qed.

(** With every leg mined, the loop returns the hashes in order and the sum
    of the gas, and logs one event for each receipt. *)
Lemma transfers_totals (facilitatorId : string) (facilitator : Facilitator)
    (networkConfig : Networks.NetworkConfig) (privateKey : string)
    (auths : list ERC3009.SignedAuthorizationJSON) :
  forall (txHashes : list string) (totalGasSpent : Z) (w : World),
    forallb mined
      (legs (chain w) (map (batch_call networkConfig privateKey) auths)) = true ->
    exists w',
      SettleBatch.transfers facilitatorId facilitator networkConfig privateKey
        auths txHashes totalGasSpent w
      = (Ok (txHashes
             ++ confirmed_hashes
                  (legs (chain w) (map (batch_call networkConfig privateKey) auths)),
             totalGasSpent
             + receipts_gas
                 (legs (chain w) (map (batch_call networkConfig privateKey) auths))),
         w')
      /\ kv w' = kv w
      /\ events w'
         = events w
           ++ transfer_events facilitatorId facilitator networkConfig
                (legs (chain w) (map (batch_call networkConfig privateKey) auths)).
Proof.
  induction auths as [|a auths IH]; intros txHashes gas w Hall.
  - cbn. eexists. rewrite !app_nil_r, Z.add_0_r. repeat split; reflexivity.
  - cbn [map legs forallb] in Hall.
    apply andb_true_iff in Hall as [Hm Hrest].
    cbn [SettleBatch.transfers map legs].
    fold (batch_call networkConfig privateKey a).
    set (call := batch_call networkConfig privateKey a) in *.
    unfold bind at 1.
    destruct (send_run call w) as (r0 & Hsend & Hr0). rewrite Hsend.
    unfold mined in Hm. cbn [snd] in Hm.
    destruct (transferWithAuthorization (chain w) call)
      as [message|hash message|hash receipt] eqn:Hout; try discriminate.
    subst r0. rewrite receipts_gas_cons. cbn [snd].
    change (confirmed_hashes ((call, Mined hash receipt) :: ?es))
      with (hash :: confirmed_hashes es).
    destruct receipt as [receipt|].
    + unfold bind at 1, logEvent at 1.
      match goal with
      | |- context [SettleBatch.transfers _ _ _ _ auths ?acc ?g ?w1] =>
          destruct (IH acc g w1) as (w' & Hrun & Hkv & Hev); [exact Hrest|]
      end.
      rewrite Hrun. exists w'. cbn [chain kv events] in *.
      rewrite <- !app_assoc. cbn [app].
      split; [now rewrite Z.add_assoc|]. split; [exact Hkv|].
      rewrite Hev, <- app_assoc. reflexivity.
    + match goal with
      | |- context [SettleBatch.transfers _ _ _ _ auths ?acc ?g ?w1] =>
          destruct (IH acc g w1) as (w' & Hrun & Hkv & Hev); [exact Hrest|]
      end.
      rewrite Hrun. exists w'. cbn [chain kv events] in *.
      rewrite <- !app_assoc. cbn [app].
      split; [reflexivity|]. split; [exact Hkv|].
      rewrite Hev. reflexivity.
Qed.

(** X13.  A batch whose every leg is mined answers with the hash of every
    leg in the order of the request, the first of them as [txHash], and
    the sum over the receipts of gas used times gas price as
    [totalGasSpent]; the audit log gains one transfer event for each leg
    that has a receipt, in the same order. *)
Theorem batch_success_totals
    (env : JS.Env) (request : SettleBatch.Request) (w : World)
    (id : string) (f : Facilitator) (networkConfig : Networks.NetworkConfig)
    (privateKey : string) (auths : list ERC3009.SignedAuthorizationJSON) :
  ready env request w id f networkConfig privateKey auths ->
  forallb mined
    (legs (chain w) (map (batch_call networkConfig privateKey) auths)) = true ->
  exists response w',
    SettleBatch.POST env request w = (Ok response, w')
    /\ Http.status response = 200
    /\ JS.prop (Http.body response) "txHashes"
       = JS.JArr
           (map JS.JStr
              (confirmed_hashes
                 (legs (chain w) (map (batch_call networkConfig privateKey) auths))))
    /\ JS.prop (Http.body response) "txHash"
       = match confirmed_hashes
                 (legs (chain w) (map (batch_call networkConfig privateKey) auths))
         with
         | first :: _ => JS.JStr first
         | [] => JS.JUndefined
         end
    /\ JS.prop (Http.body response) "totalGasSpent"
       = JS.JStr
           (JS.bigint_toString
              (receipts_gas
                 (legs (chain w) (map (batch_call networkConfig privateKey) auths))))
    /\ events w'
       = events w
         ++ transfer_events id (read_record f) networkConfig
              (legs (chain w) (map (batch_call networkConfig privateKey) auths)).
Proof.
  intros Hready Hmined.
  pose proof (ready_stored _ _ _ _ _ _ _ _ Hready) as Hf.
  destruct (batch_ready_run env request w id f networkConfig privateKey _ Hready)
    as (wallet & Hrun).
  destruct (transfers_totals id (read_record f) networkConfig privateKey
              auths [] 0 (read_world id f w))
    as (w1 & Hloop & Hkv & Hev).
  { now rewrite read_world_chain. }
  rewrite read_world_chain, read_world_events in *.
  rewrite Hloop in Hrun.
  assert (Hstored : kv w1 !! key_of id = Some (read_record f)).
  { rewrite Hkv. now apply read_world_lookup. }
  rewrite (recordPayment_found _ _ _ Hstored) in Hrun.
  eexists _, _. split; [exact Hrun|].
  split; [reflexivity|]. split; [reflexivity|]. split; [reflexivity|].
  split; [reflexivity|].
  cbn [stored_world events]. now rewrite read_world_events.
Qed.

End BatchExtras.

Lemma batch_rejects_foreign_network_witness :
  exists response w',
    SettleBatch.POST (H := Samples.externals) Samples.env
      {| SettleBatch.facilitatorId := Some "fac_1";
         SettleBatch.network := Some "base-sepolia";
         SettleBatch.authorizations := Some [Samples.authA] |}
      Samples.world = (Runtime.Ok response, w')
    /\ Http.status response = 400
    /\ Runtime.chain w' = Runtime.chain Samples.world.
Proof.
  destruct (batch_rejects_foreign_network (H := Samples.externals) Samples.env
              {| SettleBatch.facilitatorId := Some "fac_1";
                 SettleBatch.network := Some "base-sepolia";
                 SettleBatch.authorizations := Some [Samples.authA] |}
              Samples.world "fac_1" "base-sepolia" Samples.fac [Samples.authA]
              eq_refl eq_refl eq_refl eq_refl eq_refl ltac:(easy)
              sample_fac_stored ltac:(easy))
    as (response & w' & Hrun & Hstatus & _ & Hchain & _).
  exists response, w'. split; [exact Hrun|]. split; [exact Hstatus | exact Hchain].
Defined.

Lemma batch_success_totals_witness :
  exists response w',
    SettleBatch.POST (H := Samples.externals) Samples.env
      (Samples.batch [Samples.authA; Samples.authC]) Samples.world
    = (Runtime.Ok response, w')
    /\ JS.prop (Http.body response) "txHashes"
       = JS.JArr [JS.JStr "0xhash-0xn1"; JS.JStr "0xhash-0xn3"]
    /\ JS.prop (Http.body response) "totalGasSpent" = JS.JStr "3000000"
    /\ length (Runtime.events w') = 2%nat.
Proof.
  destruct (batch_success_totals (H := Samples.externals)
              Samples.env (Samples.batch [Samples.authA; Samples.authC])
              Samples.world "fac_1" Samples.fac fuji_network
              "key-of-system-box" [Samples.authA; Samples.authC]
              (sample_batch_ready [Samples.authA; Samples.authC] ltac:(easy))
              eq_refl)
    as (response & w' & Hrun & _ & Hhashes & _ & Hgas & Hevents).
  exists response, w'. split; [exact Hrun|].
  split; [exact Hhashes|]. split; [exact Hgas|].
  rewrite Hevents. reflexivity.
Defined.

(** ** Single settlement: the run of a request that reaches the chain *)

Section SingleExtras.

Import Runtime.
Context `{Externals}.
Local Open Scope list_scope.

Lemma sent_world_read (call : TxCall) (outcome : TxOutcome) (id : string)
    (f : Facilitator) (w : World) :
  {| kv := kv (read_world id f w);
     active_set := active_set (read_world id f w);
     writes := writes (read_world id f w);
     chain := chain w ++ [(call, outcome)];
     events := events (read_world id f w);
     clock := clock (read_world id f w) |}
  = sent_world call outcome (read_world id f w).
Proof. unfold sent_world. now rewrite read_world_chain. Qed.

Lemma single_run (env : JS.Env) (request : SettleCustom.Request) (w : World)
    (id : string) (payload : SettleCustom.PaymentPayload) (f : Facilitator)
    (networkConfig : Networks.NetworkConfig)
    (usdcContractConfig : Contracts.USDCContract) (privateKey : string) :
  single_ready env request w id payload f networkConfig usdcContractConfig
    privateKey ->
  let call :=
    single_call networkConfig privateKey request payload
      (Contracts.address usdcContractConfig) in
  let outcome := transferWithAuthorization (chain w) call in
  let sent := sent_world call outcome (read_world id f w) in
  match outcome with
  | Mined hash receipt =>
      exists response,
        SettleCustom.POST env request w
        = (Ok response,
           log_world
             (SettleBatch.transfer_event id (read_record f) networkConfig hash
                (Runtime.from call) (Runtime.to call) (Runtime.value call)
                (receipt_gas receipt))
             (stored_world (paid (clock w) f) sent))
        /\ Http.status response = 200
        /\ JS.prop (Http.body response) "txHash" = JS.JStr hash
        /\ JS.prop (Http.body response) "network"
           = JS.JStr (SettleCustom.resolveNetwork env request (read_record f))
        /\ JS.prop (Http.body response) "usdcAddress"
           = JS.JStr (contractAddress call)
  | SubmitThrows message | WaitThrows _ message =>
      SettleCustom.POST env request w
      = (Ok (SettleCustom.failure message), sent)
  end.
Proof.
  intros [Hid Htruthy Hpayload Hf Hnet Husdc (masterKey & Hkey & Hkeyt & Hdec)
            (wallet & Hwallet)] call outcome sent.
  remember (SettleCustom.POST env request w) as result eqn:Hresult.
  unfold SettleCustom.POST, try_catch in Hresult.
  rewrite Hid, Hpayload, Htruthy in Hresult. cbn [negb] in Hresult.
  unfold bind at 1 in Hresult. rewrite (getFacilitator_found _ _ _ Hf) in Hresult.
  unfold bind at 1 in Hresult. rewrite Hnet in Hresult. cbn [lift ret] in Hresult.
  unfold bind at 1 in Hresult. rewrite Husdc in Hresult. cbn [lift ret] in Hresult.
  unfold bind at 1 in Hresult. cbn [Networks.entry_of lift ret] in Hresult.
  rewrite Hkey, Hkeyt in Hresult. cbn [negb] in Hresult.
  rewrite read_record_key in Hresult.
  unfold bind at 1 in Hresult. rewrite Hdec in Hresult. cbn [lift ret] in Hresult.
  unfold bind at 1 in Hresult. rewrite Hwallet in Hresult.
  cbn [lift ret] in Hresult.
  rewrite finalUsdcAddress_first_usable in Hresult.
  fold (single_call networkConfig privateKey request payload
          (Contracts.address usdcContractConfig)) in Hresult.
  fold call in Hresult.
  destruct (send_run call (read_world id f w)) as (r & Hsend & Hr).
  rewrite read_world_chain in Hsend, Hr.
  unfold bind at 1 in Hresult. rewrite Hsend in Hresult.
  fold outcome in Hr, Hresult. rewrite sent_world_read in Hresult.
  fold sent in Hresult.
  destruct outcome as [message|hash message|hash receipt]; subst r;
    try exact Hresult.
  unfold bind at 1 in Hresult.
  assert (Hpaid : kv sent !! key_of id = Some (read_record f))
    by (unfold sent, sent_world; cbn [kv]; now apply read_world_lookup).
  rewrite (recordPayment_found id _ sent Hpaid) in Hresult.
  rewrite read_world_idem in Hresult.
  replace (paid (clock sent) (read_record f)) with (paid (clock w) f)
    in Hresult.
  2:{ unfold paid. rewrite read_record_idem. unfold sent, sent_world.
      cbn [clock]. now rewrite read_world_clock. }
  unfold bind, logEvent, ret in Hresult.
  assert (Hcall : contractAddress call
                  = first_usable (request_sources request payload)
                      (Contracts.address usdcContractConfig)).
  { unfold call, single_call, Signature.call_of.
    destruct (Signature.split _) as [[v0 r0] s0]. reflexivity. }
  subst result. eexists. split.
  - unfold log_world. f_equal. f_equal. f_equal. f_equal.
    unfold SettleBatch.transfer_event. destruct receipt as [receipt|]; reflexivity.
  - rewrite Hcall. repeat split.
Qed.

(** X14.  A single settlement whose transaction is mined counts exactly
    one payment and logs exactly one transfer event: the stored counter of
    the facilitator goes up by one, [lastUsed] becomes the time of the
    call, and the event carries the hash, the parties and amount of the
    authorization, and the gas the receipt reports (zero without one).
    The request is one whose resolved network both registries hold (which
    a member name of [Object.prototype] is not). *)
Theorem single_settlement_records_one_payment
    (env : JS.Env) (request : SettleCustom.Request) (w : World)
    (id : string) (payload : SettleCustom.PaymentPayload) (f : Facilitator)
    (networkConfig : Networks.NetworkConfig)
    (usdcContractConfig : Contracts.USDCContract) (privateKey : string)
    (hash : string) (receipt : option Receipt) :
  single_ready env request w id payload f networkConfig usdcContractConfig
    privateKey ->
  Runtime.id f = id ->
  transferWithAuthorization (chain w)
    (single_call networkConfig privateKey request payload
       (Contracts.address usdcContractConfig))
  = Mined hash receipt ->
  exists response w' f',
    SettleCustom.POST env request w = (Ok response, w')
    /\ Http.status response = 200
    /\ JS.prop (Http.body response) "txHash" = JS.JStr hash
    /\ kv w' !! key_of id = Some f'
    /\ totalPayments f' = totalPayments f + 1
    /\ lastUsed f' = clock w
    /\ status f' = status f
    /\ confirmed_hashes (chain w') = confirmed_hashes (chain w) ++ [hash]
    /\ events w'
       = events w
         ++ [SettleBatch.transfer_event id (read_record f) networkConfig hash
               (ERC3009.from (SettleCustom.authorization payload))
               (ERC3009.to (SettleCustom.authorization payload))
               (ERC3009.value (SettleCustom.authorization payload))
               (receipt_gas receipt)].
Proof.
  intros Hready Hid Hmined.
  pose proof (single_run env request w id payload f networkConfig
                usdcContractConfig privateKey Hready) as Hrun.
  cbv zeta in Hrun. rewrite Hmined in Hrun.
  destruct Hrun as (response & Hrun & Hstatus & Hhash & _).
  eexists response, _, (paid (clock w) f).
  split; [exact Hrun|]. split; [exact Hstatus|]. split; [exact Hhash|].
  cbn [log_world stored_world sent_world kv chain events].
  split.
  { replace (Runtime.id (paid (clock w) f)) with id.
    - apply lookup_insert_eq.
    - unfold paid. cbn [Runtime.id with_payment]. now rewrite read_record_id. }
  unfold paid. cbn [totalPayments lastUsed status with_payment].
  split; [unfold read_record; now destruct (legacy_record f)|].
  split; [reflexivity|]. split; [apply read_record_status|].
  rewrite read_world_chain, read_world_events, confirmed_hashes_app.
  split; [reflexivity|].
  unfold single_call, Signature.call_of.
  destruct (Signature.split _) as [[v0 r0] s0]. reflexivity.
Qed.

Lemma resolveNetwork_named (env : JS.Env) (request : SettleCustom.Request)
    (f : Facilitator) (network : string) :
  SettleCustom.network request = JS.JStr network ->
  Networks.isNetworkSupported env network = true ->
  SettleCustom.resolveNetwork env request f = network.
Proof.
  intros Hnetwork Hsupported. unfold SettleCustom.resolveNetwork.
  rewrite Hnetwork, Hsupported.
  assert (Htruthy : JS.truthy network = true).
  { destruct network; [|reflexivity].
    unfold Networks.isNetworkSupported, Networks.lookup in Hsupported.
    cbn in Hsupported. discriminate. }
  now rewrite Htruthy.
Qed.

(** X15.  The single route settles on the network the request names,
    whatever network the facilitator is bound to and whatever chain id the
    request carries: when the named network is registered, the call goes
    to the RPC endpoint of that network, signed with the facilitator's
    key. *)
Theorem single_settlement_follows_named_network
    (env : JS.Env) (request : SettleCustom.Request) (w : World)
    (id network : string) (payload : SettleCustom.PaymentPayload)
    (f : Facilitator) (networkConfig : Networks.NetworkConfig)
    (usdcContractConfig : Contracts.USDCContract)
    (masterKey privateKey wallet : string) :
  SettleCustom.facilitatorId request = Some id ->
  JS.truthy id = true ->
  SettleCustom.paymentPayload request = Some payload ->
  kv w !! key_of id = Some f ->
  SettleCustom.network request = JS.JStr network ->
  Networks.getNetworkConfig env network = inr networkConfig ->
  Contracts.getUSDCContract env network = inr usdcContractConfig ->
  env "SYSTEM_MASTER_KEY" = Some masterKey ->
  JS.truthy masterKey = true ->
  decryptPrivateKey (systemEncryptedKey f) masterKey = inr privateKey ->
  walletAddress privateKey = inr wallet ->
  exists response w' call outcome,
    SettleCustom.POST env request w = (Ok response, w')
    /\ chain w' = chain w ++ [(call, outcome)]
    /\ Runtime.rpcUrl call = Networks.rpcUrl networkConfig
    /\ Networks.name networkConfig = network
    /\ Runtime.privateKey call = privateKey.
Proof.
  intros Hid Htruthy Hpayload Hf Hnetwork Hnet Husdc Hkey Hkeyt Hdec Hwallet.
  assert (Hsupported : Networks.isNetworkSupported env network = true).
  { unfold Networks.isNetworkSupported. unfold Networks.getNetworkConfig in Hnet.
    now destruct (Networks.lookup env network). }
  pose proof (resolveNetwork_named env request (read_record f) network
                Hnetwork Hsupported) as Hresolved.
  assert (Hready : single_ready env request w id payload f networkConfig
                     usdcContractConfig privateKey).
  { split; try assumption; try (now rewrite Hresolved).
    - exists masterKey. repeat split; assumption.
    - exists wallet. exact Hwallet. }
  pose proof (single_run env request w id payload f networkConfig
                usdcContractConfig privateKey Hready) as Hrun.
  cbv zeta in Hrun.
  set (call := single_call networkConfig privateKey request payload
                 (Contracts.address usdcContractConfig)) in *.
  assert (Hcall : Runtime.rpcUrl call = Networks.rpcUrl networkConfig
                  /\ Runtime.privateKey call = privateKey).
  { unfold call, single_call, Signature.call_of.
    destruct (Signature.split _) as [[v0 r0] s0]. split; reflexivity. }
  assert (Hname : Networks.name networkConfig = network).
  { apply getNetworkConfig_entry in Hnet.
    exact (proj1 (lookup_name_chain _ _ _ Hnet)). }
  destruct (transferWithAuthorization (chain w) call)
    as [message|hash message|hash receipt] eqn:Hout.
  - eexists _, _, call, _. split; [exact Hrun|].
    cbn [sent_world chain]. rewrite read_world_chain.
    split; [reflexivity|]. tauto.
  - eexists _, _, call, _. split; [exact Hrun|].
    cbn [sent_world chain]. rewrite read_world_chain.
    split; [reflexivity|]. tauto.
  - destruct Hrun as (response & Hrun & _).
    eexists _, _, call, _. split; [exact Hrun|].
    cbn [log_world stored_world sent_world chain]. rewrite read_world_chain.
    split; [reflexivity|]. tauto.
Qed.

(** X16.  The single route needs the contract registry even when the
    request brings the token address: if the registry has no configured
    entry for the resolved network, the answer is the 500 with the
    registry's message and no call reaches the chain.  This holds for
    whatever [getNetworkConfig] returned, an entry of the table or an
    inherited member. *)
Theorem single_settlement_needs_contract_registry
    (env : JS.Env) (request : SettleCustom.Request) (w : World)
    (id : string) (payload : SettleCustom.PaymentPayload) (f : Facilitator)
    (networkConfig : Networks.Found) (message : string) :
  SettleCustom.facilitatorId request = Some id ->
  JS.truthy id = true ->
  SettleCustom.paymentPayload request = Some payload ->
  kv w !! key_of id = Some f ->
  Networks.getNetworkConfig env
    (SettleCustom.resolveNetwork env request (read_record f))
  = inr networkConfig ->
  Contracts.getUSDCContract env
    (SettleCustom.resolveNetwork env request (read_record f))
  = inl message ->
  exists w',
    SettleCustom.POST env request w = (Ok (SettleCustom.failure message), w')
    /\ chain w' = chain w
    /\ events w' = events w
    /\ w' = snd (Storage.getFacilitator id w).
Proof.
  intros Hid Htruthy Hpayload Hf Hnet Husdc.
  unfold SettleCustom.POST, try_catch.
  rewrite Hid, Hpayload, Htruthy. cbn [negb].
  unfold bind at 1. rewrite (getFacilitator_found _ _ _ Hf).
  unfold bind at 1. rewrite Hnet. cbn [lift ret].
  unfold bind at 1. rewrite Husdc. cbn [lift throw ret snd].
  eexists. split; [reflexivity|].
  split; [apply read_world_chain|]. split; [apply read_world_events | reflexivity].
Qed.

End SingleExtras.

(** A request that names [toString] is not settled on the network of the
    facilitator: the name passes the registry check of the first tier, the
    contract registry throws for it, and the route answers 500 without a
    call and without a write. *)
Example single_settlement_at_inherited_name :
  SettleCustom.resolveNetwork Samples.env request_on_toString Samples.fac
  = "toString"
  /\ SettleCustom.POST (H := Samples.externals) Samples.env request_on_toString
       Samples.world
     = (Runtime.Ok
          (SettleCustom.failure
             "USDC contract address not set for toString. Please set NEXT_PUBLIC_USDC_ADDRESS_TOSTRING in .env.local"),
        Samples.world).
Proof. split; vm_compute; reflexivity. Qed.

Lemma sample_single_ready :
  single_ready (H := Samples.externals) Samples.env request_by_verifying
    Samples.world "fac_1" (payload_of request_by_verifying) Samples.fac
    fuji_network fuji_usdc "key-of-system-box".
Proof.
  split; try reflexivity; try exact sample_fac_stored.
  - exists "master-secret". repeat split; reflexivity.
  - eexists. reflexivity.
Defined.

Lemma single_settlement_records_one_payment_witness :
  exists response w' f',
    SettleCustom.POST (H := Samples.externals) Samples.env request_by_verifying
      Samples.world = (Runtime.Ok response, w')
    /\ Runtime.kv w' !! key_of "fac_1" = Some f'
    /\ Runtime.totalPayments f' = 8
    /\ length (Runtime.events w') = 1%nat.
Proof.
  destruct (single_settlement_records_one_payment (H := Samples.externals)
              Samples.env request_by_verifying Samples.world "fac_1"
              (payload_of request_by_verifying) Samples.fac fuji_network
              fuji_usdc "key-of-system-box" "0xhash-0xn1" (Some Samples.receipt)
              sample_single_ready eq_refl eq_refl)
    as (response & w' & f' & Hrun & _ & _ & Hstored & Htotal & _ & _ & _ & Hevents).
  exists response, w', f'. split; [exact Hrun|]. split; [exact Hstored|].
  split; [exact Htotal|]. rewrite Hevents. reflexivity.
Defined.

Lemma single_settlement_follows_named_network_witness :
  exists response w' call outcome,
    SettleCustom.POST (H := Samples.externals) base_env request_on_base
      Samples.world = (Runtime.Ok response, w')
    /\ Runtime.chain w' = [(call, outcome)]
    /\ Runtime.rpcUrl call = "https://sepolia.base.org".
Proof.
  destruct (single_settlement_follows_named_network (H := Samples.externals)
              base_env request_on_base Samples.world "fac_1" "base-sepolia"
              (payload_of request_on_base) Samples.fac base_overridden
              base_usdc "master-secret" "key-of-system-box"
              "0x00000000000000000000000000000000000000f1"
              eq_refl eq_refl eq_refl sample_fac_stored eq_refl eq_refl eq_refl
              eq_refl eq_refl eq_refl eq_refl)
    as (response & w' & call & outcome & Hrun & Hchain & Hrpc & _).
  exists response, w', call, outcome.
  split; [exact Hrun|]. split; [exact Hchain | exact Hrpc].
Defined.

Lemma single_settlement_needs_contract_registry_witness :
  exists w',
    SettleCustom.POST (H := Samples.externals) Samples.env request_on_arbitrum
      Samples.world
    = (Runtime.Ok
         (SettleCustom.failure
            "USDC contract not configured for network: arbitrum-sepolia"), w')
    /\ Runtime.chain w' = Runtime.chain Samples.world.
Proof.
  destruct (single_settlement_needs_contract_registry (H := Samples.externals)
              Samples.env request_on_arbitrum Samples.world "fac_1"
              (payload_of request_on_arbitrum) Samples.fac
              {| Networks.chain := Networks.arbitrumSepoliaChain;
                 Networks.name := "arbitrum-sepolia";
                 Networks.displayName := "Arbitrum Sepolia";
                 Networks.rpcUrl := "https://sepolia-rollup.arbitrum.io/rpc";
                 Networks.blockExplorer := "https://sepolia.arbiscan.io";
                 Networks.usdcAddress :=
                   "0x75faf114eafb1BDbe2F0316DF893fd58CE46AA4d";
                 Networks.usdcDecimals := 6;
                 Networks.nativeCurrency := Networks.eth;
                 Networks.erc3009Domain :=
                   {| Networks.domain_name := "USDC";
                      Networks.version := "2";
                      Networks.chainId := 421614;
                      Networks.verifyingContract :=
                        "0x75faf114eafb1BDbe2F0316DF893fd58CE46AA4d" |} |}
              "USDC contract not configured for network: arbitrum-sepolia"
              eq_refl eq_refl eq_refl sample_fac_stored eq_refl eq_refl)
    as (w' & Hrun & Hchain & _).
  exists w'. split; [exact Hrun | exact Hchain].
Defined.

(** ** The public listing *)

Section ListingFacts.

Import Runtime.
Context `{Listing.Index}.
Local Open Scope list_scope.

Lemma insert_recent_perm (x : Listing.PublicFacilitatorInfo)
    (l : list Listing.PublicFacilitatorInfo) :
  Listing.insert_recent x l ≡ₚ x :: l.
Proof.
  induction l as [|y l IH]; cbn [Listing.insert_recent]; [reflexivity|].
  destruct (Listing.lastUsed x <? Listing.lastUsed y); [|reflexivity].
  rewrite IH. apply Permutation_swap.
Qed.

Lemma sort_recent_perm (l : list Listing.PublicFacilitatorInfo) :
  Listing.sort_recent l ≡ₚ l.
Proof.
  induction l as [|x l IH]; cbn [Listing.sort_recent fold_right]; [reflexivity|].
  fold (Listing.sort_recent l). now rewrite insert_recent_perm, IH.
Qed.

Lemma insert_recent_sorted (x : Listing.PublicFacilitatorInfo)
    (l : list Listing.PublicFacilitatorInfo) :
  recent_first l -> recent_first (Listing.insert_recent x l).
Proof.
  induction l as [|y l IH]; cbn [Listing.insert_recent recent_first].
  - intros _. split; [constructor | exact I].
  - intros [Hy Hl].
    destruct (Z.ltb_spec (Listing.lastUsed x) (Listing.lastUsed y)) as [Hlt|Hge];
      cbn [recent_first].
    + split; [|now apply IH].
      rewrite (insert_recent_perm x l). constructor; [lia | exact Hy].
    + split; [|split; assumption].
      constructor; [exact Hge|].
      eapply List.Forall_impl; [|exact Hy]. cbn. intros later Hlater. lia.
Qed.

Lemma sort_recent_sorted (l : list Listing.PublicFacilitatorInfo) :
  recent_first (Listing.sort_recent l).
Proof.
  induction l as [|x l IH]; cbn [Listing.sort_recent fold_right]; [exact I|].
  now apply insert_recent_sorted.
Qed.

Lemma getActiveFacilitators_run (networkFilter : option string) (w : World) :
  Listing.getActiveFacilitators networkFilter w
  = (Ok (Listing.sort_recent
           (omap (Listing.entry networkFilter)
              (map (fun id => kv w !! key_of id)
                 (Listing.smembers (active_set w))))), w).
Proof.
  unfold Listing.getActiveFacilitators, bind, Listing.redis_smembers,
    Listing.redis_mget, ret.
  destruct (Listing.smembers (active_set w)) as [|id ids]; [reflexivity|].
  cbn [length Nat.eqb]. now rewrite map_map.
Qed.

Lemma smembers_elem (w : World) (id : string) :
  In id (Listing.smembers (active_set w)) <-> id ∈ active_set w.
Proof.
  rewrite <- list_elem_of_In, (Listing.smembers_members (active_set w)).
  apply elem_of_elements.
Qed.

Lemma listing_members (networkFilter : option string) (w : World)
    (info : Listing.PublicFacilitatorInfo) :
  In info
     (Listing.sort_recent
        (omap (Listing.entry networkFilter)
           (map (fun id => kv w !! key_of id)
              (Listing.smembers (active_set w)))))
  <-> exists id f,
        id ∈ active_set w
        /\ kv w !! key_of id = Some f
        /\ info = Listing.publicInfo f
        /\ Listing.filtered_out networkFilter (Listing.network info) = false.
Proof.
  rewrite <- list_elem_of_In, sort_recent_perm, list_elem_of_omap.
  split.
  - intros (data & Hdata & Hentry).
    apply list_elem_of_In, in_map_iff in Hdata as (id & <- & Hid).
    apply smembers_elem in Hid.
    unfold Listing.entry in Hentry.
    destruct (kv w !! key_of id) as [f|] eqn:Hf; [|discriminate].
    destruct (Listing.filtered_out networkFilter
                (Listing.network (Listing.publicInfo f))) eqn:Hout;
      [discriminate|].
    injection Hentry as <-. now exists id, f.
  - intros (id & f & Hid & Hf & -> & Hout).
    exists (Some f). split.
    + apply list_elem_of_In, in_map_iff. exists id.
      split; [exact Hf | now apply smembers_elem].
    + unfold Listing.entry. now rewrite Hout.
Qed.

(** X17.  The listing shows the indexed records and nothing else, and it
    only reads: the entries are the public views of the records stored
    under the ids of the active index that pass the network filter, an id
    without a record yields no entry, the entries come most recently used
    first, a filter lets through entries of that network only, and the
    world is left as it was (the defaults a legacy record is shown with
    are not stored). *)
Theorem listing_shows_indexed_records
    (networkFilter : option string) (w : World) :
  exists infos,
    Listing.getActiveFacilitators networkFilter w = (Ok infos, w)
    /\ (forall info,
          In info infos
          <-> exists id f,
                id ∈ active_set w
                /\ kv w !! key_of id = Some f
                /\ info = Listing.publicInfo f
                /\ Listing.filtered_out networkFilter (Listing.network info)
                   = false)
    /\ recent_first infos
    /\ (forall wanted info,
          networkFilter = Some wanted ->
          JS.truthy wanted = true ->
          In info infos ->
          Listing.network info = wanted).
Proof.
  eexists. split; [apply getActiveFacilitators_run|].
  split; [intros info; apply listing_members|].
  split; [apply sort_recent_sorted|].
  intros wanted info -> Hwanted Hin.
  apply listing_members in Hin as (id & f & _ & _ & _ & Hout).
  unfold Listing.filtered_out in Hout. rewrite Hwanted in Hout.
  cbn [andb] in Hout. apply negb_false_iff in Hout.
  now apply String.eqb_eq.
Qed.

End ListingFacts.

(** ** Facilitators of one creator *)

Section CreatorFacts.

Import Runtime.
Context `{Listing.Index}.
Local Open Scope list_scope.

Lemma migration_only_refl (w : World) : migration_only w w.
Proof. repeat split. Qed.

Lemma migration_only_trans (w w1 w2 : World) :
  migration_only w w1 -> migration_only w1 w2 -> migration_only w w2.
Proof.
  intros (Hc1 & He1 & Ha1 & Hk1 & Hkv1) (Hc2 & He2 & Ha2 & Hk2 & Hkv2).
  split; [congruence|]. split; [congruence|]. split; [congruence|].
  split; [congruence|]. intros key. now rewrite Hkv2.
Qed.

Lemma read_world_migration_only (id : string) (f : Facilitator) (w : World) :
  kv w !! key_of id = Some f -> migration_only w (read_world id f w).
Proof.
  intros Hf.
  split; [apply read_world_chain|]. split; [apply read_world_events|].
  split; [apply read_world_active|]. split; [apply read_world_clock|].
  intros key. rewrite (read_world_kv _ _ _ Hf).
  destruct (decide (key_of id = key)) as [<-|Hne].
  - rewrite lookup_insert_eq, Hf. cbn. now rewrite read_record_idem.
  - now rewrite lookup_insert_ne.
Qed.

Lemma getFacilitator_migration_only (id : string) (w : World)
    (r : Result (option Facilitator)) (w' : World) :
  Storage.getFacilitator id w = (r, w') -> migration_only w w'.
Proof.
  destruct (kv w !! key_of id) as [f|] eqn:Hf.
  - rewrite (getFacilitator_found _ _ _ Hf). intros [= <- <-].
    now apply read_world_migration_only.
  - rewrite (getFacilitator_missing _ _ Hf). intros [= <- <-].
    apply migration_only_refl.
Qed.

Lemma read_record_createdBy (f : Facilitator) :
  createdBy (read_record f) = createdBy f.
Proof. unfold read_record. now destruct (legacy_record f). Qed.

(** The loop keeps, in order, the entries whose record was created by the
    address. *)
Lemma byCreator_filters (address : string) (w : World)
    (rest : list Listing.PublicFacilitatorInfo) :
  (forall info, In info rest ->
     exists f, kv w !! key_of (Listing.id info) = Some f
               /\ createdBy f = Listing.createdBy info) ->
  forall (kept : list Listing.PublicFacilitatorInfo) (w1 : World),
    migration_only w w1 ->
    exists w2,
      Listing.byCreator address rest kept w1
      = (Ok (kept
             ++ List.filter
                  (fun info => same_address (Listing.createdBy info) address)
                  rest), w2)
      /\ migration_only w w2.
Proof.
  induction rest as [|info rest IH]; intros Hbacked kept w1 Hw1.
  - exists w1. cbn. now rewrite app_nil_r.
  - destruct (Hbacked info (or_introl eq_refl)) as (f & Hf & Hcreator).
    assert (Hrest : forall i, In i rest ->
              exists g, kv w !! key_of (Listing.id i) = Some g
                        /\ createdBy g = Listing.createdBy i)
      by (intros i Hi; apply Hbacked; now right).
    pose proof (proj2 (proj2 (proj2 (proj2 Hw1))) (key_of (Listing.id info)))
      as Hsame.
    rewrite Hf in Hsame. cbn in Hsame.
    destruct (kv w1 !! key_of (Listing.id info)) as [f1|] eqn:Hf1;
      [|discriminate].
    injection Hsame as Hsame.
    cbn [Listing.byCreator]. unfold bind at 1.
    rewrite (getFacilitator_found _ _ _ Hf1).
    assert (Hmatch : String.eqb (Text.toLowerCase (createdBy (read_record f1)))
                       (Text.toLowerCase address)
                     = same_address (Listing.createdBy info) address).
    { unfold same_address.
      now rewrite Hsame, read_record_createdBy, Hcreator. }
    rewrite Hmatch. cbn [List.filter].
    pose proof (migration_only_trans _ _ _ Hw1
                  (read_world_migration_only _ _ _ Hf1)) as Hw1'.
    destruct (same_address (Listing.createdBy info) address).
    + destruct (IH Hrest (kept ++ [info]) _ Hw1') as (w2 & Hrun & Hw2).
      exists w2. rewrite Hrun, <- app_assoc. now split.
    + destruct (IH Hrest kept _ Hw1') as (w2 & Hrun & Hw2).
      exists w2. now split.
Qed.

(** X18.  On a store that keeps each record under the key of its id,
    [getFacilitatorsByCreator] returns the entries of the full listing
    whose creator is the given address up to the case of the letters, in
    the order of the listing; what it does to the world is the migration
    of the legacy records it reads, and nothing else. *)
Theorem creator_listing_filters_by_address (address : string) (w : World) :
  consistent w ->
  exists all infos w',
    Listing.getActiveFacilitators None w = (Ok all, w)
    /\ Listing.getFacilitatorsByCreator address w = (Ok infos, w')
    /\ infos
       = List.filter
           (fun info =>
              String.eqb (Text.toLowerCase (Listing.createdBy info))
                         (Text.toLowerCase address))
           all
    /\ chain w' = chain w
    /\ events w' = events w
    /\ active_set w' = active_set w
    /\ forall key : string,
         read_record <$> kv w' !! key = read_record <$> kv w !! key.
Proof.
  intros Hw.
  unfold Listing.getFacilitatorsByCreator, bind.
  rewrite getActiveFacilitators_run.
  set (all := Listing.sort_recent _).
  destruct (byCreator_filters address w all) with (kept := @nil Listing.PublicFacilitatorInfo) (w1 := w)
    as (w2 & Hrun & Hw2).
  - intros info Hin. apply listing_members in Hin as (id & f & _ & Hf & -> & _).
    exists f. split; [|reflexivity].
    cbn [Listing.publicInfo Listing.id].
    now rewrite (consistent_id w id f Hw Hf).
  - apply migration_only_refl.
  - cbn [app] in Hrun. destruct Hw2 as (Hchain & Hevents & Hactive & _ & Hkv).
    eexists all, _, w2. split; [reflexivity|]. split; [exact Hrun|].
    split; [reflexivity|]. repeat split; assumption.
Qed.

End CreatorFacts.

Lemma sample_world_consistent : consistent Samples.world.
Proof.
  intros key f. unfold Samples.world. cbn [Runtime.kv].
  destruct (decide (key = "facilitator:fac_1")) as [->|Hne1].
  - rewrite lookup_insert_eq. now intros [= <-].
  - rewrite lookup_insert_ne by congruence.
    destruct (decide (key = "facilitator:fac_old")) as [->|Hne2].
    + rewrite lookup_insert_eq. now intros [= <-].
    + rewrite lookup_insert_ne by congruence. now rewrite lookup_empty.
Defined.

Lemma creator_listing_filters_by_address_witness :
  exists infos w',
    Listing.getFacilitatorsByCreator (H := plain_index)
      "0x00000000000000000000000000000000000000C3" Samples.world
    = (Runtime.Ok infos, w')
    /\ map Listing.id infos = ["fac_1"; "fac_old"]
    /\ Runtime.chain w' = Runtime.chain Samples.world.
Proof.
  destruct (creator_listing_filters_by_address (H := plain_index)
              "0x00000000000000000000000000000000000000C3" Samples.world
              sample_world_consistent)
    as (all & infos & w' & Hall & Hrun & Hinfos & Hchain & _).
  exists infos, w'. split; [exact Hrun|]. split; [|exact Hchain].
  vm_compute in Hall. injection Hall as <-. subst infos.
  vm_compute. reflexivity.
Defined.

(** ** The delete route *)

Section DeleteFacts.

Import Runtime.
Context `{Listing.Index}.
Local Open Scope list_scope.

Lemma delete_run (request : DeleteRoute.Request) (w : World)
    (id user : string) (f : Facilitator) :
  DeleteRoute.facilitatorId request = Some id ->
  JS.truthy id = true ->
  DeleteRoute.userAddress request = Some user ->
  JS.truthy user = true ->
  kv w !! key_of id = Some f ->
  DeleteRoute.POST request w
  = if same_address (createdBy f) user
    then (Ok (Http.json 200
                [ ("success", JS.JBool true);
                  ("message", JS.JStr "Facilitator deleted successfully") ]),
          snd (redis_del (key_of id) (read_world id f w)))
    else (Ok (Http.json 403
                [("error",
                  JS.JStr "Only the creator can delete this facilitator")]),
          read_world id f w).
Proof.
  intros Hid Htruthy Huser Hut Hf.
  unfold DeleteRoute.POST, try_catch. rewrite Hid, Huser, Htruthy, Hut.
  cbn [negb orb]. unfold bind at 1. rewrite (getFacilitator_found _ _ _ Hf).
  rewrite read_record_createdBy. fold (same_address (createdBy f) user).
  destruct (same_address (createdBy f) user); reflexivity.
Qed.

(** X19.  Only the creator can delete a facilitator, and the comparison
    ignores the case of the letters: for any other address the answer is
    403 and the record stays; for the creator's the answer is 200 and the
    record is gone.  Either way no other record changes and the active
    index is not touched. *)
Theorem delete_route_only_for_creator
    (request : DeleteRoute.Request) (w : World)
    (id user : string) (f : Facilitator) :
  DeleteRoute.facilitatorId request = Some id ->
  JS.truthy id = true ->
  DeleteRoute.userAddress request = Some user ->
  JS.truthy user = true ->
  kv w !! key_of id = Some f ->
  exists response w',
    DeleteRoute.POST request w = (Ok response, w')
    /\ (Text.toLowerCase (createdBy f) <> Text.toLowerCase user ->
        Http.status response = 403
        /\ kv w' !! key_of id = Some (read_record f))
    /\ (Text.toLowerCase (createdBy f) = Text.toLowerCase user ->
        Http.status response = 200 /\ kv w' !! key_of id = None)
    /\ active_set w' = active_set w
    /\ chain w' = chain w
    /\ forall other : string,
         other <> id -> kv w' !! key_of other = kv w !! key_of other.
Proof.
  intros Hid Htruthy Huser Hut Hf.
  rewrite (delete_run request w id user f Hid Htruthy Huser Hut Hf).
  assert (Hothers : forall other, other <> id ->
            kv (read_world id f w) !! key_of other = kv w !! key_of other).
  { intros other Hother. rewrite (read_world_kv _ _ _ Hf).
    apply lookup_insert_ne. intros Heq. apply Hother. symmetry.
    now apply key_of_inj. }
  unfold same_address.
  destruct (String.eqb_spec (Text.toLowerCase (createdBy f))
              (Text.toLowerCase user)) as [Heq|Hne].
  - eexists _, _. split; [reflexivity|]. cbn [snd redis_del kv active_set chain].
    split; [intros Hcontra; contradiction|].
    split; [intros _; split; [reflexivity | apply lookup_delete_eq]|].
    split; [apply read_world_active|]. split; [apply read_world_chain|].
    intros other Hother. rewrite lookup_delete_ne.
    + now apply Hothers.
    + intros Hkeys. apply Hother. symmetry. now apply key_of_inj.
  - eexists _, _. split; [reflexivity|].
    split; [intros _; split; [reflexivity | now apply read_world_lookup]|].
    split; [intros Hcontra; contradiction|].
    split; [apply read_world_active|]. split; [apply read_world_chain|].
    exact Hothers.
Qed.

(** X20.  The delete route removes the record but not the entry of the
    active index, which [deleteFacilitator] would remove as well: after a
    successful deletion the id is still a member of the index, and the
    listing, which skips ids without a record, shows no entry for it. *)
Theorem deleted_id_stays_in_index
    (request : DeleteRoute.Request) (w : World)
    (id user : string) (f : Facilitator) :
  DeleteRoute.facilitatorId request = Some id ->
  JS.truthy id = true ->
  DeleteRoute.userAddress request = Some user ->
  JS.truthy user = true ->
  kv w !! key_of id = Some f ->
  Text.toLowerCase (createdBy f) = Text.toLowerCase user ->
  id ∈ active_set w ->
  consistent w ->
  exists response w' infos,
    DeleteRoute.POST request w = (Ok response, w')
    /\ Http.status response = 200
    /\ (id ∈ active_set w')
    /\ (id ∉ active_set (snd (Storage.deleteFacilitator id w)))
    /\ Listing.getActiveFacilitators None w' = (Ok infos, w')
    /\ forall info, In info infos -> Listing.id info <> id.
Proof.
  intros Hid Htruthy Huser Hut Hf Hcreator Hindexed Hw.
  rewrite (delete_run request w id user f Hid Htruthy Huser Hut Hf).
  unfold same_address. rewrite Hcreator, String.eqb_refl.
  set (w' := snd (redis_del (key_of id) (read_world id f w))).
  assert (Hgone : kv w' !! key_of id = None) by apply lookup_delete_eq.
  assert (Hw' : consistent w').
  { intros key g Hg. unfold w' in Hg. cbn [snd redis_del kv] in Hg.
    apply lookup_delete_Some in Hg as [_ Hg].
    exact (read_world_consistent id f w Hw Hf key g Hg). }
  eexists _, w', _. split; [reflexivity|]. split; [reflexivity|].
  split; [unfold w'; cbn [snd redis_del active_set];
          now rewrite read_world_active|].
  split.
  { rewrite deleteFacilitator_run. cbn [snd active_set].
    intros Hin. apply elem_of_difference in Hin as [_ Hn].
    apply Hn. now apply elem_of_singleton. }
  split; [apply getActiveFacilitators_run|].
  intros info Hin Hsame.
  apply listing_members in Hin as (id' & g & _ & Hg & -> & _).
  cbn [Listing.publicInfo Listing.id] in Hsame.
  rewrite (consistent_id w' id' g Hw' Hg) in Hsame. subst id'.
  congruence.
Qed.

End DeleteFacts.

Lemma delete_route_only_for_creator_witness :
  exists response w',
    DeleteRoute.POST delete_by_creator Samples.world = (Runtime.Ok response, w')
    /\ Http.status response = 200
    /\ Runtime.kv w' !! key_of "fac_1" = None
    /\ Runtime.kv w' !! key_of "fac_old" = Some Samples.legacy.
Proof.
  destruct (delete_route_only_for_creator delete_by_creator Samples.world
              "fac_1" "0x00000000000000000000000000000000000000C3" Samples.fac
              eq_refl eq_refl eq_refl eq_refl sample_fac_stored)
    as (response & w' & Hrun & _ & Hcreator & _ & _ & Hothers).
  exists response, w'. split; [exact Hrun|].
  destruct (Hcreator eq_refl) as [Hstatus Hgone].
  split; [exact Hstatus|]. split; [exact Hgone|].
  rewrite (Hothers "fac_old" ltac:(discriminate)). exact sample_legacy_stored.
Defined.

Lemma deleted_id_stays_in_index_witness :
  exists response w' infos,
    DeleteRoute.POST delete_by_creator Samples.world = (Runtime.Ok response, w')
    /\ ("fac_1" ∈ Runtime.active_set w')
    /\ Listing.getActiveFacilitators (H := plain_index) None w'
       = (Runtime.Ok infos, w')
    /\ map Listing.id infos = ["fac_old"].
Proof.
  destruct (deleted_id_stays_in_index (H := plain_index) delete_by_creator
              Samples.world "fac_1"
              "0x00000000000000000000000000000000000000C3" Samples.fac
              eq_refl eq_refl eq_refl eq_refl sample_fac_stored eq_refl
              ltac:(vm_compute; reflexivity) sample_world_consistent)
    as (response & w' & infos & Hrun & _ & Hstays & _ & Hlist & _).
  exists response, w', infos. split; [exact Hrun|]. split; [exact Hstays|].
  split; [exact Hlist|].
  vm_compute in Hrun. injection Hrun as <- <-.
  vm_compute in Hlist. injection Hlist as <-. reflexivity.
Defined.

(** ** The random route *)

Section RandomFacts.

Import Runtime.
Context `{Listing.Index} `{RandomRoute.Random}.
Local Open Scope list_scope.

Lemma listed_network_truthy (f : Facilitator) :
  JS.or_else (Some (listed_network f)) "avalanche-fuji" = listed_network f.
Proof.
  unfold listed_network, JS.or_else.
  destruct (network f) as [n|]; [|reflexivity].
  destruct (JS.truthy n) eqn:Hn; [now rewrite Hn | reflexivity].
Qed.

(** X21.  The random route hands out active facilitators of the requested
    network only: on a store that keeps each record under the key of its
    id, a 200 names a facilitator of the active index whose stored status
    is active and which is listed under the requested network (the default
    network when none is requested), and the 404 is given only when the
    index holds no such facilitator, and then the world is left as it was;
    the route sends nothing to the chain and leaves the index alone. *)
Theorem random_pick_is_active_on_network (network : option string) (w : World) :
  consistent w ->
  exists response w',
    RandomRoute.GET network w = (Ok response, w')
    /\ chain w' = chain w
    /\ active_set w' = active_set w
    /\ ((Http.status response = 200
         /\ exists id f,
              id ∈ active_set w
              /\ kv w !! key_of id = Some f
              /\ status f = active
              /\ listed_network f = JS.or_else network "avalanche-fuji"
              /\ JS.prop (JS.prop (Http.body response) "facilitator") "id"
                 = JS.JStr id
              /\ JS.prop (JS.prop (Http.body response) "facilitator")
                   "paymentRecipient"
                 = JS.JStr (paymentRecipient f))
        \/ (Http.status response = 404
            /\ w' = w
            /\ forall id f,
                 id ∈ active_set w ->
                 kv w !! key_of id = Some f ->
                 status f = active ->
                 listed_network f <> JS.or_else network "avalanche-fuji")).
Proof.
  intros Hw. unfold RandomRoute.GET, try_catch.
  unfold bind at 1. rewrite getActiveFacilitators_run.
  set (all := Listing.sort_recent _).
  set (wanted := JS.or_else network "avalanche-fuji").
  set (chosen := List.filter _ all).
  assert (Hall : forall info, In info all <->
            exists id f, id ∈ active_set w /\ kv w !! key_of id = Some f
                         /\ info = Listing.publicInfo f).
  { intros info. unfold all. rewrite listing_members. split.
    - intros (id & f & Hid & Hf & Hinfo & _). now exists id, f.
    - intros (id & f & Hid & Hf & Hinfo). now exists id, f. }
  assert (Hchosen : forall info, In info chosen ->
            exists id f, id ∈ active_set w /\ kv w !! key_of id = Some f
                         /\ info = Listing.publicInfo f
                         /\ status f = active /\ listed_network f = wanted).
  { intros info Hin. apply filter_In in Hin as [Hin Hpass].
    apply Hall in Hin as (id & f & Hid & Hf & ->).
    cbn [Listing.publicInfo Listing.network Listing.status] in Hpass.
    fold (listed_network f) in Hpass. rewrite listed_network_truthy in Hpass.
    apply andb_true_iff in Hpass as [Hnet Hst].
    apply String.eqb_eq in Hnet. apply Status_eqb_eq in Hst.
    now exists id, f. }
  destruct chosen as [|first rest] eqn:Hlist.
  - cbn [length Nat.eqb]. eexists _, w. split; [reflexivity|].
    split; [reflexivity|]. split; [reflexivity|]. right.
    split; [reflexivity|]. split; [reflexivity|].
    intros id f Hid Hf Hst Hnet.
    assert (Hin : In (Listing.publicInfo f) chosen).
    { unfold chosen. apply filter_In. split.
      - apply Hall. now exists id, f.
      - cbn [Listing.publicInfo Listing.network Listing.status].
        fold (listed_network f). rewrite listed_network_truthy, Hnet, Hst.
        now rewrite String.eqb_refl. }
    now rewrite Hlist in Hin.
  - cbn [length Nat.eqb]. unfold bind at 1.
    pose proof (RandomRoute.random_index_lt w (S (length rest))
                  ltac:(lia)) as Hlt.
    destruct (nth_error (first :: rest)
                (RandomRoute.random_index w (S (length rest))))
      as [selected|] eqn:Hnth.
    2:{ apply nth_error_None in Hnth. cbn [length] in Hnth. lia. }
    apply nth_error_In in Hnth.
    destruct (Hchosen selected Hnth) as (id & f & Hid & Hf & -> & Hst & Hnet).
    cbn [Listing.publicInfo Listing.id].
    rewrite (consistent_id w id f Hw Hf).
    unfold bind at 1. rewrite (getFacilitator_found _ _ _ Hf).
    eexists _, _. split; [reflexivity|].
    split; [apply read_world_chain|]. split; [apply read_world_active|].
    left. split; [reflexivity|]. exists id, f.
    split; [exact Hid|]. split; [exact Hf|]. split; [exact Hst|].
    split; [exact Hnet|]. cbn.
    rewrite read_record_id, (consistent_id w id f Hw Hf).
    split; [reflexivity|].
    unfold read_record. now destruct (legacy_record f).
Qed.

End RandomFacts.

Lemma random_pick_is_active_on_network_witness :
  exists response w',
    RandomRoute.GET (H := plain_index) (H0 := first_pick) None Samples.world
    = (Runtime.Ok response, w')
    /\ Http.status response = 200
    /\ JS.prop (JS.prop (Http.body response) "facilitator") "id"
       = JS.JStr "fac_1".
Proof.
  destruct (random_pick_is_active_on_network (H := plain_index)
              (H0 := first_pick) None Samples.world sample_world_consistent)
    as (response & w' & Hrun & _).
  exists response, w'. split; [exact Hrun|].
  vm_compute in Hrun. injection Hrun as <- <-. split; reflexivity.
Defined.

(** ** The default facilitator *)

Section DefaultFacts.

Import Runtime.
Context `{Externals}.
Local Open Scope list_scope.

Lemma call_of_fields (rpc key address : string)
    (signedAuth : ERC3009.SignedAuthorizationJSON) :
  let call := Signature.call_of rpc key address signedAuth in
  rpcUrl call = rpc /\ privateKey call = key /\ contractAddress call = address
  /\ Runtime.from call = ERC3009.from (ERC3009.authorization signedAuth)
  /\ Runtime.to call = ERC3009.to (ERC3009.authorization signedAuth)
  /\ Runtime.value call = ERC3009.value (ERC3009.authorization signedAuth)
  /\ Runtime.validAfter call
     = ERC3009.validAfter (ERC3009.authorization signedAuth)
  /\ Runtime.validBefore call
     = ERC3009.validBefore (ERC3009.authorization signedAuth)
  /\ Runtime.nonce call = ERC3009.nonce (ERC3009.authorization signedAuth).
Proof.
  unfold Signature.call_of.
  destruct (Signature.split _) as [[v0 r0] s0]. cbn. repeat split.
Qed.

Lemma default_run (env : JS.Env) (request : SettleDefault.Request) (w : World)
    (paymentPayload : SettleDefault.PaymentPayload)
    (signedAuth : ERC3009.SignedAuthorizationJSON)
    (networkConfig : Networks.NetworkConfig)
    (usdcContract : Contracts.USDCContract) (key wallet : string) :
  SettleDefault.paymentPayload request = Some paymentPayload ->
  SettleDefault.payload paymentPayload = Some signedAuth ->
  Networks.getNetworkConfig env (default_network request) = inr networkConfig ->
  Contracts.getUSDCContract env (default_network request) = inr usdcContract ->
  default_key env (default_network request) = Some key ->
  JS.truthy key = true ->
  walletAddress key = inr wallet ->
  let call :=
    Signature.call_of (Networks.rpcUrl networkConfig) key
      (Contracts.address usdcContract) signedAuth in
  let outcome := transferWithAuthorization (chain w) call in
  exists response,
    SettleDefault.POST env request w
    = (Ok response, sent_world call outcome w)
    /\ match outcome with
       | Mined hash _ =>
           Http.status response = 200
           /\ JS.prop (Http.body response) "txHash" = JS.JStr hash
           /\ JS.prop (Http.body response) "network"
              = JS.JStr (default_network request)
       | SubmitThrows message | WaitThrows _ message =>
           response = SettleDefault.failure message
       end.
Proof.
  intros Hpayload Hsigned Hnet Husdc Hkey Htruthy Hwallet call outcome.
  unfold SettleDefault.POST, try_catch. fold (default_network request).
  rewrite Hpayload.
  unfold bind at 1. rewrite Hnet. cbn [lift ret].
  unfold bind at 1. rewrite Husdc. cbn [lift ret].
  unfold bind at 1. cbn [Networks.entry_of lift ret].
  fold (default_key env (default_network request)).
  rewrite Hkey, Htruthy. cbn [negb].
  unfold bind at 1. rewrite Hwallet. cbn [lift ret].
  rewrite Hsigned. fold call.
  destruct (send_run call w) as (r & Hsend & Hr).
  unfold bind at 1. rewrite Hsend. fold outcome in Hr |- *.
  fold (sent_world call outcome w).
  destruct outcome as [message|hash message|hash receipt]; subst r;
    eexists; (split; [reflexivity|]); try reflexivity.
  repeat split.
Qed.

(** X22.  The default facilitator touches nothing but the chain: whatever
    the request, the handler answers with a response, leaves records,
    index, writes and audit log as they were, and hands the chain at most
    one call; that call goes to the RPC endpoint of the requested network
    and to the token contract of the registries, which is the verifying
    contract of the network's signing domain. *)
Theorem settle_default_touches_chain_only
    (env : JS.Env) (request : SettleDefault.Request) (w : World) :
  exists response w',
    SettleDefault.POST env request w = (Ok response, w')
    /\ kv w' = kv w
    /\ active_set w' = active_set w
    /\ writes w' = writes w
    /\ events w' = events w
    /\ (chain w' = chain w
        \/ exists call outcome (networkConfig : Networks.NetworkConfig),
             chain w' = chain w ++ [(call, outcome)]
             /\ Networks.getNetworkConfig env (default_network request)
                = inr networkConfig
             /\ rpcUrl call = Networks.rpcUrl networkConfig
             /\ contractAddress call = Networks.usdcAddress networkConfig
             /\ contractAddress call
                = Networks.verifyingContract
                    (Networks.erc3009Domain networkConfig)).
Proof.
  unfold SettleDefault.POST, try_catch. fold (default_network request).
  destruct (SettleDefault.paymentPayload request) as [paymentPayload|].
  2:{ eexists _, _. split; [reflexivity|]. repeat split. now left. }
  unfold bind at 1.
  destruct (Networks.getNetworkConfig env (default_network request))
    as [m|found] eqn:Hnet; cbn [lift throw ret].
  { eexists _, _. split; [reflexivity|]. repeat split. now left. }
  unfold bind at 1.
  destruct (Contracts.getUSDCContract env (default_network request))
    as [m|usdcContract] eqn:Husdc; cbn [lift throw ret].
  { eexists _, _. split; [reflexivity|]. repeat split. now left. }
  unfold bind at 1.
  destruct found as [networkConfig|]; cbn [Networks.entry_of lift throw ret].
  2:{ eexists _, _. split; [reflexivity|]. repeat split. now left. }
  fold (default_key env (default_network request)).
  destruct (default_key env (default_network request)) as [key|].
  2:{ eexists _, _. split; [reflexivity|]. repeat split. now left. }
  destruct (negb (JS.truthy key)).
  { eexists _, _. split; [reflexivity|]. repeat split. now left. }
  unfold bind at 1.
  destruct (walletAddress key) as [m|wallet]; cbn [lift throw ret].
  { eexists _, _. split; [reflexivity|]. repeat split. now left. }
  destruct (SettleDefault.payload paymentPayload) as [signedAuth|].
  2:{ eexists _, _. split; [reflexivity|]. repeat split. now left. }
  set (call := Signature.call_of _ _ _ _).
  destruct (send_run call w) as (r & Hsend & Hr).
  unfold bind at 1. rewrite Hsend.
  destruct (getUSDCContract_registered env _ _ Husdc)
    as (config & Hconfig & Haddress & Hverifying & _).
  rewrite Hnet in Hconfig. injection Hconfig as <-.
  destruct (call_of_fields (Networks.rpcUrl networkConfig) key
              (Contracts.address usdcContract) signedAuth)
    as (Hrpc & _ & Hcontract & _).
  fold call in Hrpc, Hcontract.
  destruct (transferWithAuthorization (chain w) call)
    as [message|hash message|hash receipt]; subst r;
    eexists _, _; (split; [reflexivity|]); cbn [kv active_set writes events chain];
    repeat (split; [reflexivity|]); right; exists call; eexists _, networkConfig;
    (split; [reflexivity|]); (split; [reflexivity|]);
    (split; [exact Hrpc|]); split; congruence.
Qed.

(** X23.  The default facilitator signs with the key configured for the
    network and falls back to the generic key; with neither it answers
    500 and leaves the world alone.  With a key and a usable wallet the
    one call it makes carries that key, the registry's endpoint and token
    contract, and the fields of the posted authorization as they are. *)
Theorem settle_default_key_choice
    (env : JS.Env) (request : SettleDefault.Request) (w : World)
    (paymentPayload : SettleDefault.PaymentPayload)
    (signedAuth : ERC3009.SignedAuthorizationJSON)
    (networkConfig : Networks.NetworkConfig)
    (usdcContract : Contracts.USDCContract) :
  SettleDefault.paymentPayload request = Some paymentPayload ->
  SettleDefault.payload paymentPayload = Some signedAuth ->
  Networks.getNetworkConfig env (default_network request) = inr networkConfig ->
  Contracts.getUSDCContract env (default_network request) = inr usdcContract ->
  let specific :=
    env ("DEFAULT_FACILITATOR_PRIVATE_KEY_"
         ++ Contracts.upper_snake (default_network request))%string in
  let generic := env "DEFAULT_FACILITATOR_PRIVATE_KEY" in
  exists response w',
    SettleDefault.POST env request w = (Ok response, w')
    /\ (JS.falsy_str specific = true /\ JS.falsy_str generic = true ->
        Http.status response = 500
        /\ Http.body response
           = JS.JObj [("error",
                       JS.JStr "Default facilitator not configured for this network")]
        /\ w' = w)
    /\ (forall key wallet,
          (if JS.falsy_str specific then generic else specific) = Some key ->
          JS.truthy key = true ->
          walletAddress key = inr wallet ->
          chain w'
          = chain w
            ++ [(Signature.call_of (Networks.rpcUrl networkConfig) key
                   (Contracts.address usdcContract) signedAuth,
                 transferWithAuthorization (chain w)
                   (Signature.call_of (Networks.rpcUrl networkConfig) key
                      (Contracts.address usdcContract) signedAuth))]).
Proof.
  intros Hpayload Hsigned Hnet Husdc specific generic.
  fold (default_key env (default_network request)).
  destruct (default_key env (default_network request)) as [key|] eqn:Hkey.
  - destruct (JS.truthy key) eqn:Htruthy.
    + destruct (walletAddress key) as [m|wallet] eqn:Hwallet.
      * unfold SettleDefault.POST, try_catch. fold (default_network request).
        rewrite Hpayload.
        unfold bind at 1. rewrite Hnet. cbn [lift ret].
        unfold bind at 1. rewrite Husdc. cbn [lift ret].
        unfold bind at 1. cbn [Networks.entry_of lift ret].
        fold (default_key env (default_network request)).
        rewrite Hkey, Htruthy. cbn [negb].
        unfold bind at 1. rewrite Hwallet. cbn [lift throw ret].
        eexists _, _. split; [reflexivity|]. split.
        -- intros [Hs Hg]. unfold default_key in Hkey. fold specific in Hkey.
           rewrite Hs in Hkey. fold generic in Hkey. rewrite Hkey in Hg.
           cbn in Hg. now rewrite Htruthy in Hg.
        -- intros key' wallet' Hchosen _ Hw'. unfold default_key in Hkey.
           fold specific generic in Hkey. congruence.
      * destruct (default_run env request w paymentPayload signedAuth
                    networkConfig usdcContract key wallet Hpayload Hsigned
                    Hnet Husdc Hkey Htruthy Hwallet)
          as (response & Hrun & _).
        eexists _, _. split; [exact Hrun|]. split.
        -- intros [Hs Hg]. unfold default_key in Hkey. fold specific in Hkey.
           rewrite Hs in Hkey. fold generic in Hkey. rewrite Hkey in Hg.
           cbn in Hg. now rewrite Htruthy in Hg.
        -- intros key' wallet' Hchosen _ _. unfold default_key in Hkey.
           fold specific generic in Hkey. rewrite Hkey in Hchosen.
           injection Hchosen as <-. reflexivity.
    + unfold SettleDefault.POST, try_catch. fold (default_network request).
      rewrite Hpayload.
      unfold bind at 1. rewrite Hnet. cbn [lift ret].
      unfold bind at 1. rewrite Husdc. cbn [lift ret].
      fold (default_key env (default_network request)).
      rewrite Hkey, Htruthy. cbn [negb ret].
      eexists _, _. split; [reflexivity|]. split.
      * intros _. repeat split.
      * intros key' wallet' Hchosen Hcontra. unfold default_key in Hkey.
        fold specific generic in Hkey. congruence.
  - unfold SettleDefault.POST, try_catch. fold (default_network request).
    rewrite Hpayload.
    unfold bind at 1. rewrite Hnet. cbn [lift ret].
    unfold bind at 1. rewrite Husdc. cbn [lift ret].
    fold (default_key env (default_network request)).
    rewrite Hkey. cbn [ret].
    eexists _, _. split; [reflexivity|]. split.
    + intros _. repeat split.
    + intros key' wallet' Hchosen. unfold default_key in Hkey.
      fold specific generic in Hkey. congruence.
Qed.

End DefaultFacts.

Lemma settle_default_key_choice_witness :
  exists response w',
    SettleDefault.POST (H := Samples.externals) default_env
      (default_request sample_exact "base-sepolia") Samples.world
    = (Runtime.Ok response, w')
    /\ map Runtime.privateKey (Runtime.submitted_calls (Runtime.chain w'))
       = ["base-key"]
    /\ map Runtime.contractAddress (Runtime.submitted_calls (Runtime.chain w'))
       = ["0x00000000000000000000000000000000000000aa"].
Proof.
  destruct (settle_default_key_choice (H := Samples.externals) default_env
              (default_request sample_exact "base-sepolia") Samples.world
              {| SettleDefault.payload := Some (ExactPayload.payload sample_exact) |}
              (ExactPayload.payload sample_exact) base_overridden base_usdc
              eq_refl eq_refl eq_refl eq_refl)
    as (response & w' & Hrun & _ & Hcall).
  exists response, w'. split; [exact Hrun|].
  rewrite (Hcall "base-key" "0x00000000000000000000000000000000000000f1"
             eq_refl eq_refl eq_refl).
  split; reflexivity.
Defined.

(** ** From the client's payload to the call of the default facilitator *)

Section ClientFacts.

Import Runtime.
Context `{ERC3009.Viem} `{Externals}.
Local Open Scope list_scope.

Lemma or_else_given (network d : string) :
  JS.truthy network = true -> JS.or_else (Some network) d = network.
Proof. intros Hn. unfold JS.or_else. now rewrite Hn. Qed.


Lemma getX402Config_inv (env : JS.Env) (network : option string)
    (config : X402.Config) :
  X402.getX402Config env network = inr config ->
  exists networkConfig : Networks.NetworkConfig,
    Networks.getNetworkConfig env (X402.NETWORK config) = inr networkConfig
    /\ X402.NETWORK config
       = JS.or_else network
           (JS.or_else (env "NEXT_PUBLIC_DEFAULT_NETWORK") "avalanche-fuji")
    /\ X402.USDC_ADDRESS config = Networks.usdcAddress networkConfig
    /\ X402.USDC_DECIMALS config = Networks.usdcDecimals networkConfig
    /\ X402.PAYMENT_RECIPIENT config = env "NEXT_PUBLIC_PAYMENT_RECIPIENT"
    /\ X402.VERSION config = 1
    /\ X402.TIMEOUT_SECONDS config = 300.
Proof.
  unfold X402.getX402Config.
  destruct (Networks.getNetworkEntry env _) as [m|networkConfig] eqn:Hnet;
    [discriminate|].
  intros [= <-]. exists networkConfig. cbn. repeat split.
  now apply getNetworkEntry_config.
Qed.

Lemma domain_of_config (env : JS.Env) (networkName : string)
    (config : Networks.NetworkConfig) :
  Networks.getNetworkConfig env networkName = inr config ->
  domain_matches config.
Proof.
  intros Hc. apply getNetworkConfig_entry in Hc. apply assoc_In in Hc.
  exact (proj1 (List.Forall_forall _ _) (registry_entries_consistent env) _ Hc).
Qed.

(** X24.  The payload [createX402ExactPayload] builds carries the wire
    form of the signed authorization, so the authorization can be read
    back from it exactly; it is stamped version 1, scheme exact, and with
    the requested network name or else the default of the environment, a
    name that [isNetworkSupported] accepts (which it does for the names of
    the table and also for the names of inherited members). *)
Theorem exact_payload_is_wire_form
    (env : JS.Env) (signedAuth : ERC3009.SignedAuthorization)
    (network : option string) (exact : ExactPayload.X402ExactPayload) :
  ExactPayload.createX402ExactPayload env signedAuth network = inr exact ->
  ExactPayload.payload exact = ERC3009.signedAuthorizationToJSON signedAuth
  /\ ERC3009.signedAuthorizationFromJSON (ExactPayload.payload exact)
     = Some signedAuth
  /\ ExactPayload.x402Version exact = 1
  /\ ExactPayload.scheme exact = "exact"%string
  /\ ExactPayload.network exact
     = JS.or_else network
         (JS.or_else (env "NEXT_PUBLIC_DEFAULT_NETWORK") "avalanche-fuji")
  /\ Networks.isNetworkSupported env (ExactPayload.network exact) = true.
Proof.
  unfold ExactPayload.createX402ExactPayload.
  destruct (X402.getX402Config env network) as [m|config] eqn:Hconfig;
    [discriminate|].
  intros [= <-]. cbn [ExactPayload.payload ExactPayload.x402Version
                       ExactPayload.scheme ExactPayload.network].
  destruct (getX402Config_inv _ _ _ Hconfig) as (cfg & Hnet & Hname & _).
  split; [reflexivity|]. split.
  { destruct signedAuth as [sig [f t v va vb n]].
    unfold ERC3009.signedAuthorizationFromJSON.
    cbn [ERC3009.authorization ERC3009.signature ERC3009.value
         ERC3009.validAfter ERC3009.validBefore ERC3009.from ERC3009.to
         ERC3009.nonce].
    now rewrite !parseDecimal_toString. }
  split; [reflexivity|]. split; [reflexivity|]. split; [exact Hname|].
  unfold Networks.isNetworkSupported. unfold Networks.getNetworkConfig in Hnet.
  now destruct (Networks.lookup env (X402.NETWORK config)).
Qed.

(** X25.  What the user signs is what the default facilitator submits:
    for an authorization made and signed for a named network and posted
    with that network, the call goes to the endpoint of the network whose
    chain id is in the signed domain, to the contract that is the
    verifying contract of the signed domain, with sender, recipient and
    nonce of the signed message and with decimal strings that read back
    as its value and its validity window. *)
Theorem signed_payment_reaches_signed_contract
    (env : JS.Env) (now_ms : Z) (random32 : list Byte.byte)
    (from to amountUSDC network signature : string)
    (authorization : ERC3009.TransferWithAuthorization)
    (typedData : ERC3009.TypedData) (exact : ExactPayload.X402ExactPayload)
    (usdcContract : Contracts.USDCContract) (key wallet : string) (w : World) :
  JS.truthy network = true ->
  ERC3009.createTransferAuthorization env now_ms random32 from to amountUSDC
    (Some network) = inr authorization ->
  ERC3009.getTypedDataForSigning env authorization (Some network)
    = inr typedData ->
  ExactPayload.createX402ExactPayload env
    (ERC3009.createSignedAuthorization authorization signature) None
    = inr exact ->
  Contracts.getUSDCContract env network = inr usdcContract ->
  default_key env network = Some key ->
  JS.truthy key = true ->
  walletAddress key = inr wallet ->
  exists response w' call outcome (networkConfig : Networks.NetworkConfig),
    SettleDefault.POST env (default_request exact network) w = (Ok response, w')
    /\ chain w' = chain w ++ [(call, outcome)]
    /\ Networks.getNetworkConfig env network = inr networkConfig
    /\ rpcUrl call = Networks.rpcUrl networkConfig
    /\ Networks.chainId (ERC3009.domain typedData)
       = Networks.id (Networks.chain networkConfig)
    /\ contractAddress call
       = Networks.verifyingContract (ERC3009.domain typedData)
    /\ Runtime.from call = ERC3009.from (ERC3009.message typedData)
    /\ Runtime.to call = ERC3009.to (ERC3009.message typedData)
    /\ Runtime.nonce call = ERC3009.nonce (ERC3009.message typedData)
    /\ ERC3009.parseDecimal (Runtime.value call)
       = Some (ERC3009.value (ERC3009.message typedData))
    /\ ERC3009.parseDecimal (Runtime.validAfter call) = Some (now_ms / 1000 - 60)
    /\ ERC3009.parseDecimal (Runtime.validBefore call)
       = Some (now_ms / 1000 + 300)
    /\ ERC3009.from (ERC3009.message typedData) = from
    /\ ERC3009.to (ERC3009.message typedData) = to.
Proof.
  intros Hnetwork Hauth Htyped Hexact Husdc Hkey Htruthy Hwallet.
  destruct (getUSDCContract_registered env _ _ Husdc)
    as (networkConfig & Hnet & Haddress & Hverifying & _).
  pose proof (domain_of_config _ _ _ Hnet) as [Hchain _].
  (* the typed data *)
  unfold ERC3009.getTypedDataForSigning, ERC3009.getERC3009Domain in Htyped.
  rewrite (or_else_given _ _ Hnetwork),
    (proj2 (getNetworkEntry_config _ _ _) Hnet) in Htyped.
  injection Htyped as <-.
  cbn [ERC3009.domain ERC3009.message].
  (* the authorization *)
  unfold ERC3009.createTransferAuthorization in Hauth.
  destruct (X402.getX402Config env (Some network)) as [m|config] eqn:Hconfig;
    [discriminate|].
  destruct (getX402Config_inv _ _ _ Hconfig)
    as (_ & _ & _ & _ & _ & _ & _ & Htimeout).
  destruct (ERC3009.parseUnits amountUSDC (X402.USDC_DECIMALS config))
    as [m|value]; [discriminate|].
  injection Hauth as <-. rewrite Htimeout in Hexact.
  (* the payload *)
  unfold ExactPayload.createX402ExactPayload in Hexact.
  destruct (X402.getX402Config env None) as [m|config0]; [discriminate|].
  injection Hexact as <-.
  (* the run *)
  match goal with
  | |- context [default_request ?e network] => set (exact := e)
  end.
  destruct (default_run env (default_request exact network) w
              {| SettleDefault.payload := Some (ExactPayload.payload exact) |}
              (ExactPayload.payload exact) networkConfig usdcContract key
              wallet eq_refl eq_refl Hnet Husdc Hkey Htruthy Hwallet)
    as (response & Hrun & _).
  destruct (call_of_fields (Networks.rpcUrl networkConfig) key
              (Contracts.address usdcContract) (ExactPayload.payload exact))
    as (Hrpc & _ & Hcontract & Hfrom & Hto & Hvalue & Hafter & Hbefore & Hnonce).
  eexists response, _, _, _, networkConfig.
  split; [exact Hrun|]. split; [reflexivity|]. split; [exact Hnet|].
  split; [exact Hrpc|]. split; [exact Hchain|].
  split; [now rewrite Hcontract, Hverifying|].
  split; [exact Hfrom|]. split; [exact Hto|]. split; [exact Hnonce|].
  split; [rewrite Hvalue; apply parseDecimal_toString|].
  split; [rewrite Hafter; apply parseDecimal_toString|].
  split; [rewrite Hbefore; apply parseDecimal_toString|].
  split; reflexivity.
Qed.



End ClientFacts.

Lemma exact_payload_is_wire_form_witness :
  ExactPayload.payload sample_exact
  = ERC3009.signedAuthorizationToJSON
      (ERC3009.createSignedAuthorization sample_authorization sample_signature)
  /\ ERC3009.signedAuthorizationFromJSON (ExactPayload.payload sample_exact)
     = Some (ERC3009.createSignedAuthorization sample_authorization
               sample_signature).
Proof.
  destruct (exact_payload_is_wire_form Samples.env
              (ERC3009.createSignedAuthorization sample_authorization
                 sample_signature) None sample_exact eq_refl)
    as (Hwire & Hback & _).
  split; [exact Hwire | exact Hback].
Defined.

Lemma signed_payment_reaches_signed_contract_witness :
  exists response w' call outcome (networkConfig : Networks.NetworkConfig),
    SettleDefault.POST (H := Samples.externals) default_env
      (default_request sample_exact "base-sepolia") Samples.world
    = (Runtime.Ok response, w')
    /\ Runtime.chain w' = (Runtime.chain Samples.world ++ [(call, outcome)])%list
    /\ Networks.getNetworkConfig default_env "base-sepolia" = inr networkConfig
    /\ Runtime.rpcUrl call = Networks.rpcUrl networkConfig
    /\ Runtime.contractAddress call
       = "0x00000000000000000000000000000000000000aa".
Proof.
  destruct (signed_payment_reaches_signed_contract (H := Samples.viem)
              (H0 := Samples.externals) default_env 1700000000123
              (repeat Byte.x2a 32)
              "0x00000000000000000000000000000000000000a1"
              "0x00000000000000000000000000000000000000b2" "1" "base-sepolia"
              sample_signature sample_authorization
              {| ERC3009.domain := Networks.erc3009Domain base_overridden;
                 ERC3009.types := ERC3009.ERC3009_TYPES;
                 ERC3009.primaryType := "TransferWithAuthorization";
                 ERC3009.message := sample_authorization |}
              sample_exact base_usdc "base-key"
              "0x00000000000000000000000000000000000000f1" Samples.world
              eq_refl eq_refl eq_refl eq_refl eq_refl eq_refl eq_refl eq_refl)
    as (response & w' & call & outcome & networkConfig & Hrun & Hchain & Hnet
        & Hrpc & _ & Hcontract & _).
  exists response, w', call, outcome, networkConfig.
  split; [exact Hrun|]. split; [exact Hchain|]. split; [exact Hnet|].
  split; [exact Hrpc | exact Hcontract].
Defined.



(** ** Creating a facilitator from an existing account *)

Section CreateFacts.

Import Runtime.
Context `{Externals} `{Listing.Index} `{CreateFromExisting.Registration}.
Local Open Scope list_scope.

Lemma account_stable (address : string) (id : string) (w : World)
    (r : Result (option Facilitator)) (w' : World)
    (info : Listing.PublicFacilitatorInfo) :
  Storage.getFacilitator id w = (r, w') ->
  account_of address w info -> account_of address w' info.
Proof.
  intros Hrun (base & Hbase & Hnl & Hsame).
  destruct (kv w !! key_of id) as [f|] eqn:Hf.
  - rewrite (getFacilitator_found _ _ _ Hf) in Hrun. injection Hrun as <- <-.
    exists base. split; [|now split].
    destruct (decide (key_of id = key_of (Listing.id info))) as [Heq|Hne].
    + rewrite Heq in Hf. rewrite Hbase in Hf. injection Hf as <-.
      unfold read_world. now rewrite Hnl.
    + rewrite (read_world_kv _ _ _ Hf). now rewrite lookup_insert_ne.
  - rewrite (getFacilitator_missing _ _ Hf) in Hrun. injection Hrun as <- <-.
    now exists base.
Qed.

(** The loop returns, and every entry it keeps stands for a migrated
    record of the address. *)
Lemma byCreator_accounts (address : string)
    (rest : list Listing.PublicFacilitatorInfo) :
  forall (kept : list Listing.PublicFacilitatorInfo) (w1 : World),
    (forall info, In info kept -> account_of address w1 info) ->
    exists infos w2,
      Listing.byCreator address rest kept w1 = (Ok infos, w2)
      /\ migration_only w1 w2
      /\ forall info, In info infos -> account_of address w2 info.
Proof.
  induction rest as [|info rest IH]; intros kept w1 Hkept.
  - exists kept, w1. split; [reflexivity|].
    split; [apply migration_only_refl | exact Hkept].
  - cbn [Listing.byCreator]. unfold bind at 1.
    destruct (Storage.getFacilitator (Listing.id info) w1) as [r w1'] eqn:Hget.
    pose proof (getFacilitator_migration_only _ _ _ _ Hget) as Hstep.
    assert (Hkept' : forall i, In i kept -> account_of address w1' i)
      by (intros i Hi; exact (account_stable _ _ _ _ _ _ Hget (Hkept i Hi))).
    destruct (kv w1 !! key_of (Listing.id info)) as [f1|] eqn:Hf1.
    + rewrite (getFacilitator_found _ _ _ Hf1) in Hget.
      injection Hget as <- <-.
      destruct (String.eqb (Text.toLowerCase (createdBy (read_record f1)))
                  (Text.toLowerCase address)) eqn:Hmatch.
      * destruct (IH (kept ++ [info]) (read_world (Listing.id info) f1 w1))
          as (infos & w2 & Hrun & Hw2 & Hacc).
        { intros i Hi. apply in_app_or in Hi as [Hi|[<-|[]]];
            [now apply Hkept'|].
          exists (read_record f1).
          split; [now apply read_world_lookup|].
          split; [apply read_record_not_legacy | exact Hmatch]. }
        exists infos, w2. split; [exact Hrun|].
        split; [exact (migration_only_trans _ _ _ Hstep Hw2) | exact Hacc].
      * destruct (IH kept (read_world (Listing.id info) f1 w1) Hkept')
          as (infos & w2 & Hrun & Hw2 & Hacc).
        exists infos, w2. split; [exact Hrun|].
        split; [exact (migration_only_trans _ _ _ Hstep Hw2) | exact Hacc].
    + rewrite (getFacilitator_missing _ _ Hf1) in Hget.
      injection Hget as <- <-.
      destruct (IH kept w1 Hkept') as (infos & w2 & Hrun & Hw2 & Hacc).
      exists infos, w2. split; [exact Hrun|]. split; [exact Hw2 | exact Hacc].
Qed.

Lemma getFacilitatorsByCreator_accounts (address : string) (w : World) :
  exists infos w2,
    Listing.getFacilitatorsByCreator address w = (Ok infos, w2)
    /\ migration_only w w2
    /\ forall info, In info infos -> account_of address w2 info.
Proof.
  unfold Listing.getFacilitatorsByCreator, bind.
  rewrite getActiveFacilitators_run.
  apply byCreator_accounts. intros info [].
Qed.



(** X29.  The route always answers, never touches the chain, and stores
    something only when it answers 200: after any other answer the
    records are those of before up to the migration of legacy records the
    route read, and index and audit log are unchanged. *)
Theorem create_stores_only_on_success
    (env : JS.Env) (request : CreateFromExisting.Request) (w : World) :
  exists response w',
    CreateFromExisting.POST env request w = (Ok response, w')
    /\ chain w' = chain w
    /\ (Http.status response <> 200 ->
        active_set w' = active_set w
        /\ events w' = events w
        /\ forall key : string,
             read_record <$> kv w' !! key = read_record <$> kv w !! key).
Proof.
  assert (Hsame : forall (response : Http.Response) (w0 : World),
            migration_only w w0 ->
            exists response' w',
              (Ok response, w0) = (Ok response', w')
              /\ chain w' = chain w
              /\ (Http.status response' <> 200 ->
                  active_set w' = active_set w
                  /\ events w' = events w
                  /\ forall key : string,
                       read_record <$> kv w' !! key
                       = read_record <$> kv w !! key)).
  { intros response w0 (Hc & He & Ha & _ & Hk).
    exists response, w0. split; [reflexivity|]. split; [exact Hc|].
    intros _. now repeat split. }
  pose proof (migration_only_refl w) as Hrefl.
  unfold CreateFromExisting.POST, try_catch.
  destruct (CreateFromExisting.name request) as [name|]; [|now apply Hsame].
  destruct (CreateFromExisting.password request) as [password|];
    [|now apply Hsame].
  destruct (CreateFromExisting.paymentRecipient request) as [recipient|];
    [|now apply Hsame].
  destruct (CreateFromExisting.createdBy request) as [creator|];
    [|now apply Hsame].
  destruct (CreateFromExisting.registrationTxHash request) as [tx|];
    [|now apply Hsame].
  destruct (CreateFromExisting.network request) as [networkName|];
    [|now apply Hsame].
  destruct (CreateFromExisting.chainId request) as [chain_id|];
    [|now apply Hsame].
  destruct (negb (JS.truthy name) || negb (JS.truthy password)
            || negb (JS.truthy recipient) || negb (JS.truthy creator)
            || negb (JS.truthy tx) || negb (JS.truthy networkName)
            || Z.eqb chain_id 0); [now apply Hsame|].
  destruct (Networks.isNetworkSupported env networkName) eqn:Hsupported;
    cbn [negb]; [|now apply Hsame].
  destruct ((JS.length name <? 3)%nat || (50 <? JS.length name)%nat);
    [now apply Hsame|].
  destruct (negb (Text.isAddress recipient)); [now apply Hsame|].
  destruct (negb (Text.isAddress creator)); [now apply Hsame|].
  unfold bind at 1.
  destruct (getFacilitatorsByCreator_accounts creator w)
    as (infos & w2 & Hlist & Hw2 & Haccounts).
  rewrite Hlist.
  destruct infos as [|first others]; [now apply Hsame|].
  destruct (Haccounts first (or_introl eq_refl)) as (base & Hbase & Hnl & _).
  unfold bind at 1.
  rewrite (getFacilitator_found _ _ _ Hbase).
  rewrite (read_record_fixed _ Hnl).
  unfold read_world. rewrite Hnl.
  destruct (decryptPrivateKey (encryptedPrivateKey base) password)
    as [m|key]; [now apply Hsame|].
  unfold bind at 1, CreateFromExisting.verify at 1.
  destruct (CreateFromExisting.verifyRegistrationPayment (chain w2) tx creator
              networkName) as [m|verification]; [now apply Hsame|].
  destruct (negb (CreateFromExisting.valid verification)); [now apply Hsame|].
  unfold bind at 1, CreateFromExisting.fresh_id at 1.
  unfold bind at 1, date_now at 1.
  unfold bind at 1, date_now at 1.
  unfold bind at 1. rewrite storeFacilitator_run.
  unfold bind at 1.
  destruct Hw2 as (Hchain & _).
  unfold Networks.isNetworkSupported in Hsupported.
  unfold Networks.getNetworkConfig.
  destruct (Networks.lookup env networkName) as [networkConfig|];
    [|discriminate].
  cbn [lift ret]. unfold bind, logEvent, ret.
  eexists _, _. split; [reflexivity|]. split; [exact Hchain|].
  intros Hcontra. cbn in Hcontra. congruence.
Qed.

End CreateFacts.


(** The route accepts the name of an inherited member as a network: with
    a verifier that accepts the payment it answers 200, stores the record
    under that network name and logs the event without a chain name. *)
Example creation_at_inherited_name :
  exists response w' new event,
    CreateFromExisting.POST (H := Samples.externals) (H0 := plain_index)
      (H1 := open_registration) Samples.env inherited_network Samples.world
    = (Runtime.Ok response, w')
    /\ Http.status response = 200
    /\ Runtime.kv w' !! key_of "fac_AbCdEfGhIjKlMnOp" = Some new
    /\ Runtime.network new = Some "toString"
    /\ Runtime.events w' = [event]
    /\ JS.assoc "chainName" event = Some JS.JUndefined.
Proof.
  destruct (CreateFromExisting.POST (H := Samples.externals) (H0 := plain_index)
              (H1 := open_registration) Samples.env inherited_network
              Samples.world) as [r w'] eqn:Hrun.
  vm_compute in Hrun. injection Hrun as <- <-.
  eexists _, _, _, _. split; [reflexivity|]. split; [reflexivity|].
  split; [vm_compute; reflexivity|]. repeat split.
Qed.

(** ** The balance route *)

Section BalanceFacts.

Import Runtime.
Context `{Externals} `{BalanceRoute.Format}.

Lemma isAddress_truthy (address : string) :
  Text.isAddress address = true -> JS.truthy address = true.
Proof. now destruct address. Qed.

(** X30.  The balance route and the funding check agree on every balance:
    for a well-formed address on a registered network the route reports
    [isFunded] exactly when the balance exceeds 10^14 wei, which is
    exactly when a funding check that reads the same balance makes the
    facilitator active; the route reads and changes nothing else. *)
Theorem balance_route_agrees_with_funding_check
    (env : JS.Env) (address : string) (network : option string)
    (networkConfig : Networks.NetworkConfig) (balance : Z) (w : World) :
  Text.isAddress address = true ->
  Networks.getNetworkConfig env (JS.or_else network "avalanche-fuji")
    = inr networkConfig ->
  getBalance (chain w) (Networks.rpcUrl networkConfig) address = inr balance ->
  exists response,
    BalanceRoute.GET env (Some address) network w = (Ok response, w)
    /\ Http.status response = 200
    /\ JS.prop (Http.body response) "isFunded" = JS.JBool (10 ^ 14 <? balance)
    /\ (JS.prop (Http.body response) "isFunded" = JS.JBool true
        <-> CheckAndActivate.newStatus balance = active)
    /\ JS.prop (Http.body response) "balanceWei"
       = JS.JStr (JS.bigint_toString balance).
Proof.
  intros Haddress Hnet Hbalance.
  unfold BalanceRoute.GET, try_catch.
  rewrite (isAddress_truthy _ Haddress), Haddress. cbn [negb].
  unfold bind at 1. rewrite Hnet. cbn [lift ret].
  unfold bind at 1. cbn [Networks.entry_of lift ret].
  unfold bind at 1, read_balance at 1. rewrite Hbalance.
  assert (Hfunded : Double.gtb (Double.of_wei balance)
                      CheckAndActivate.DEACTIVATION_THRESHOLD
                    = (10 ^ 14 <? balance)).
  { pose proof (newStatus_threshold balance) as Hstatus.
    unfold CheckAndActivate.newStatus in Hstatus.
    destruct (Double.gtb (Double.of_wei balance)
                CheckAndActivate.DEACTIVATION_THRESHOLD);
      destruct (10 ^ 14 <? balance); try reflexivity; discriminate. }
  rewrite Hfunded.
  eexists. split; [reflexivity|]. split; [reflexivity|].
  split; [reflexivity|]. split; [|reflexivity].
  change (JS.prop _ "isFunded") with (JS.JBool (10 ^ 14 <? balance)).
  rewrite newStatus_threshold.
  destruct (10 ^ 14 <? balance); split; intros Heq;
    try reflexivity; discriminate.
Qed.

End BalanceFacts.

Lemma balance_route_agrees_with_funding_check_witness :
  exists response,
    BalanceRoute.GET (H := Samples.externals) (H0 := wei_format) Samples.env
      (Some "0x00000000000000000000000000000000000000f1") None Samples.world
    = (Runtime.Ok response, Samples.world)
    /\ JS.prop (Http.body response) "isFunded" = JS.JBool true.
Proof.
  destruct (balance_route_agrees_with_funding_check (H := Samples.externals)
              (H0 := wei_format) Samples.env
              "0x00000000000000000000000000000000000000f1" None fuji_network
              (10 ^ 14 + 1) Samples.world eq_refl eq_refl eq_refl)
    as (response & Hrun & _ & Hfunded & _).
  exists response. split; [exact Hrun | exact Hfunded].
Defined.
